(** * powerscan: a shallow embedding of the scan planner, the accumulator,
      the scan loop and the command-line front end of [powerscan.c]

    The development follows the last revision of [powerscan.c] (the one that
    carries [plan_fft], [handle_fft_out] and the interrupt counter).

    Conventions of the embedding.
    - [Frequency], [ClockTime], [int] and [long] values are integers in [Z];
      C's integer division is [Z.quot] (truncation towards zero).  Signed
      arithmetic is taken inside the range of its C type.
    - [double] and [float] values are the rationals they denote ([Q]);
      rounding to the nearest representable value is not modelled.  [floor],
      [ceil] and the conversion to an integer type are [Qfloor], [Qceiling]
      and [Qtrunc].
    - Arrays are lists read with [!!] and written with [<[_:=_]>]; an access
      outside the array is the error [EBounds].
    - A function that can fail, or whose C behaviour is undefined on some
      input, returns a [result]. *)

From Stdlib Require Import ZArith QArith Qround Lia Lqa Bool Ascii String.
From stdpp Require Import base tactics option list.

Open Scope Z_scope.

(** ** Results *)

Inductive error : Type :=
  | EDivZero        (* integer division by zero *)
  | EBounds         (* array access outside the allocated block *)
  | EUndefined      (* conversion of an out-of-range or non-finite double *)
  | EUnmodelled     (* a non-finite value stored where the model keeps [Q] *)
  | EAlloc          (* "Unable to allocate FFT memory" *)
  | ENoDevice       (* "SoapySDR device %s not found." *)
  | ENoStart        (* "No start frequency was given" *)
  | EStream.        (* "Can't setup stream: %s" *)

Inductive result (A : Type) : Type :=
  | Ok (a : A)
  | Err (e : error).
Arguments Ok {A} a.
Arguments Err {A} e.

Definition bind {A B : Type} (r : result A) (k : A -> result B) : result B :=
  match r with
  | Ok a => k a
  | Err e => Err e
  end.

Notation "'do' x <- r ; k" := (bind r (fun x => k))
  (at level 10, x name, r at level 100, k at level 200).

(** ** Numbers *)

Definition Frequency := Z.
Definition ClockTime := Z.

Definition FFT_MAX_BITS : Z := 16.
Definition MIN_DWELL_TIME : Z := 100000.
Definition MAX_CROP_RATIO : Q := 6 # 10.
Definition RETUNE_USLEEP : Z := 5000.
Definition MAX_SAMPLES : Z := Z.shiftl 1 FFT_MAX_BITS.

(** Conversion of a double to an integer type: the fraction is discarded. *)
Definition Qtrunc (q : Q) : Z := Z.quot (Qnum q) (Zpos (Qden q)).

Definition INT64_MIN : Z := - 2 ^ 63.
Definition INT64_MAX : Z := 2 ^ 63 - 1.

(** Array read and write with the bounds made explicit. *)
Definition read {A : Type} (a : list A) (i : Z) : result A :=
  if i <? 0 then Err EBounds
  else match a !! Z.to_nat i with
       | Some x => Ok x
       | None => Err EBounds
       end.

Definition write {A : Type} (a : list A) (i : Z) (x : A) : result (list A) :=
  if (i <? 0) || (Z.of_nat (length a) <=? i) then Err EBounds
  else Ok (<[Z.to_nat i := x]> a).

(** ** The C library functions the front end calls

    [strtod], [atol] and [getopt] are not part of the repository; they are
    modelled from the C99 and POSIX descriptions. *)

Module Libc.

Definition code (c : ascii) : Z := Z.of_N (N_of_ascii c).

Definition isspace (c : ascii) : bool :=
  let n := code c in (n =? 32) || ((9 <=? n) && (n <=? 13)).

Definition digit_value (c : ascii) : option Z :=
  let n := code c in
  if (48 <=? n) && (n <=? 57) then Some (n - 48) else None.

Definition hex_digit_value (c : ascii) : option Z :=
  let n := code c in
  if (48 <=? n) && (n <=? 57) then Some (n - 48)
  else if (65 <=? n) && (n <=? 70) then Some (n - 55)
  else if (97 <=? n) && (n <=? 102) then Some (n - 87)
  else None.

Definition tolower (c : ascii) : ascii :=
  let n := code c in
  if (65 <=? n) && (n <=? 90) then ascii_of_N (Z.to_N (n + 32)) else c.

Fixpoint skip_spaces (s : string) : string :=
  match s with
  | String c rest => if isspace c then skip_spaces rest else s
  | EmptyString => s
  end.

(** An optional sign: whether it is [-], and what follows it. *)
Definition parse_sign (s : string) : bool * string :=
  match s with
  | String "-" rest => (true, rest)
  | String "+" rest => (false, rest)
  | _ => (false, s)
  end.

(** The longest run of digits in the given base at the head of [s]:
    the number it denotes on top of [acc], how many digits, and the rest. *)
Fixpoint digits (value : ascii -> option Z) (base : Z) (s : string) (acc : Z)
  : Z * Z * string :=
  match s with
  | String c rest =>
      match value c with
      | Some d =>
          let '(v, n, r) := digits value base rest (acc * base + d) in
          (v, n + 1, r)
      | None => (acc, 0, s)
      end
  | EmptyString => (acc, 0, s)
  end.

(** Case-insensitive match of a lower-case word at the head of [s]. *)
Fixpoint word_prefix (w s : string) : option string :=
  match w, s with
  | EmptyString, _ => Some s
  | String a w', String c s' =>
      if Ascii.eqb a (tolower c) then word_prefix w' s' else None
  | String _ _, EmptyString => None
  end.

(** The value of a subject sequence. *)
Inductive double_value : Type :=
  | Finite (q : Q)
  | Infinite (negative : bool)
  | NotANumber.

(** [m * base ^ e] as a rational. *)
Definition scale (m : Z) (base : Z) (e : Z) : Q :=
  if 0 <=? e then inject_Z (m * base ^ e)
  else Qmake m (Z.to_pos (base ^ (- e))).

(** An exponent part [e[+-]ddd] (or [p[+-]ddd]); absent or without digits it
    consumes nothing. *)
Definition exponent_part (marker : ascii) (s : string) : Z * string :=
  match s with
  | String c rest =>
      if Ascii.eqb (tolower c) marker then
        let '(neg, r1) := parse_sign rest in
        let '(e, n, r2) := digits digit_value 10 r1 0 in
        if n =? 0 then (0, s) else (if neg : bool then - e else e, r2)
      else (0, s)
  | EmptyString => (0, s)
  end.

(** A mantissa: digits with an optional radix character.  Returns the digits
    read as an integer, how many of them follow the point, how many there
    are, and the rest. *)
Definition mantissa (value : ascii -> option Z) (base : Z) (s : string)
  : Z * Z * Z * string :=
  let '(ip, ni, r1) := digits value base s 0 in
  match r1 with
  | String "." r2 =>
      let '(m, nf, r3) := digits value base r2 ip in
      if ni + nf =? 0 then (0, 0, 0, s) else (m, nf, ni + nf, r3)
  | _ => (ip, 0, ni, r1)
  end.

Definition is_nchar (c : ascii) : bool :=
  let n := code c in
  ((48 <=? n) && (n <=? 57)) || ((65 <=? n) && (n <=? 90))
  || ((97 <=? n) && (n <=? 122)) || (n =? 95).

Fixpoint skip_nchars (s : string) : string :=
  match s with
  | String c rest => if is_nchar c then skip_nchars rest else s
  | EmptyString => s
  end.

(** The subject sequence after the sign: [None] when there is none. *)
Definition unsigned_subject (s : string) : option (double_value * string) :=
  match word_prefix "infinity" s with
  | Some r => Some (Infinite false, r)
  | None =>
  match word_prefix "inf" s with
  | Some r => Some (Infinite false, r)
  | None =>
  match word_prefix "nan" s with
  | Some r =>
      match r with
      | String "(" r1 =>
          match skip_nchars r1 with
          | String ")" r2 => Some (NotANumber, r2)
          | _ => Some (NotANumber, r)
          end
      | _ => Some (NotANumber, r)
      end
  | None =>
  let decimal :=
    let '(m, nf, n, r1) := mantissa digit_value 10 s in
    if n =? 0 then None
    else let '(e, r2) := exponent_part "e" r1 in
         Some (Finite (scale m 10 (e - nf)), r2) in
  match word_prefix "0x" s with
  | Some r =>
      let '(m, nf, n, r1) := mantissa hex_digit_value 16 r in
      if n =? 0 then decimal
      else let '(e, r2) := exponent_part "p" r1 in
           Some (Finite (scale m 2 (e - 4 * nf)), r2)
  | None => decimal
  end end end end.

Definition negate (d : double_value) : double_value :=
  match d with
  | Finite q => Finite (- q)
  | Infinite n => Infinite (negb n)
  | NotANumber => NotANumber
  end.

(** [strtod cp &endptr]: the value, and the number of characters between [cp]
    and [endptr].  When no conversion is performed the value is zero and
    [endptr == cp]. *)
Definition strtod (cp : string) : double_value * nat :=
  let '(neg, s) := parse_sign (skip_spaces cp) in
  match unsigned_subject s with
  | Some (d, rest) =>
      (if neg then negate d else d, (String.length cp - String.length rest)%nat)
  | None => (Finite 0, 0%nat)
  end.

(** [atol]: [strtol] in base ten, the end pointer dropped. *)
Definition atol (s : string) : Z :=
  let '(neg, r) := parse_sign (skip_spaces s) in
  let '(v, _, _) := digits digit_value 10 r 0 in
  if neg then - v else v.

(** *** getopt

    The POSIX scanner: options are read from the arguments after [argv[0]]
    up to the first one that is not an option, [-] alone, or [--].  Each call
    of [getopt] yields one element of the list below: the option character
    (['?'] for a character that is not in [optstring], or for a missing
    argument) and [optarg]. *)

Inductive optspec : Type := NoSuchOption | Flag | TakesArgument.

Fixpoint lookup_option (optstring : string) (c : ascii) : optspec :=
  match optstring with
  | EmptyString => NoSuchOption
  | String o rest =>
      if Ascii.eqb o c && negb (Ascii.eqb c ":") then
        match rest with
        | String ":" _ => TakesArgument
        | _ => Flag
        end
      else lookup_option rest c
  end.

(** The options of one argument [-abc], given the arguments after it; the
    flag tells whether the next argument was taken as an [optarg]. *)
Fixpoint getopt_cluster (optstring cluster : string) (next : list string)
  : list (ascii * option string) * bool :=
  match cluster with
  | EmptyString => ([], false)
  | String c rest =>
      match lookup_option optstring c with
      | NoSuchOption =>
          let '(more, used) := getopt_cluster optstring rest next in
          (("?"%char, None) :: more, used)
      | Flag =>
          let '(more, used) := getopt_cluster optstring rest next in
          ((c, None) :: more, used)
      | TakesArgument =>
          match rest, next with
          | String _ _, _ => ([(c, Some rest)], false)
          | EmptyString, a :: _ => ([(c, Some a)], true)
          | EmptyString, [] => ([("?"%char, None)], false)
          end
      end
  end.

Fixpoint getopt_args (optstring : string) (args : list string)
  : list (ascii * option string) :=
  match args with
  | [] => []
  | a :: rest =>
      match a with
      | String "-" EmptyString => []
      | String "-" (String "-" EmptyString) => []
      | String "-" cluster =>
          let '(opts, used) := getopt_cluster optstring cluster rest in
          opts ++
          (if used then
             match rest with
             | [] => []
             | _ :: rest' => getopt_args optstring rest'
             end
           else getopt_args optstring rest)
      | _ => []
      end
  end.

(** The successive results of [getopt(argc, argv, optstring)]. *)
Definition getopt (argv : list string) (optstring : string)
  : list (ascii * option string) :=
  getopt_args optstring (tail argv).

End Libc.

(** ** The program configuration

    The program keeps one [ProgramConfiguration] for the parameters, the plan
    and the run-time buffers.  The sample type of the buffers is left open:
    [F] stands for [float] with its addition [fadd] and its zero [fzero], [C]
    for [fftwf_complex] with its magnitude [cabs]; [funinit] and [cuninit]
    are the contents of memory that [malloc] returns.  The device and stream
    handles, the FFT plan, the input buffer and the window table carry no
    property studied here and are left out. *)

Section Program.

Context {F C : Type}.
Variables (fzero funinit : F) (fadd : F -> F -> F).
Variables (cuninit : C) (cabs : C -> F).

Record ProgramConfiguration : Type := {
  sdr_name : option string;  (* The name of an SDR device known to SoapySDR *)
  sdr_channel : Z;
  gain : Z;  (* db of gain to use *)
  start_frequency : Frequency;  (* Lowest frequency to report *)
  end_frequency : Frequency;  (* Highest frequency to report *)
  frequency_resolution : Frequency;  (* Size of frequency step to report *)
  requested_sample_rate : Frequency;  (* Don't try to go faster than this, if set *)
  repetition_limit : Z;  (* Number of times to scan the range (0 = continuous) *)
  scan_time : Z;  (* Number of seconds for one scan (default = 10) *)
  crop_ratio : Q;  (* How much of each tuning range should we discard? *)
  verbose : bool;  (* Whether verbose output goes to stderr *)
  channel_count : Z;  (* How many channels are available on this device? *)
  sample_rates : list Q;  (* Available sample rates *)
  sample_rate : Q;  (* Selected sample rate *)
  tuning_count : Z;  (* Number of times we have to retune for one scan *)
  dwell_time : Z;  (* Number of microseconds for each tuning *)
  tuning_start : Frequency;  (* Initial centre frequency to tune *)
  tuning_bandwidth : Frequency;  (* Bandwidth to digitise *)
  current_frequency : Frequency;  (* Current frequency tuned *)
  fft_size : Z;
  fftw_out : list C;  (* FFT output buffer. [0] is DC *)
  fft_fill : Z;  (* Next fftw_in slot to fill *)
  fft_power : list F;  (* Power per frequency for this FFT *)
  power_accumulation : list F;  (* Accumulated power over the entire scan (all tunings) *)
  accumulation_count : Z;  (* How many times have we accumulated power *)
  power_buckets : Z;  (* Number of accumulated power buckets over the entire scan *)
  last_time : ClockTime;  (* Returned buffer timestamp or clock time received *)
  first_time : ClockTime  (* First returned buffer timestamp or clock time received *)
}.

Definition set_sdr_name (v : option string) (pc : ProgramConfiguration)
  : ProgramConfiguration :=
  {| sdr_name := v; sdr_channel := sdr_channel pc; gain := gain pc;
     start_frequency := start_frequency pc; end_frequency := end_frequency pc;
     frequency_resolution := frequency_resolution pc;
     requested_sample_rate := requested_sample_rate pc;
     repetition_limit := repetition_limit pc; scan_time := scan_time pc;
     crop_ratio := crop_ratio pc; verbose := verbose pc;
     channel_count := channel_count pc; sample_rates := sample_rates pc;
     sample_rate := sample_rate pc; tuning_count := tuning_count pc;
     dwell_time := dwell_time pc; tuning_start := tuning_start pc;
     tuning_bandwidth := tuning_bandwidth pc;
     current_frequency := current_frequency pc; fft_size := fft_size pc;
     fftw_out := fftw_out pc; fft_fill := fft_fill pc; fft_power := fft_power pc;
     power_accumulation := power_accumulation pc;
     accumulation_count := accumulation_count pc; power_buckets := power_buckets pc;
     last_time := last_time pc; first_time := first_time pc |}.

Definition set_sdr_channel (v : Z) (pc : ProgramConfiguration)
  : ProgramConfiguration :=
  {| sdr_name := sdr_name pc; sdr_channel := v; gain := gain pc;
     start_frequency := start_frequency pc; end_frequency := end_frequency pc;
     frequency_resolution := frequency_resolution pc;
     requested_sample_rate := requested_sample_rate pc;
     repetition_limit := repetition_limit pc; scan_time := scan_time pc;
     crop_ratio := crop_ratio pc; verbose := verbose pc;
     channel_count := channel_count pc; sample_rates := sample_rates pc;
     sample_rate := sample_rate pc; tuning_count := tuning_count pc;
     dwell_time := dwell_time pc; tuning_start := tuning_start pc;
     tuning_bandwidth := tuning_bandwidth pc;
     current_frequency := current_frequency pc; fft_size := fft_size pc;
     fftw_out := fftw_out pc; fft_fill := fft_fill pc; fft_power := fft_power pc;
     power_accumulation := power_accumulation pc;
     accumulation_count := accumulation_count pc; power_buckets := power_buckets pc;
     last_time := last_time pc; first_time := first_time pc |}.

Definition set_gain (v : Z) (pc : ProgramConfiguration)
  : ProgramConfiguration :=
  {| sdr_name := sdr_name pc; sdr_channel := sdr_channel pc; gain := v;
     start_frequency := start_frequency pc; end_frequency := end_frequency pc;
     frequency_resolution := frequency_resolution pc;
     requested_sample_rate := requested_sample_rate pc;
     repetition_limit := repetition_limit pc; scan_time := scan_time pc;
     crop_ratio := crop_ratio pc; verbose := verbose pc;
     channel_count := channel_count pc; sample_rates := sample_rates pc;
     sample_rate := sample_rate pc; tuning_count := tuning_count pc;
     dwell_time := dwell_time pc; tuning_start := tuning_start pc;
     tuning_bandwidth := tuning_bandwidth pc;
     current_frequency := current_frequency pc; fft_size := fft_size pc;
     fftw_out := fftw_out pc; fft_fill := fft_fill pc; fft_power := fft_power pc;
     power_accumulation := power_accumulation pc;
     accumulation_count := accumulation_count pc; power_buckets := power_buckets pc;
     last_time := last_time pc; first_time := first_time pc |}.

Definition set_start_frequency (v : Frequency) (pc : ProgramConfiguration)
  : ProgramConfiguration :=
  {| sdr_name := sdr_name pc; sdr_channel := sdr_channel pc; gain := gain pc;
     start_frequency := v; end_frequency := end_frequency pc;
     frequency_resolution := frequency_resolution pc;
     requested_sample_rate := requested_sample_rate pc;
     repetition_limit := repetition_limit pc; scan_time := scan_time pc;
     crop_ratio := crop_ratio pc; verbose := verbose pc;
     channel_count := channel_count pc; sample_rates := sample_rates pc;
     sample_rate := sample_rate pc; tuning_count := tuning_count pc;
     dwell_time := dwell_time pc; tuning_start := tuning_start pc;
     tuning_bandwidth := tuning_bandwidth pc;
     current_frequency := current_frequency pc; fft_size := fft_size pc;
     fftw_out := fftw_out pc; fft_fill := fft_fill pc; fft_power := fft_power pc;
     power_accumulation := power_accumulation pc;
     accumulation_count := accumulation_count pc; power_buckets := power_buckets pc;
     last_time := last_time pc; first_time := first_time pc |}.

Definition set_end_frequency (v : Frequency) (pc : ProgramConfiguration)
  : ProgramConfiguration :=
  {| sdr_name := sdr_name pc; sdr_channel := sdr_channel pc; gain := gain pc;
     start_frequency := start_frequency pc; end_frequency := v;
     frequency_resolution := frequency_resolution pc;
     requested_sample_rate := requested_sample_rate pc;
     repetition_limit := repetition_limit pc; scan_time := scan_time pc;
     crop_ratio := crop_ratio pc; verbose := verbose pc;
     channel_count := channel_count pc; sample_rates := sample_rates pc;
     sample_rate := sample_rate pc; tuning_count := tuning_count pc;
     dwell_time := dwell_time pc; tuning_start := tuning_start pc;
     tuning_bandwidth := tuning_bandwidth pc;
     current_frequency := current_frequency pc; fft_size := fft_size pc;
     fftw_out := fftw_out pc; fft_fill := fft_fill pc; fft_power := fft_power pc;
     power_accumulation := power_accumulation pc;
     accumulation_count := accumulation_count pc; power_buckets := power_buckets pc;
     last_time := last_time pc; first_time := first_time pc |}.

Definition set_frequency_resolution (v : Frequency) (pc : ProgramConfiguration)
  : ProgramConfiguration :=
  {| sdr_name := sdr_name pc; sdr_channel := sdr_channel pc; gain := gain pc;
     start_frequency := start_frequency pc; end_frequency := end_frequency pc;
     frequency_resolution := v; requested_sample_rate := requested_sample_rate pc;
     repetition_limit := repetition_limit pc; scan_time := scan_time pc;
     crop_ratio := crop_ratio pc; verbose := verbose pc;
     channel_count := channel_count pc; sample_rates := sample_rates pc;
     sample_rate := sample_rate pc; tuning_count := tuning_count pc;
     dwell_time := dwell_time pc; tuning_start := tuning_start pc;
     tuning_bandwidth := tuning_bandwidth pc;
     current_frequency := current_frequency pc; fft_size := fft_size pc;
     fftw_out := fftw_out pc; fft_fill := fft_fill pc; fft_power := fft_power pc;
     power_accumulation := power_accumulation pc;
     accumulation_count := accumulation_count pc; power_buckets := power_buckets pc;
     last_time := last_time pc; first_time := first_time pc |}.

Definition set_requested_sample_rate (v : Frequency) (pc : ProgramConfiguration)
  : ProgramConfiguration :=
  {| sdr_name := sdr_name pc; sdr_channel := sdr_channel pc; gain := gain pc;
     start_frequency := start_frequency pc; end_frequency := end_frequency pc;
     frequency_resolution := frequency_resolution pc; requested_sample_rate := v;
     repetition_limit := repetition_limit pc; scan_time := scan_time pc;
     crop_ratio := crop_ratio pc; verbose := verbose pc;
     channel_count := channel_count pc; sample_rates := sample_rates pc;
     sample_rate := sample_rate pc; tuning_count := tuning_count pc;
     dwell_time := dwell_time pc; tuning_start := tuning_start pc;
     tuning_bandwidth := tuning_bandwidth pc;
     current_frequency := current_frequency pc; fft_size := fft_size pc;
     fftw_out := fftw_out pc; fft_fill := fft_fill pc; fft_power := fft_power pc;
     power_accumulation := power_accumulation pc;
     accumulation_count := accumulation_count pc; power_buckets := power_buckets pc;
     last_time := last_time pc; first_time := first_time pc |}.

Definition set_repetition_limit (v : Z) (pc : ProgramConfiguration)
  : ProgramConfiguration :=
  {| sdr_name := sdr_name pc; sdr_channel := sdr_channel pc; gain := gain pc;
     start_frequency := start_frequency pc; end_frequency := end_frequency pc;
     frequency_resolution := frequency_resolution pc;
     requested_sample_rate := requested_sample_rate pc; repetition_limit := v;
     scan_time := scan_time pc; crop_ratio := crop_ratio pc; verbose := verbose pc;
     channel_count := channel_count pc; sample_rates := sample_rates pc;
     sample_rate := sample_rate pc; tuning_count := tuning_count pc;
     dwell_time := dwell_time pc; tuning_start := tuning_start pc;
     tuning_bandwidth := tuning_bandwidth pc;
     current_frequency := current_frequency pc; fft_size := fft_size pc;
     fftw_out := fftw_out pc; fft_fill := fft_fill pc; fft_power := fft_power pc;
     power_accumulation := power_accumulation pc;
     accumulation_count := accumulation_count pc; power_buckets := power_buckets pc;
     last_time := last_time pc; first_time := first_time pc |}.

Definition set_scan_time (v : Z) (pc : ProgramConfiguration)
  : ProgramConfiguration :=
  {| sdr_name := sdr_name pc; sdr_channel := sdr_channel pc; gain := gain pc;
     start_frequency := start_frequency pc; end_frequency := end_frequency pc;
     frequency_resolution := frequency_resolution pc;
     requested_sample_rate := requested_sample_rate pc;
     repetition_limit := repetition_limit pc; scan_time := v;
     crop_ratio := crop_ratio pc; verbose := verbose pc;
     channel_count := channel_count pc; sample_rates := sample_rates pc;
     sample_rate := sample_rate pc; tuning_count := tuning_count pc;
     dwell_time := dwell_time pc; tuning_start := tuning_start pc;
     tuning_bandwidth := tuning_bandwidth pc;
     current_frequency := current_frequency pc; fft_size := fft_size pc;
     fftw_out := fftw_out pc; fft_fill := fft_fill pc; fft_power := fft_power pc;
     power_accumulation := power_accumulation pc;
     accumulation_count := accumulation_count pc; power_buckets := power_buckets pc;
     last_time := last_time pc; first_time := first_time pc |}.

Definition set_crop_ratio (v : Q) (pc : ProgramConfiguration)
  : ProgramConfiguration :=
  {| sdr_name := sdr_name pc; sdr_channel := sdr_channel pc; gain := gain pc;
     start_frequency := start_frequency pc; end_frequency := end_frequency pc;
     frequency_resolution := frequency_resolution pc;
     requested_sample_rate := requested_sample_rate pc;
     repetition_limit := repetition_limit pc; scan_time := scan_time pc;
     crop_ratio := v; verbose := verbose pc; channel_count := channel_count pc;
     sample_rates := sample_rates pc; sample_rate := sample_rate pc;
     tuning_count := tuning_count pc; dwell_time := dwell_time pc;
     tuning_start := tuning_start pc; tuning_bandwidth := tuning_bandwidth pc;
     current_frequency := current_frequency pc; fft_size := fft_size pc;
     fftw_out := fftw_out pc; fft_fill := fft_fill pc; fft_power := fft_power pc;
     power_accumulation := power_accumulation pc;
     accumulation_count := accumulation_count pc; power_buckets := power_buckets pc;
     last_time := last_time pc; first_time := first_time pc |}.

Definition set_verbose (v : bool) (pc : ProgramConfiguration)
  : ProgramConfiguration :=
  {| sdr_name := sdr_name pc; sdr_channel := sdr_channel pc; gain := gain pc;
     start_frequency := start_frequency pc; end_frequency := end_frequency pc;
     frequency_resolution := frequency_resolution pc;
     requested_sample_rate := requested_sample_rate pc;
     repetition_limit := repetition_limit pc; scan_time := scan_time pc;
     crop_ratio := crop_ratio pc; verbose := v; channel_count := channel_count pc;
     sample_rates := sample_rates pc; sample_rate := sample_rate pc;
     tuning_count := tuning_count pc; dwell_time := dwell_time pc;
     tuning_start := tuning_start pc; tuning_bandwidth := tuning_bandwidth pc;
     current_frequency := current_frequency pc; fft_size := fft_size pc;
     fftw_out := fftw_out pc; fft_fill := fft_fill pc; fft_power := fft_power pc;
     power_accumulation := power_accumulation pc;
     accumulation_count := accumulation_count pc; power_buckets := power_buckets pc;
     last_time := last_time pc; first_time := first_time pc |}.

Definition set_channel_count (v : Z) (pc : ProgramConfiguration)
  : ProgramConfiguration :=
  {| sdr_name := sdr_name pc; sdr_channel := sdr_channel pc; gain := gain pc;
     start_frequency := start_frequency pc; end_frequency := end_frequency pc;
     frequency_resolution := frequency_resolution pc;
     requested_sample_rate := requested_sample_rate pc;
     repetition_limit := repetition_limit pc; scan_time := scan_time pc;
     crop_ratio := crop_ratio pc; verbose := verbose pc; channel_count := v;
     sample_rates := sample_rates pc; sample_rate := sample_rate pc;
     tuning_count := tuning_count pc; dwell_time := dwell_time pc;
     tuning_start := tuning_start pc; tuning_bandwidth := tuning_bandwidth pc;
     current_frequency := current_frequency pc; fft_size := fft_size pc;
     fftw_out := fftw_out pc; fft_fill := fft_fill pc; fft_power := fft_power pc;
     power_accumulation := power_accumulation pc;
     accumulation_count := accumulation_count pc; power_buckets := power_buckets pc;
     last_time := last_time pc; first_time := first_time pc |}.

Definition set_sample_rates (v : list Q) (pc : ProgramConfiguration)
  : ProgramConfiguration :=
  {| sdr_name := sdr_name pc; sdr_channel := sdr_channel pc; gain := gain pc;
     start_frequency := start_frequency pc; end_frequency := end_frequency pc;
     frequency_resolution := frequency_resolution pc;
     requested_sample_rate := requested_sample_rate pc;
     repetition_limit := repetition_limit pc; scan_time := scan_time pc;
     crop_ratio := crop_ratio pc; verbose := verbose pc;
     channel_count := channel_count pc; sample_rates := v;
     sample_rate := sample_rate pc; tuning_count := tuning_count pc;
     dwell_time := dwell_time pc; tuning_start := tuning_start pc;
     tuning_bandwidth := tuning_bandwidth pc;
     current_frequency := current_frequency pc; fft_size := fft_size pc;
     fftw_out := fftw_out pc; fft_fill := fft_fill pc; fft_power := fft_power pc;
     power_accumulation := power_accumulation pc;
     accumulation_count := accumulation_count pc; power_buckets := power_buckets pc;
     last_time := last_time pc; first_time := first_time pc |}.

Definition set_sample_rate (v : Q) (pc : ProgramConfiguration)
  : ProgramConfiguration :=
  {| sdr_name := sdr_name pc; sdr_channel := sdr_channel pc; gain := gain pc;
     start_frequency := start_frequency pc; end_frequency := end_frequency pc;
     frequency_resolution := frequency_resolution pc;
     requested_sample_rate := requested_sample_rate pc;
     repetition_limit := repetition_limit pc; scan_time := scan_time pc;
     crop_ratio := crop_ratio pc; verbose := verbose pc;
     channel_count := channel_count pc; sample_rates := sample_rates pc;
     sample_rate := v; tuning_count := tuning_count pc; dwell_time := dwell_time pc;
     tuning_start := tuning_start pc; tuning_bandwidth := tuning_bandwidth pc;
     current_frequency := current_frequency pc; fft_size := fft_size pc;
     fftw_out := fftw_out pc; fft_fill := fft_fill pc; fft_power := fft_power pc;
     power_accumulation := power_accumulation pc;
     accumulation_count := accumulation_count pc; power_buckets := power_buckets pc;
     last_time := last_time pc; first_time := first_time pc |}.

Definition set_tuning_count (v : Z) (pc : ProgramConfiguration)
  : ProgramConfiguration :=
  {| sdr_name := sdr_name pc; sdr_channel := sdr_channel pc; gain := gain pc;
     start_frequency := start_frequency pc; end_frequency := end_frequency pc;
     frequency_resolution := frequency_resolution pc;
     requested_sample_rate := requested_sample_rate pc;
     repetition_limit := repetition_limit pc; scan_time := scan_time pc;
     crop_ratio := crop_ratio pc; verbose := verbose pc;
     channel_count := channel_count pc; sample_rates := sample_rates pc;
     sample_rate := sample_rate pc; tuning_count := v; dwell_time := dwell_time pc;
     tuning_start := tuning_start pc; tuning_bandwidth := tuning_bandwidth pc;
     current_frequency := current_frequency pc; fft_size := fft_size pc;
     fftw_out := fftw_out pc; fft_fill := fft_fill pc; fft_power := fft_power pc;
     power_accumulation := power_accumulation pc;
     accumulation_count := accumulation_count pc; power_buckets := power_buckets pc;
     last_time := last_time pc; first_time := first_time pc |}.

Definition set_dwell_time (v : Z) (pc : ProgramConfiguration)
  : ProgramConfiguration :=
  {| sdr_name := sdr_name pc; sdr_channel := sdr_channel pc; gain := gain pc;
     start_frequency := start_frequency pc; end_frequency := end_frequency pc;
     frequency_resolution := frequency_resolution pc;
     requested_sample_rate := requested_sample_rate pc;
     repetition_limit := repetition_limit pc; scan_time := scan_time pc;
     crop_ratio := crop_ratio pc; verbose := verbose pc;
     channel_count := channel_count pc; sample_rates := sample_rates pc;
     sample_rate := sample_rate pc; tuning_count := tuning_count pc; dwell_time := v;
     tuning_start := tuning_start pc; tuning_bandwidth := tuning_bandwidth pc;
     current_frequency := current_frequency pc; fft_size := fft_size pc;
     fftw_out := fftw_out pc; fft_fill := fft_fill pc; fft_power := fft_power pc;
     power_accumulation := power_accumulation pc;
     accumulation_count := accumulation_count pc; power_buckets := power_buckets pc;
     last_time := last_time pc; first_time := first_time pc |}.

Definition set_tuning_start (v : Frequency) (pc : ProgramConfiguration)
  : ProgramConfiguration :=
  {| sdr_name := sdr_name pc; sdr_channel := sdr_channel pc; gain := gain pc;
     start_frequency := start_frequency pc; end_frequency := end_frequency pc;
     frequency_resolution := frequency_resolution pc;
     requested_sample_rate := requested_sample_rate pc;
     repetition_limit := repetition_limit pc; scan_time := scan_time pc;
     crop_ratio := crop_ratio pc; verbose := verbose pc;
     channel_count := channel_count pc; sample_rates := sample_rates pc;
     sample_rate := sample_rate pc; tuning_count := tuning_count pc;
     dwell_time := dwell_time pc; tuning_start := v;
     tuning_bandwidth := tuning_bandwidth pc;
     current_frequency := current_frequency pc; fft_size := fft_size pc;
     fftw_out := fftw_out pc; fft_fill := fft_fill pc; fft_power := fft_power pc;
     power_accumulation := power_accumulation pc;
     accumulation_count := accumulation_count pc; power_buckets := power_buckets pc;
     last_time := last_time pc; first_time := first_time pc |}.

Definition set_tuning_bandwidth (v : Frequency) (pc : ProgramConfiguration)
  : ProgramConfiguration :=
  {| sdr_name := sdr_name pc; sdr_channel := sdr_channel pc; gain := gain pc;
     start_frequency := start_frequency pc; end_frequency := end_frequency pc;
     frequency_resolution := frequency_resolution pc;
     requested_sample_rate := requested_sample_rate pc;
     repetition_limit := repetition_limit pc; scan_time := scan_time pc;
     crop_ratio := crop_ratio pc; verbose := verbose pc;
     channel_count := channel_count pc; sample_rates := sample_rates pc;
     sample_rate := sample_rate pc; tuning_count := tuning_count pc;
     dwell_time := dwell_time pc; tuning_start := tuning_start pc;
     tuning_bandwidth := v; current_frequency := current_frequency pc;
     fft_size := fft_size pc; fftw_out := fftw_out pc; fft_fill := fft_fill pc;
     fft_power := fft_power pc; power_accumulation := power_accumulation pc;
     accumulation_count := accumulation_count pc; power_buckets := power_buckets pc;
     last_time := last_time pc; first_time := first_time pc |}.

Definition set_current_frequency (v : Frequency) (pc : ProgramConfiguration)
  : ProgramConfiguration :=
  {| sdr_name := sdr_name pc; sdr_channel := sdr_channel pc; gain := gain pc;
     start_frequency := start_frequency pc; end_frequency := end_frequency pc;
     frequency_resolution := frequency_resolution pc;
     requested_sample_rate := requested_sample_rate pc;
     repetition_limit := repetition_limit pc; scan_time := scan_time pc;
     crop_ratio := crop_ratio pc; verbose := verbose pc;
     channel_count := channel_count pc; sample_rates := sample_rates pc;
     sample_rate := sample_rate pc; tuning_count := tuning_count pc;
     dwell_time := dwell_time pc; tuning_start := tuning_start pc;
     tuning_bandwidth := tuning_bandwidth pc; current_frequency := v;
     fft_size := fft_size pc; fftw_out := fftw_out pc; fft_fill := fft_fill pc;
     fft_power := fft_power pc; power_accumulation := power_accumulation pc;
     accumulation_count := accumulation_count pc; power_buckets := power_buckets pc;
     last_time := last_time pc; first_time := first_time pc |}.

Definition set_fft_size (v : Z) (pc : ProgramConfiguration)
  : ProgramConfiguration :=
  {| sdr_name := sdr_name pc; sdr_channel := sdr_channel pc; gain := gain pc;
     start_frequency := start_frequency pc; end_frequency := end_frequency pc;
     frequency_resolution := frequency_resolution pc;
     requested_sample_rate := requested_sample_rate pc;
     repetition_limit := repetition_limit pc; scan_time := scan_time pc;
     crop_ratio := crop_ratio pc; verbose := verbose pc;
     channel_count := channel_count pc; sample_rates := sample_rates pc;
     sample_rate := sample_rate pc; tuning_count := tuning_count pc;
     dwell_time := dwell_time pc; tuning_start := tuning_start pc;
     tuning_bandwidth := tuning_bandwidth pc;
     current_frequency := current_frequency pc; fft_size := v; fftw_out := fftw_out pc;
     fft_fill := fft_fill pc; fft_power := fft_power pc;
     power_accumulation := power_accumulation pc;
     accumulation_count := accumulation_count pc; power_buckets := power_buckets pc;
     last_time := last_time pc; first_time := first_time pc |}.

Definition set_fftw_out (v : list C) (pc : ProgramConfiguration)
  : ProgramConfiguration :=
  {| sdr_name := sdr_name pc; sdr_channel := sdr_channel pc; gain := gain pc;
     start_frequency := start_frequency pc; end_frequency := end_frequency pc;
     frequency_resolution := frequency_resolution pc;
     requested_sample_rate := requested_sample_rate pc;
     repetition_limit := repetition_limit pc; scan_time := scan_time pc;
     crop_ratio := crop_ratio pc; verbose := verbose pc;
     channel_count := channel_count pc; sample_rates := sample_rates pc;
     sample_rate := sample_rate pc; tuning_count := tuning_count pc;
     dwell_time := dwell_time pc; tuning_start := tuning_start pc;
     tuning_bandwidth := tuning_bandwidth pc;
     current_frequency := current_frequency pc; fft_size := fft_size pc; fftw_out := v;
     fft_fill := fft_fill pc; fft_power := fft_power pc;
     power_accumulation := power_accumulation pc;
     accumulation_count := accumulation_count pc; power_buckets := power_buckets pc;
     last_time := last_time pc; first_time := first_time pc |}.

Definition set_fft_fill (v : Z) (pc : ProgramConfiguration)
  : ProgramConfiguration :=
  {| sdr_name := sdr_name pc; sdr_channel := sdr_channel pc; gain := gain pc;
     start_frequency := start_frequency pc; end_frequency := end_frequency pc;
     frequency_resolution := frequency_resolution pc;
     requested_sample_rate := requested_sample_rate pc;
     repetition_limit := repetition_limit pc; scan_time := scan_time pc;
     crop_ratio := crop_ratio pc; verbose := verbose pc;
     channel_count := channel_count pc; sample_rates := sample_rates pc;
     sample_rate := sample_rate pc; tuning_count := tuning_count pc;
     dwell_time := dwell_time pc; tuning_start := tuning_start pc;
     tuning_bandwidth := tuning_bandwidth pc;
     current_frequency := current_frequency pc; fft_size := fft_size pc;
     fftw_out := fftw_out pc; fft_fill := v; fft_power := fft_power pc;
     power_accumulation := power_accumulation pc;
     accumulation_count := accumulation_count pc; power_buckets := power_buckets pc;
     last_time := last_time pc; first_time := first_time pc |}.

Definition set_fft_power (v : list F) (pc : ProgramConfiguration)
  : ProgramConfiguration :=
  {| sdr_name := sdr_name pc; sdr_channel := sdr_channel pc; gain := gain pc;
     start_frequency := start_frequency pc; end_frequency := end_frequency pc;
     frequency_resolution := frequency_resolution pc;
     requested_sample_rate := requested_sample_rate pc;
     repetition_limit := repetition_limit pc; scan_time := scan_time pc;
     crop_ratio := crop_ratio pc; verbose := verbose pc;
     channel_count := channel_count pc; sample_rates := sample_rates pc;
     sample_rate := sample_rate pc; tuning_count := tuning_count pc;
     dwell_time := dwell_time pc; tuning_start := tuning_start pc;
     tuning_bandwidth := tuning_bandwidth pc;
     current_frequency := current_frequency pc; fft_size := fft_size pc;
     fftw_out := fftw_out pc; fft_fill := fft_fill pc; fft_power := v;
     power_accumulation := power_accumulation pc;
     accumulation_count := accumulation_count pc; power_buckets := power_buckets pc;
     last_time := last_time pc; first_time := first_time pc |}.

Definition set_power_accumulation (v : list F) (pc : ProgramConfiguration)
  : ProgramConfiguration :=
  {| sdr_name := sdr_name pc; sdr_channel := sdr_channel pc; gain := gain pc;
     start_frequency := start_frequency pc; end_frequency := end_frequency pc;
     frequency_resolution := frequency_resolution pc;
     requested_sample_rate := requested_sample_rate pc;
     repetition_limit := repetition_limit pc; scan_time := scan_time pc;
     crop_ratio := crop_ratio pc; verbose := verbose pc;
     channel_count := channel_count pc; sample_rates := sample_rates pc;
     sample_rate := sample_rate pc; tuning_count := tuning_count pc;
     dwell_time := dwell_time pc; tuning_start := tuning_start pc;
     tuning_bandwidth := tuning_bandwidth pc;
     current_frequency := current_frequency pc; fft_size := fft_size pc;
     fftw_out := fftw_out pc; fft_fill := fft_fill pc; fft_power := fft_power pc;
     power_accumulation := v; accumulation_count := accumulation_count pc;
     power_buckets := power_buckets pc; last_time := last_time pc;
     first_time := first_time pc |}.

Definition set_accumulation_count (v : Z) (pc : ProgramConfiguration)
  : ProgramConfiguration :=
  {| sdr_name := sdr_name pc; sdr_channel := sdr_channel pc; gain := gain pc;
     start_frequency := start_frequency pc; end_frequency := end_frequency pc;
     frequency_resolution := frequency_resolution pc;
     requested_sample_rate := requested_sample_rate pc;
     repetition_limit := repetition_limit pc; scan_time := scan_time pc;
     crop_ratio := crop_ratio pc; verbose := verbose pc;
     channel_count := channel_count pc; sample_rates := sample_rates pc;
     sample_rate := sample_rate pc; tuning_count := tuning_count pc;
     dwell_time := dwell_time pc; tuning_start := tuning_start pc;
     tuning_bandwidth := tuning_bandwidth pc;
     current_frequency := current_frequency pc; fft_size := fft_size pc;
     fftw_out := fftw_out pc; fft_fill := fft_fill pc; fft_power := fft_power pc;
     power_accumulation := power_accumulation pc; accumulation_count := v;
     power_buckets := power_buckets pc; last_time := last_time pc;
     first_time := first_time pc |}.

Definition set_power_buckets (v : Z) (pc : ProgramConfiguration)
  : ProgramConfiguration :=
  {| sdr_name := sdr_name pc; sdr_channel := sdr_channel pc; gain := gain pc;
     start_frequency := start_frequency pc; end_frequency := end_frequency pc;
     frequency_resolution := frequency_resolution pc;
     requested_sample_rate := requested_sample_rate pc;
     repetition_limit := repetition_limit pc; scan_time := scan_time pc;
     crop_ratio := crop_ratio pc; verbose := verbose pc;
     channel_count := channel_count pc; sample_rates := sample_rates pc;
     sample_rate := sample_rate pc; tuning_count := tuning_count pc;
     dwell_time := dwell_time pc; tuning_start := tuning_start pc;
     tuning_bandwidth := tuning_bandwidth pc;
     current_frequency := current_frequency pc; fft_size := fft_size pc;
     fftw_out := fftw_out pc; fft_fill := fft_fill pc; fft_power := fft_power pc;
     power_accumulation := power_accumulation pc;
     accumulation_count := accumulation_count pc; power_buckets := v;
     last_time := last_time pc; first_time := first_time pc |}.

Definition set_last_time (v : ClockTime) (pc : ProgramConfiguration)
  : ProgramConfiguration :=
  {| sdr_name := sdr_name pc; sdr_channel := sdr_channel pc; gain := gain pc;
     start_frequency := start_frequency pc; end_frequency := end_frequency pc;
     frequency_resolution := frequency_resolution pc;
     requested_sample_rate := requested_sample_rate pc;
     repetition_limit := repetition_limit pc; scan_time := scan_time pc;
     crop_ratio := crop_ratio pc; verbose := verbose pc;
     channel_count := channel_count pc; sample_rates := sample_rates pc;
     sample_rate := sample_rate pc; tuning_count := tuning_count pc;
     dwell_time := dwell_time pc; tuning_start := tuning_start pc;
     tuning_bandwidth := tuning_bandwidth pc;
     current_frequency := current_frequency pc; fft_size := fft_size pc;
     fftw_out := fftw_out pc; fft_fill := fft_fill pc; fft_power := fft_power pc;
     power_accumulation := power_accumulation pc;
     accumulation_count := accumulation_count pc; power_buckets := power_buckets pc;
     last_time := v; first_time := first_time pc |}.

Definition set_first_time (v : ClockTime) (pc : ProgramConfiguration)
  : ProgramConfiguration :=
  {| sdr_name := sdr_name pc; sdr_channel := sdr_channel pc; gain := gain pc;
     start_frequency := start_frequency pc; end_frequency := end_frequency pc;
     frequency_resolution := frequency_resolution pc;
     requested_sample_rate := requested_sample_rate pc;
     repetition_limit := repetition_limit pc; scan_time := scan_time pc;
     crop_ratio := crop_ratio pc; verbose := verbose pc;
     channel_count := channel_count pc; sample_rates := sample_rates pc;
     sample_rate := sample_rate pc; tuning_count := tuning_count pc;
     dwell_time := dwell_time pc; tuning_start := tuning_start pc;
     tuning_bandwidth := tuning_bandwidth pc;
     current_frequency := current_frequency pc; fft_size := fft_size pc;
     fftw_out := fftw_out pc; fft_fill := fft_fill pc; fft_power := fft_power pc;
     power_accumulation := power_accumulation pc;
     accumulation_count := accumulation_count pc; power_buckets := power_buckets pc;
     last_time := last_time pc; first_time := v |}.

(** *** Parameters *)

Definition default_parameters : ProgramConfiguration :=
  {| sdr_name := None; sdr_channel := 0; gain := 0;
     start_frequency := 0; end_frequency := 0; frequency_resolution := 0;
     requested_sample_rate := 0;
     repetition_limit := 0; scan_time := 10;
     crop_ratio := 25 # 100;
     verbose := false;
     channel_count := 0; sample_rates := []; sample_rate := 0%Q;
     tuning_count := 0; dwell_time := 0; tuning_start := 0;
     tuning_bandwidth := 0; current_frequency := 0;
     fft_size := 0; fftw_out := []; fft_fill := 0; fft_power := [];
     power_accumulation := []; accumulation_count := 0; power_buckets := 0;
     last_time := 0; first_time := 0 |}.

(** [(Frequency)d]: defined when [d] is finite and its integer part fits. *)
Definition to_Frequency (d : Libc.double_value) : result Frequency :=
  match d with
  | Libc.Finite q =>
      let z := Qtrunc q in
      if (INT64_MIN <=? z) && (z <=? INT64_MAX) then Ok z else Err EUndefined
  | _ => Err EUndefined
  end.

(** [d *= k] *)
Definition times (d : Libc.double_value) (k : Z) : Libc.double_value :=
  match d with
  | Libc.Finite q => Libc.Finite (q * inject_Z k)
  | other => other
  end.

(** [*endptr], where [endptr] is [n] characters into [cp]; the terminator is
    the character zero. *)
Definition deref (cp : string) (n : nat) : ascii :=
  match String.get n cp with
  | Some c => c
  | None => Ascii.zero
  end.

Definition invalid_frequency (cp : string) : string :=
  ("Invalid frequency specification: " ++ cp)%string.

(** [frequency_from_str]: the frequency returned, and the lines written to
    [stderr]. *)
Definition frequency_from_str (cp : string) : result (Frequency * list string) :=
  let '(d, endptr) := Libc.strtod cp in
  let invalid := Ok (0, [invalid_frequency cp]) in
  if Nat.eqb endptr 0 then invalid
  else
    let suffix := deref cp endptr in
    if Ascii.eqb suffix "k" || Ascii.eqb suffix "K" then
      do f <- to_Frequency (times d 1000); Ok (f, [])
    else if Ascii.eqb suffix "m" || Ascii.eqb suffix "M" then
      do f <- to_Frequency (times d 1000000); Ok (f, [])
    else if Ascii.eqb suffix "g" || Ascii.eqb suffix "G" then
      do f <- to_Frequency (times d 1000000000); Ok (f, [])
    else if Ascii.eqb suffix Ascii.zero then
      do f <- to_Frequency d; Ok (f, [])
    else invalid.

Definition optstring : string := "vd:C:a:g:s:e:r:c:1l:t:h?".

(** The body of the [while ((opt = getopt(...)) != -1)] loop, over the
    successive results of [getopt].  The result is the returned flag, the
    configuration, and the lines [frequency_from_str] wrote to [stderr]. *)
Fixpoint gather_options (opts : list (ascii * option string))
    (pc : ProgramConfiguration) (log : list string)
  : result (bool * ProgramConfiguration * list string) :=
  match opts with
  | [] => Ok (true, pc, log)
  | (opt, arg) :: rest =>
      let optarg := default EmptyString arg in
      if Ascii.eqb opt "v" then gather_options rest (set_verbose true pc) log
      else if Ascii.eqb opt "d" then
        let pc := set_sdr_name (Some optarg) pc in
        if String.eqb optarg "help" then Ok (false, pc, log)
        else gather_options rest pc log
      else if Ascii.eqb opt "C" then
        gather_options rest (set_sdr_channel (Libc.atol optarg) pc) log
      else if Ascii.eqb opt "g" then
        gather_options rest (set_gain (Libc.atol optarg) pc) log
      else if Ascii.eqb opt "s" then
        do r <- frequency_from_str optarg;
        gather_options rest (set_start_frequency (fst r) pc) (log ++ snd r)
      else if Ascii.eqb opt "e" then
        do r <- frequency_from_str optarg;
        gather_options rest (set_end_frequency (fst r) pc) (log ++ snd r)
      else if Ascii.eqb opt "r" then
        do r <- frequency_from_str optarg;
        gather_options rest (set_frequency_resolution (fst r) pc) (log ++ snd r)
      else if Ascii.eqb opt "R" then
        do r <- frequency_from_str optarg;
        gather_options rest (set_requested_sample_rate (fst r) pc) (log ++ snd r)
      else if Ascii.eqb opt "t" then
        gather_options rest (set_scan_time (Libc.atol optarg) pc) log
      else if Ascii.eqb opt "c" then
        match fst (Libc.strtod optarg) with
        | Libc.Finite q => gather_options rest (set_crop_ratio q pc) log
        | _ => Err EUnmodelled
        end
      else if Ascii.eqb opt "1" then
        gather_options rest (set_repetition_limit 1 pc) log
      else if Ascii.eqb opt "l" then
        gather_options rest (set_repetition_limit (Libc.atol optarg) pc) log
      else Ok (false, pc, log)
  end.

Definition gather_parameters (argv : list string)
  : result (bool * ProgramConfiguration * list string) :=
  gather_options (Libc.getopt argv optstring) default_parameters [].

(** *** Initialisation *)

Definition Qltb (a b : Q) : bool := negb (Qle_bool b a).

(** What the device and the allocator answer during initialisation. *)
Record Device : Type := {
  device_found : bool;              (* SoapySDRDevice_makeStrArgs *)
  device_sample_rates : list Q;     (* SoapySDRDevice_listSampleRates *)
  device_channels : Z;              (* SoapySDRDevice_getNumChannels *)
  stream_ok : bool;                 (* SoapySDRDevice_setupStream *)
  memory_ok : bool                  (* fftwf_malloc, malloc, calloc *)
}.

Fixpoint select_loop (rates : list Q) (pc : ProgramConfiguration)
  : ProgramConfiguration :=
  match rates with
  | [] => pc
  | r :: rest =>
      select_loop rest
        (if Qltb (sample_rate pc) r
            && ((requested_sample_rate pc =? 0)
                || Qle_bool r (inject_Z (requested_sample_rate pc)))
         then set_sample_rate r pc
         else pc)
  end.

Definition select_sample_rate (pc : ProgramConfiguration) : ProgramConfiguration :=
  select_loop (sample_rates pc) pc.

(** [plan_tuning].  A tuning bandwidth of zero makes the quotient infinite or
    not a number, whose conversion to [int] is undefined; a tuning count of
    zero makes the dwell time a division by zero. *)
Definition plan_tuning (pc : ProgramConfiguration) : result ProgramConfiguration :=
  let total_scan :=
    end_frequency pc - start_frequency pc
    + Qfloor (crop_ratio pc * sample_rate pc) in
  let pc := set_tuning_bandwidth (Qceiling (sample_rate pc * (1 - crop_ratio pc))) pc in
  let pc := set_tuning_start (start_frequency pc + tuning_bandwidth pc ÷ 2) pc in
  if tuning_bandwidth pc =? 0 then Err EUndefined
  else
    let pc :=
      set_tuning_count
        (Qceiling (inject_Z total_scan / inject_Z (tuning_bandwidth pc))) pc in
    if tuning_count pc =? 0 then Err EDivZero
    else
      let pc := set_dwell_time (1000000 * scan_time pc ÷ tuning_count pc) pc in
      Ok (if dwell_time pc <? MIN_DWELL_TIME
          then set_dwell_time MIN_DWELL_TIME pc
          else pc).

Definition setup_stream (dev : Device) (pc : ProgramConfiguration)
  : result ProgramConfiguration :=
  let pc := set_channel_count (device_channels dev) pc in
  if (sdr_channel pc <? 0) || (channel_count pc <=? sdr_channel pc) then Err EStream
  else if stream_ok dev then Ok pc
  else Err EStream.

(** [plan_fft].  The first assignment to [fft_size] is overwritten by the
    second, as in the source.  A resolution of zero makes the bucket count a
    division by zero.  The buffers are the blocks the allocator returns:
    [calloc] clears [power_accumulation], the others hold what memory held;
    a negative bucket count is a size no allocator grants. *)
Definition plan_fft (dev : Device) (pc : ProgramConfiguration)
  : result ProgramConfiguration :=
  let pc := set_fft_size (Qtrunc (sample_rate pc / inject_Z (frequency_resolution pc))) pc in
  let pc := set_fft_size 8192 pc in
  let pc := set_fft_fill 0 pc in
  let pc := if fft_size pc <? 4 then set_fft_size 4 pc else pc in
  let pc := set_frequency_resolution (Qtrunc (sample_rate pc / inject_Z (fft_size pc))) pc in
  if frequency_resolution pc =? 0 then Err EDivZero
  else
    let pc :=
      set_power_buckets
        ((end_frequency pc - start_frequency pc + frequency_resolution pc - 1)
         ÷ frequency_resolution pc) pc in
    let pc := set_fftw_out (replicate (Z.to_nat (fft_size pc)) cuninit) pc in
    let pc := set_fft_power (replicate (Z.to_nat (fft_size pc)) funinit) pc in
    let pc := set_power_accumulation (replicate (Z.to_nat (power_buckets pc)) fzero) pc in
    let pc := set_accumulation_count 0 pc in
    if memory_ok dev && (0 <=? power_buckets pc) then Ok pc else Err EAlloc.

(** The blocks of [initialise_configuration], in the order it runs them. *)

(** "Limit the crop ratio to something sensible" *)
Definition limit_crop_ratio (pc : ProgramConfiguration) : ProgramConfiguration :=
  if Qltb MAX_CROP_RATIO (crop_ratio pc) then set_crop_ratio MAX_CROP_RATIO pc
  else if Qltb (crop_ratio pc) 0 then set_crop_ratio 0%Q pc
  else pc.

(** "Ignoring end frequency below start frequency", then "Center around
    start frequency, maximum bandwidth" *)
Definition default_end_frequency (pc : ProgramConfiguration) : ProgramConfiguration :=
  let pc :=
    if (0 <? end_frequency pc) && (end_frequency pc <=? start_frequency pc)
    then set_end_frequency 0 pc
    else pc in
  if end_frequency pc <=? 0 then
    let default_bandwidth := Qtrunc (sample_rate pc * (1 - crop_ratio pc)) in
    let pc := set_end_frequency (start_frequency pc + default_bandwidth ÷ 2) pc in
    set_start_frequency (end_frequency pc - default_bandwidth) pc
  else pc.

(** "Requested frequency resolution is too small", and the default. *)
Definition default_frequency_resolution (pc : ProgramConfiguration)
  : ProgramConfiguration :=
  let pc :=
    if negb (frequency_resolution pc =? 0)
       && (MAX_SAMPLES <? Qfloor (sample_rate pc / inject_Z (frequency_resolution pc)))
    then set_frequency_resolution 0 pc
    else pc in
  if frequency_resolution pc =? 0 then
    let pc :=
      set_frequency_resolution (Qfloor (sample_rate pc / inject_Z MAX_SAMPLES)) pc in
    if frequency_resolution pc =? 0 then set_frequency_resolution 1 pc else pc
  else pc.

Definition initialise_configuration (dev : Device) (pc : ProgramConfiguration)
  : result ProgramConfiguration :=
  if negb (device_found dev) then Err ENoDevice
  else
    let pc := set_sample_rates (device_sample_rates dev) pc in
    let pc := select_sample_rate pc in
    let pc := limit_crop_ratio pc in
    if start_frequency pc <=? 0 then Err ENoStart
    else
      let pc := default_end_frequency pc in
      let pc := default_frequency_resolution pc in
      do pc <- plan_tuning pc;
      do pc <- setup_stream dev pc;
      plan_fft dev pc.

(** *** The accumulator *)

(** [fft_power[s-1] = cabs(fftw_out[s])] for [n] values of [s] from [s]. *)
Fixpoint magnitudes (n : nat) (s : Z) (out : list C) (power : list F)
  : result (list F) :=
  match n with
  | O => Ok power
  | S n' =>
      do c <- read out s;
      do power' <- write power (s - 1) (cabs c);
      magnitudes n' (s + 1) out power'
  end.

(** [power_accumulation[lowest_bin+s] += fft_power[s]] for [n] values of [s]
    from [s]. *)
Fixpoint accumulate (n : nat) (s : Z) (lowest_bin : Z) (power acc : list F)
  : result (list F) :=
  match n with
  | O => Ok acc
  | S n' =>
      do p <- read power s;
      do a <- read acc (lowest_bin + s);
      do acc' <- write acc (lowest_bin + s) (fadd a p);
      accumulate n' (s + 1) lowest_bin power acc'
  end.

Definition lowest_frequency_retained (pc : ProgramConfiguration) : Frequency :=
  current_frequency pc - tuning_bandwidth pc ÷ 2.

Definition lowest_bin (pc : ProgramConfiguration) : Z :=
  (lowest_frequency_retained pc - start_frequency pc) ÷ frequency_resolution pc.

Definition bin_count (pc : ProgramConfiguration) : Z :=
  tuning_bandwidth pc ÷ frequency_resolution pc.

(** The test that lets a frame into the accumulator. *)
Definition in_range (pc : ProgramConfiguration) : bool :=
  negb ((lowest_bin pc <? 0) || (power_buckets pc <? lowest_bin pc + bin_count pc)).

Definition handle_fft_out (pc : ProgramConfiguration) : result ProgramConfiguration :=
  do power <- magnitudes (Z.to_nat (fft_size pc - 1)) 1 (fftw_out pc) (fft_power pc);
  let pc := set_fft_power power pc in
  if frequency_resolution pc =? 0 then Err EDivZero
  else if negb (in_range pc) then Ok pc
  else
    do acc <- accumulate (Z.to_nat (bin_count pc)) 0 (lowest_bin pc)
                (fft_power pc) (power_accumulation pc);
    let pc := set_power_accumulation acc pc in
    Ok (set_accumulation_count (accumulation_count pc + 1) pc).

(** The frames an execution hands to the accumulator: each is the tuning in
    force and the FFT output in place when [handle_fft_out] is called. *)
Definition deliver (pc : ProgramConfiguration) (frame : Frequency * list C)
  : result ProgramConfiguration :=
  handle_fft_out (set_fftw_out (snd frame) (set_current_frequency (fst frame) pc)).

Fixpoint deliver_all (pc : ProgramConfiguration) (frames : list (Frequency * list C))
  : result ProgramConfiguration :=
  match frames with
  | [] => Ok pc
  | frame :: rest => do pc' <- deliver pc frame; deliver_all pc' rest
  end.

(** *** The scan loop

    [main] and [scan] as a machine that takes one step per loop test.  The
    driver's answers and the signals delivered since the previous step are
    the input of a step; the driver calls a step makes are its output.  The
    samples of a block go to the accumulator above and do not touch the
    variables that steer the loops. *)

Record block : Type := {
  samples : Z;             (* the value SoapySDRDevice_readStream returns *)
  has_time : bool;         (* flags & SOAPY_SDR_HAS_TIME *)
  buffer_time : Z;         (* in nanoseconds *)
  clock_time : ClockTime   (* what clock_time() would return *)
}.

Record input : Type := {
  interrupts : nat;        (* calls of interrupt_request since the last step *)
  set_frequency_ok : bool; (* SoapySDRDevice_setFrequency returns 0 *)
  blocks : nat -> block    (* the successive answers of readStream *)
}.

Inductive action : Type :=
  | SetSampleRate
  | SetFrequency (frequency : Frequency)
  | ReadStream
  | Finalise.

Inductive point : Type :=
  | MainLoop (repetition : Z)
  | ScanLoop (repetition i : Z) (frequency : Frequency)
  | Dwell (repetition i : Z) (frequency : Frequency) (receive_end_time : ClockTime)
  | ScanReturned (repetition : Z) (r : bool)
  | Exited.

Record machine : Type := {
  config : ProgramConfiguration;
  signals_caught : Z;
  at_point : point
}.

Definition block_time (b : block) : ClockTime :=
  if has_time b then buffer_time b ÷ 1000 else clock_time b.

Fixpoint flush_loop (n i : nat) (inp : input) (pc : ProgramConfiguration)
  : ProgramConfiguration * bool * list action :=
  match n with
  | O => (pc, false, [])
  | S n' =>
      let b := blocks inp i in
      if 0 <=? samples b then
        let pc := set_last_time (block_time b) pc in
        let pc := if first_time pc =? 0 then set_first_time (last_time pc) pc else pc in
        (pc, true, [ReadStream])
      else
        let '(pc, ok, acts) := flush_loop n' (S i) inp pc in
        (pc, ok, ReadStream :: acts)
  end.

Definition flush_data_after_config_change (inp : input) (pc : ProgramConfiguration)
  : ProgramConfiguration * bool * list action :=
  flush_loop 3 0 inp pc.

Definition retune (inp : input) (pc : ProgramConfiguration) (frequency : Frequency)
  : ProgramConfiguration * bool * list action :=
  if negb (set_frequency_ok inp) then (pc, false, [SetFrequency frequency])
  else
    let '(pc, ok, acts) := flush_data_after_config_change inp pc in
    if ok then (set_current_frequency frequency pc, true, SetFrequency frequency :: acts)
    else (pc, false, SetFrequency frequency :: acts).

Definition receive_block (inp : input) (pc : ProgramConfiguration)
  : ProgramConfiguration * bool :=
  let b := blocks inp 0%nat in
  if samples b <? 0 then (pc, false)
  else
    let this_time := block_time b in
    let pc := if first_time pc =? 0 then set_first_time this_time pc else pc in
    (set_last_time this_time pc, true).

Definition step (inp : input) (m : machine) : machine * list action :=
  let pc := config m in
  let caught := signals_caught m + Z.of_nat (interrupts inp) in
  let goto pc p := {| config := pc; signals_caught := caught; at_point := p |} in
  match at_point m with
  | MainLoop repetition =>
      if (repetition_limit pc =? 0) || (repetition <? repetition_limit pc)
      then (goto pc (ScanLoop repetition 0 (tuning_start pc)), [SetSampleRate])
      else (goto pc Exited, [Finalise])
  | ScanLoop repetition i frequency =>
      if i <? tuning_count pc then
        if 1 <? caught then (goto pc (ScanReturned repetition false), [])
        else
          let '(pc, ok, acts) := retune inp pc frequency in
          if ok
          then (goto pc (Dwell repetition i frequency (last_time pc + dwell_time pc)), acts)
          else (goto pc (ScanReturned repetition true), acts)
      else (goto pc (ScanReturned repetition true), [])
  | Dwell repetition i frequency receive_end_time =>
      if last_time pc <? receive_end_time then
        let '(pc, ok) := receive_block inp pc in
        if ok
        then (goto pc (Dwell repetition i frequency receive_end_time), [ReadStream])
        else (goto pc (ScanLoop repetition (i + 1) (frequency + tuning_bandwidth pc)),
              [ReadStream])
      else (goto pc (ScanLoop repetition (i + 1) (frequency + tuning_bandwidth pc)), [])
  | ScanReturned repetition r =>
      if negb r || (1 <=? caught) then (goto pc Exited, [Finalise])
      else (goto pc (MainLoop (repetition + 1)), [])
  | Exited => (goto pc Exited, [])
  end.

(** The machine after the given inputs, and the calls it made. *)
Fixpoint run (inputs : list input) (m : machine) : machine * list action :=
  match inputs with
  | [] => (m, [])
  | inp :: rest =>
      let '(m1, acts1) := step inp m in
      let '(m2, acts2) := run rest m1 in
      (m2, acts1 ++ acts2)
  end.

(** [main] after [gather_parameters] and [initialise_configuration]. *)
Definition start (pc : ProgramConfiguration) : machine :=
  {| config := pc; signals_caught := 0; at_point := MainLoop 0 |}.

End Program.

(** ** The sample path

    [process_buffer] windows the samples into the FFT input buffer and hands
    each full buffer to the FFT and then to [handle_fft_out].  The input
    buffer and the window table are the two buffers of the C structure that
    the record above leaves out; they travel beside it.  The complex
    arithmetic on a sample and the transform itself are left open, like the
    sample types: [windowed i q w] stands for
    [((float)i + I*(float)q) * w / 32768], and [fftwf_execute] for the
    output the planned transform writes for an input buffer. *)

Section SamplePath.

Context {F C : Type}.
Variables (fadd : F -> F -> F) (cabs : C -> F).
Variable windowed : Z -> Z -> F -> C.
Variable fftwf_execute : list C -> list C.

Record Pipeline : Type := {
  settings : @ProgramConfiguration F C;
  fftw_in : list C;        (* FFT input buffer *)
  window : list F          (* FFT Window function *)
}.

(** [process_buffer(pc, buf16, samples)], with [buf16] the [samples] pairs
    that were read. *)
Fixpoint process_buffer (buf16 : list (Z * Z)) (p : Pipeline) : result Pipeline :=
  match buf16 with
  | [] => Ok p
  | (i, q) :: rest =>
      let pc := settings p in
      do w <- read (window p) (fft_fill pc);
      do input <- write (fftw_in p) (fft_fill pc) (windowed i q w);
      let pc := set_fft_fill (fft_fill pc + 1) pc in
      if fft_size pc <=? fft_fill pc then
        let pc := set_fftw_out (fftwf_execute input) pc in
        do pc <- handle_fft_out fadd cabs pc;
        process_buffer rest
          {| settings := set_fft_fill 0 pc; fftw_in := input; window := window p |}
      else
        process_buffer rest
          {| settings := pc; fftw_in := input; window := window p |}
  end.

End SamplePath.

(** ** Vocabulary of the specification *)

(** The characters that may follow the number of a frequency literal: one of
    the multipliers, or the end of the string. *)
Definition accepted_suffix (c : ascii) : bool :=
  Ascii.eqb c "k" || Ascii.eqb c "K" || Ascii.eqb c "m" || Ascii.eqb c "M"
  || Ascii.eqb c "g" || Ascii.eqb c "G" || Ascii.eqb c Ascii.zero.

(** The character that follows the number [strtod] finds in [cp]. *)
Definition follows_number (cp : string) : ascii :=
  deref cp (snd (Libc.strtod cp)).

(** A literal that [frequency_from_str] rejects: no number, or a number
    followed by something else than an accepted suffix. *)
Definition rejected_literal (cp : string) : bool :=
  Nat.eqb (snd (Libc.strtod cp)) 0 || negb (accepted_suffix (follows_number cp)).

(** What the caller of [frequency_from_str] receives. *)
Definition returned (r : result (Frequency * list string)) : option Frequency :=
  match r with
  | Ok (f, _) => Some f
  | Err _ => None
  end.

(** What [frequency_from_str] wrote to [stderr]. *)
Definition reported (r : result (Frequency * list string)) : list string :=
  match r with
  | Ok (_, log) => log
  | Err _ => []
  end.

(** The smallest power of two that is not below [q]. *)
Definition round_up_pow2 (q : Q) : Z := 2 ^ Z.log2_up (Qceiling q).

(** The FFT size of the specification: the rounded quotient of the sample
    rate by the resolution, clamped into [[4, 2^16]]. *)
Definition resolution_driven_fft_size {F C : Type} (pc : @ProgramConfiguration F C) : Z :=
  Z.max 4
    (Z.min (2 ^ FFT_MAX_BITS)
       (round_up_pow2 (sample_rate pc / inject_Z (frequency_resolution pc)))).

(** The signed baseband offset of FFT output index [k]. *)
Definition baseband_offset (fft_size resolution k : Z) : Z :=
  if k <? fft_size ÷ 2 then k * resolution else (k - fft_size) * resolution.

(** The rates [select_sample_rate] may choose under the limit of [pc]. *)
Definition eligible {F C : Type} (pc : @ProgramConfiguration F C) (r : Q) : Prop :=
  requested_sample_rate pc = 0 \/ (r <= inject_Z (requested_sample_rate pc))%Q.

(** The buffers as [plan_fft] lays them out. *)
Definition buffers_allocated {F C : Type} (pc : @ProgramConfiguration F C) : Prop :=
  1 <= fft_size pc
  /\ Z.of_nat (length (fftw_out pc)) = fft_size pc
  /\ Z.of_nat (length (fft_power pc)) = fft_size pc
  /\ Z.of_nat (length (power_accumulation pc)) = power_buckets pc
  /\ frequency_resolution pc <> 0.

(** The fields that place a frame in the accumulator, and the accumulator. *)
Definition placement {F C : Type} (pc : @ProgramConfiguration F C)
  : Z * Z * Z * Z :=
  (tuning_bandwidth pc, start_frequency pc, frequency_resolution pc, power_buckets pc).

Definition accumulator {F C : Type} (pc : @ProgramConfiguration F C)
  : list F * Z :=
  (power_accumulation pc, accumulation_count pc).

(** Whether a frame, tuned at its first component, would be let into the
    accumulator. *)
Definition frame_in_range {F C : Type} (pc : @ProgramConfiguration F C)
    (frame : Frequency * list C) : bool :=
  in_range (set_current_frequency (fst frame) pc).

(** *** A plan to exercise the statements

    [powerscan -d hackrf -s 100M -e 106144k] on a device whose only sample
    rate is 8192000: two tunings of 6144000 Hz, bins of 1000 Hz, 6144
    buckets.  The samples are integers, and output bin [k] of every frame
    holds [k]. *)

Definition example_argv : list string :=
  ["powerscan"; "-d"; "hackrf"; "-s"; "100M"; "-e"; "106144k"]%string.

Definition example_device : Device :=
  {| device_found := true; device_sample_rates := [inject_Z 8192000];
     device_channels := 1; stream_ok := true; memory_ok := true |}.

Definition example_plan : @ProgramConfiguration Z Z :=
  match gather_parameters example_argv with
  | Ok (_, pc, _) =>
      match initialise_configuration 0 0 0 example_device pc with
      | Ok pc' => pc'
      | Err _ => pc
      end
  | Err _ => default_parameters
  end.

Definition ramp : list Z := map Z.of_nat (seq 0 (Z.to_nat 8192)).

(** The configuration when [handle_fft_out] is called in tuning [i]. *)
Definition example_frame (i : Z) : @ProgramConfiguration Z Z :=
  set_fftw_out ramp
    (set_current_frequency
       (tuning_start example_plan + i * tuning_bandwidth example_plan)
       example_plan).

(** [powerscan -d hackrf -s 100M -e 104M -r 1000] on a device whose only
    sample rate is 4096000: the quotient of the rate by the requested
    resolution is 4096. *)
Definition pinned_argv : list string :=
  ["powerscan"; "-d"; "hackrf"; "-s"; "100M"; "-e"; "104M"; "-r"; "1000"]%string.

Definition pinned_device : Device :=
  {| device_found := true; device_sample_rates := [inject_Z 4096000];
     device_channels := 1; stream_ok := true; memory_ok := true |}.

(** The unit roundoff of double precision: a quotient rounded to the nearest
    double is at least the exact quotient times [1 - unit_roundoff]. *)
Definition unit_roundoff : Q := 1 # (2 ^ 53).

(** The band, and the two values the default band is computed from. *)
Definition band {F C : Type} (pc : @ProgramConfiguration F C) : Z * Z * Q * Q :=
  (start_frequency pc, end_frequency pc, sample_rate pc, crop_ratio pc).

(** *** The calls a machine makes *)

Definition is_retune (a : action) : bool :=
  match a with SetFrequency _ => true | _ => false end.

Definition is_sweep_start (a : action) : bool :=
  match a with SetSampleRate => true | _ => false end.

(** Inside a call of [scan], or after the last one. *)
Definition in_scan (p : point) : bool :=
  match p with MainLoop _ => false | _ => true end.

(** A step during which [signals] signals arrive and the driver answers every
    call with a full block at clock time [now]. *)
Definition tick (signals : nat) (now : ClockTime) : input :=
  {| interrupts := signals; set_frequency_ok := true;
     blocks := fun _ => {| samples := MAX_SAMPLES; has_time := false;
                           buffer_time := 0; clock_time := now |} |}.

(** One signal during the first tuning of the example plan, up to the end of
    that tuning. *)
Definition first_signal_inputs : list input :=
  [tick 0 0; tick 0 1000; tick 1 2000000; tick 0 6000000; tick 0 6000000].

(** Two signals during the first tuning of the example plan. *)
Definition second_signal_inputs : list input :=
  [tick 0 0; tick 0 1000; tick 2 2000000].

(** [powerscan -d hackrf -s 100M]: no end frequency. *)
Definition auto_end_argv : list string :=
  ["powerscan"; "-d"; "hackrf"; "-s"; "100M"]%string.

(** *** Further vocabulary *)

(** The factor a suffix of a frequency literal stands for. *)
Definition multiplier (c : ascii) : Z :=
  if Ascii.eqb c "k" || Ascii.eqb c "K" then 1000
  else if Ascii.eqb c "m" || Ascii.eqb c "M" then 1000000
  else if Ascii.eqb c "g" || Ascii.eqb c "G" then 1000000000
  else 1.

(** How many of the calls satisfy [p]. *)
Definition count (p : action -> bool) (acts : list action) : Z :=
  Z.of_nat (length (List.filter p acts)).

Definition is_finalise (a : action) : bool :=
  match a with Finalise => true | _ => false end.

Definition is_read (a : action) : bool :=
  match a with ReadStream => true | _ => false end.

(** The centre frequency of tuning [i] of the plan. *)
Definition planned_frequency {F C : Type} (pc : @ProgramConfiguration F C) (i : Z)
  : Frequency :=
  tuning_start pc + i * tuning_bandwidth pc.

(** The fields that steer [main] and [scan]. *)
Definition schedule {F C : Type} (pc : @ProgramConfiguration F C)
  : Z * Z * Z * Frequency * Frequency :=
  (repetition_limit pc, tuning_count pc, dwell_time pc, tuning_start pc,
   tuning_bandwidth pc).

(** A sample path ready for [process_buffer]: the buffers allocated for the
    FFT size, the fill index inside the input buffer, and no more retained
    bins than the scratch buffer holds. *)
Definition pipeline_ready {F C : Type} (p : @Pipeline F C) : Prop :=
  buffers_allocated (settings p)
  /\ Z.of_nat (length (fftw_in p)) = fft_size (settings p)
  /\ Z.of_nat (length (window p)) = fft_size (settings p)
  /\ 0 <= fft_fill (settings p) < fft_size (settings p)
  /\ bin_count (settings p) <= fft_size (settings p).

(** [powerscan -d hackrf -s 100M -e 101M]: a band narrower than one tuning. *)
Definition narrow_argv : list string :=
  ["powerscan"; "-d"; "hackrf"; "-s"; "100M"; "-e"; "101M"]%string.

Definition narrow_plan : @ProgramConfiguration Z Z :=
  match gather_parameters narrow_argv with
  | Ok (_, pc, _) =>
      match initialise_configuration 0 0 0 example_device pc with
      | Ok pc' => pc'
      | Err _ => pc
      end
  | Err _ => default_parameters
  end.

(** The configuration [gather_parameters] leaves for the example command
    line. *)
Definition example_parameters : @ProgramConfiguration Z Z :=
  match gather_parameters example_argv with
  | Ok (_, pc, _) => pc
  | Err _ => default_parameters
  end.

(** The configuration after a block with time [t] has been read: the time of
    the last block, and the time of the first one if none was read before. *)
Definition stamped {F C : Type} (t : ClockTime) (pc : @ProgramConfiguration F C)
  : @ProgramConfiguration F C :=
  set_first_time (if first_time pc =? 0 then t else first_time pc) (set_last_time t pc).

(** The loop variables of [scan] are a tuning of the plan of [pc] and its
    frequency. *)
Definition loop_on_plan {F C : Type} (pc : @ProgramConfiguration F C) (p : point)
  : Prop :=
  match p with
  | ScanLoop _ i frequency => 0 <= i /\ frequency = planned_frequency pc i
  | Dwell _ i frequency _ =>
      0 <= i < tuning_count pc /\ frequency = planned_frequency pc i
  | _ => True
  end.

(** A machine that follows the plan of [pc]: the steering fields are those of
    [pc], the loop variables are on the plan, and the frequency the frames
    are tagged with is the one the machine started with or a tuning of the
    plan. *)
Definition on_plan {F C : Type} (pc : @ProgramConfiguration F C) (m : @machine F C)
  : Prop :=
  schedule (config m) = schedule pc
  /\ (current_frequency (config m) = current_frequency pc
      \/ exists i, 0 <= i < tuning_count pc
                   /\ current_frequency (config m) = planned_frequency pc i)
  /\ loop_on_plan pc (at_point m).

(** The retunes the sweep under way can still make. *)
Definition tunings_left {F C : Type} (m : @machine F C) : Z :=
  match at_point m with
  | ScanLoop _ i _ => Z.max 0 (tuning_count (config m) - i)
  | Dwell _ i _ _ => Z.max 0 (tuning_count (config m) - i - 1)
  | _ => 0
  end.

(** The sweeps a machine with a repetition limit can still start. *)
Definition sweeps_left {F C : Type} (m : @machine F C) : Z :=
  match at_point m with
  | MainLoop repetition => Z.max 0 (repetition_limit (config m) - repetition)
  | ScanLoop repetition _ _ | Dwell repetition _ _ _ | ScanReturned repetition _ =>
      Z.max 0 (repetition_limit (config m) - repetition - 1)
  | Exited => 0
  end.

(** *** A small plan

    An 8-point transform on bins of 1000 Hz: two tunings of 6000 Hz from
    100000 Hz, twelve buckets.  Output bin [k] of a frame holds [k]. *)
Definition bench_plan : @ProgramConfiguration Z Z :=
  set_power_buckets 12
    (set_power_accumulation (replicate 12 0)
       (set_fft_power (replicate 8 0)
          (set_fftw_out (replicate 8 0)
             (set_fft_size 8
                (set_tuning_bandwidth 6000
                   (set_tuning_start 103000
                      (set_dwell_time MIN_DWELL_TIME
                         (set_tuning_count 2
                            (set_sample_rate (inject_Z 8000)
                               (set_frequency_resolution 1000
                                  (set_end_frequency 112000
                                     (set_start_frequency 100000
                                        default_parameters)))))))))))).

Definition bench_output : list Z := map Z.of_nat (seq 0 8).

(** The configuration when [handle_fft_out] is called in tuning [i]. *)
Definition bench_frame (i : Z) : @ProgramConfiguration Z Z :=
  set_fftw_out bench_output
    (set_current_frequency (planned_frequency bench_plan i) bench_plan).

(** The configuration after frames that leave the accumulator at [acc] and
    its count at [count], the last of them in the second tuning. *)
Definition bench_result (count : Z) (acc : list Z) : @ProgramConfiguration Z Z :=
  set_accumulation_count count
    (set_power_accumulation acc
       (set_fft_power [1; 2; 3; 4; 5; 6; 7; 0] (bench_frame 1))).

(** The sample path in the first tuning, with a flat window, a sample kept as
    its in-phase part and a transform that negates its input. *)
Definition bench_path : @Pipeline Z Z :=
  {| settings := set_current_frequency (planned_frequency bench_plan 0) bench_plan;
     fftw_in := replicate 8 0;
     window := replicate 8 1 |}.

Definition bench_windowed (i q w : Z) : Z := i * w.

Definition bench_execute (input : list Z) : list Z := map Z.opp input.

(** Rates of which the largest is above the limit. *)
Definition limited_rates : @ProgramConfiguration Z Z :=
  set_sample_rates [inject_Z 8000000; inject_Z 20000000; inject_Z 10000000]
    (set_requested_sample_rate 12000000 default_parameters).

(** ** Reading a field after updates *)

(** Reduces the field accesses and updates of a configuration that is given
    by its fields, and nothing else. *)
Ltac fields :=
  cbn [sdr_name sdr_channel gain start_frequency end_frequency
       frequency_resolution requested_sample_rate repetition_limit scan_time
       crop_ratio verbose channel_count sample_rates sample_rate tuning_count
       dwell_time tuning_start tuning_bandwidth current_frequency fft_size
       fftw_out fft_fill fft_power power_accumulation accumulation_count
       power_buckets last_time first_time
       set_sdr_name set_sdr_channel set_gain set_start_frequency
       set_end_frequency set_frequency_resolution set_requested_sample_rate
       set_repetition_limit set_scan_time set_crop_ratio set_verbose
       set_channel_count set_sample_rates set_sample_rate set_tuning_count
       set_dwell_time set_tuning_start set_tuning_bandwidth
       set_current_frequency set_fft_size set_fftw_out set_fft_fill
       set_fft_power set_power_accumulation set_accumulation_count
       set_power_buckets set_last_time set_first_time] in *.

(** From [H : Ok t = Ok x], replaces the variable [x] by [t]. *)
Ltac ok_inv H :=
  match type of H with
  | Ok ?t = Ok ?x => assert (x = t) by congruence; subst x; clear H
  end.

(** The same for the fields of a sample path. *)
Ltac path_fields := cbn [settings fftw_in window] in *; fields.

(** ** The frequency literals *)

Lemma accepted_suffix_false (c : ascii) :
  accepted_suffix c = false ->
  (Ascii.eqb c "k" || Ascii.eqb c "K" = false)
  /\ (Ascii.eqb c "m" || Ascii.eqb c "M" = false)
  /\ (Ascii.eqb c "g" || Ascii.eqb c "G" = false)
  /\ Ascii.eqb c Ascii.zero = false.
Proof.
  unfold accepted_suffix. intros H.
  repeat (apply orb_false_elim in H; destruct H as [H ?]).
  repeat split; try assumption; apply orb_false_intro; assumption.
Qed.

Lemma frequency_from_str_rejected (cp : string) :
  rejected_literal cp = true ->
  frequency_from_str cp = Ok (0, [invalid_frequency cp]).
Proof.
  unfold rejected_literal, follows_number, frequency_from_str.
  destruct (Libc.strtod cp) as [d n]; simpl.
  destruct (Nat.eqb n 0); simpl; [reflexivity|].
  intros H. apply negb_true_iff, accepted_suffix_false in H.
  destruct H as (Hk & Hm & Hg & Hz).
  rewrite Hk, Hm, Hg, Hz. reflexivity.
Qed.

Example strtod_decimal : Libc.strtod "2.5M" = (Libc.Finite (25 # 10), 3%nat).
Proof. reflexivity. Qed.

Example strtod_exponent :
  Libc.strtod " -1.5e3x" = (Libc.Finite (- inject_Z 1500), 7%nat).
Proof. reflexivity. Qed.

Example strtod_hexadecimal : Libc.strtod "0x1.8p1" = (Libc.Finite (24 # 8), 7%nat).
Proof. reflexivity. Qed.

Example strtod_no_conversion : Libc.strtod "k" = (Libc.Finite 0, 0%nat).
Proof. reflexivity. Qed.

Example getopt_cluster_and_argument :
  Libc.getopt ["powerscan"; "-v1"; "-s"; "1k"; "-e2k"; "rest"; "-l"]%string optstring
  = [("v"%char, None); ("1"%char, None); ("s"%char, Some "1k"%string);
     ("e"%char, Some "2k"%string)].
Proof. reflexivity. Qed.



(** Only the first character after the number is examined: what follows an
    accepted suffix is ignored. *)
Example frequency_from_str_1kHz : frequency_from_str "1kHz" = Ok (1000, []).
Proof. reflexivity. Qed.

Lemma Qtrunc_zero (q : Q) (k : Z) : (q == 0)%Q -> Qtrunc (q * inject_Z k) = 0.
Proof.
  intros H. unfold Qtrunc. destruct q as [n d].
  unfold Qeq in H; simpl in H. assert (n = 0) by lia; subst n.
  simpl. reflexivity.
Qed.

Lemma to_Frequency_zero (q : Q) (k : Z) :
  (q == 0)%Q -> to_Frequency (times (Libc.Finite q) k) = Ok 0.
Proof.
  intros H. unfold to_Frequency, times. rewrite (Qtrunc_zero q k H). reflexivity.
Qed.

Lemma to_Frequency_zero_plain (q : Q) :
  (q == 0)%Q -> to_Frequency (Libc.Finite q) = Ok 0.
Proof.
  intros H. unfold to_Frequency, Qtrunc. destruct q as [n d].
  unfold Qeq in H; simpl in H. assert (n = 0) by lia; subst n. reflexivity.
Qed.

(** C9.  The failure of [frequency_from_str] is signalled in band: every
    rejected input returns 0, and so does "0" and every accepted literal
    whose number is zero; the caller receives the same value for a rejected
    input as for a zero frequency. *)
Theorem frequency_from_str_zero_in_band (bad zero : string) (q : Q) (n : nat) :
  frequency_from_str "0" = Ok (0, [])
  /\ (rejected_literal bad = true ->
      returned (frequency_from_str bad) = Some 0)
  /\ (Libc.strtod zero = (Libc.Finite q, n) -> (q == 0)%Q ->
      rejected_literal zero = false ->
      frequency_from_str zero = Ok (0, []))
  /\ (rejected_literal bad = true ->
      returned (frequency_from_str bad) = returned (frequency_from_str "0")).
Proof.
  split; [reflexivity|]. split; [|split].
  - intros H. rewrite (frequency_from_str_rejected _ H). reflexivity.
  - intros Hs Hq Hr. unfold rejected_literal, follows_number in Hr.
    rewrite Hs in Hr. cbn [snd] in Hr.
    apply orb_false_elim in Hr. destruct Hr as [Hn Ha].
    apply negb_false_iff in Ha. unfold accepted_suffix in Ha.
    unfold frequency_from_str. rewrite Hs, Hn.
    set (c := deref zero n) in *.
    destruct (Ascii.eqb c "k" || Ascii.eqb c "K") eqn:E1.
    { rewrite to_Frequency_zero by exact Hq. reflexivity. }
    destruct (Ascii.eqb c "m" || Ascii.eqb c "M") eqn:E2.
    { rewrite to_Frequency_zero by exact Hq. reflexivity. }
    destruct (Ascii.eqb c "g" || Ascii.eqb c "G") eqn:E3.
    { rewrite to_Frequency_zero by exact Hq. reflexivity. }
    destruct (Ascii.eqb c Ascii.zero) eqn:E4.
    { rewrite to_Frequency_zero_plain by exact Hq. reflexivity. }
    apply orb_false_elim in E2, E3.
    destruct E2 as [E2 E2'], E3 as [E3 E3'].
    rewrite E2, E2', E3, E3' in Ha. discriminate Ha.
  - intros H. rewrite (frequency_from_str_rejected _ H). reflexivity.
Qed.

Lemma frequency_from_str_zero_in_band_witness :
  returned (frequency_from_str "x") = Some 0
  /\ frequency_from_str "0.0k" = Ok (0, []).
Proof.
  destruct (frequency_from_str_zero_in_band "x" "0.0k" (0 # 10) 3)
    as (_ & Hbad & Hzero & _).
  split; [apply Hbad; reflexivity | apply Hzero; reflexivity].
Defined.

(** ** The command line and the planner *)

Section Planner.

Context {F C : Type}.
Variables (fzero funinit : F) (cuninit : C).

Abbreviation Configuration := (@ProgramConfiguration F C).

(** C7 (defect).  The option string has no [R]: for the command line
    [powerscan -R 2M], and for any command line that starts with [-R],
    [getopt] answers ['?'], [gather_parameters] returns false and the
    sample-rate limit is still 0.  The [case 'R'] of the switch, which stores
    2000000, is never reached. *)
Theorem gather_parameters_R_not_accepted :
  Libc.getopt ["powerscan"; "-R"; "2M"]%string optstring = [("?"%char, None)]
  /\ gather_parameters ["powerscan"; "-R"; "2M"]%string
     = Ok (false, default_parameters : Configuration, [])
  /\ (forall rest : list string,
        gather_parameters ("powerscan"%string :: "-R"%string :: rest)
        = Ok (false, default_parameters : Configuration, []))
  /\ gather_options [("R"%char, Some "2M"%string)] (default_parameters : Configuration) []
     = Ok (true, set_requested_sample_rate 2000000 default_parameters, []).
Proof.
  split; [reflexivity|]. split; [reflexivity|]. split; [|reflexivity].
  intros rest. unfold gather_parameters, Libc.getopt.
  cbn [tail Libc.getopt_args].
  change (Libc.getopt_cluster optstring "R" rest) with ([("?"%char, @None string)], false).
  cbn [app]. reflexivity.
Qed.

Lemma Qltb_true (a b : Q) : Qltb a b = true <-> (a < b)%Q.
Proof.
  unfold Qltb. rewrite negb_true_iff. split; intros H.
  - apply Qnot_le_lt. intros Hle. apply Qle_bool_iff in Hle. congruence.
  - destruct (Qle_bool b a) eqn:E; [|reflexivity].
    apply Qle_bool_iff in E. exfalso. exact (Qlt_not_le _ _ H E).
Qed.

Lemma Qltb_false (a b : Q) : Qltb a b = false <-> (b <= a)%Q.
Proof.
  unfold Qltb. rewrite negb_false_iff. apply Qle_bool_iff.
Qed.

Lemma select_loop_largest (rates : list Q) (pc : Configuration) :
  requested_sample_rate (select_loop rates pc) = requested_sample_rate pc
  /\ (sample_rate pc <= sample_rate (select_loop rates pc))%Q
  /\ (sample_rate (select_loop rates pc) = sample_rate pc
      \/ (In (sample_rate (select_loop rates pc)) rates
          /\ eligible pc (sample_rate (select_loop rates pc))))
  /\ (forall r, In r rates -> eligible pc r ->
      (r <= sample_rate (select_loop rates pc))%Q).
Proof.
  revert pc. induction rates as [|r rates IH]; intros pc; simpl.
  - repeat split; [apply Qle_refl | left; reflexivity | intros r []].
  - match goal with |- context [select_loop rates ?p] => set (pc1 := p) end.
    assert (Hcap : requested_sample_rate pc1 = requested_sample_rate pc).
    { subst pc1. destruct (_ && _); [destruct pc|]; reflexivity. }
    assert (Hstep : (sample_rate pc <= sample_rate pc1)%Q
                    /\ (sample_rate pc1 = sample_rate pc
                        \/ (sample_rate pc1 = r /\ eligible pc r))
                    /\ (eligible pc r -> (r <= sample_rate pc1)%Q)).
    { subst pc1. destruct (Qltb (sample_rate pc) r) eqn:Hlt; simpl.
      - destruct (requested_sample_rate pc =? 0) eqn:Hz; simpl.
        + apply Z.eqb_eq in Hz. apply Qltb_true in Hlt.
          replace (sample_rate (set_sample_rate r pc)) with r by (destruct pc; reflexivity).
          repeat split; [apply Qlt_le_weak; exact Hlt | right; split; [reflexivity | left; exact Hz]
                        | intros _; apply Qle_refl].
        + destruct (Qle_bool r (inject_Z (requested_sample_rate pc))) eqn:Hle.
          * apply Qle_bool_iff in Hle. apply Qltb_true in Hlt.
            replace (sample_rate (set_sample_rate r pc)) with r by (destruct pc; reflexivity).
            repeat split; [apply Qlt_le_weak; exact Hlt
                          | right; split; [reflexivity | right; exact Hle]
                          | intros _; apply Qle_refl].
          * repeat split; [apply Qle_refl | left; reflexivity|].
            intros [He|He]; [apply Z.eqb_neq in Hz; contradiction|].
            apply Qle_bool_iff in He. congruence.
      - apply Qltb_false in Hlt.
        repeat split; [apply Qle_refl | left; reflexivity | intros _; exact Hlt]. }
    destruct Hstep as (Hle1 & Hin1 & Hmax1).
    destruct (IH pc1) as (IHcap & IHle & IHin & IHmax).
    assert (Hel : forall x, eligible pc1 x <-> eligible pc x).
    { intros x. unfold eligible. rewrite Hcap. reflexivity. }
    split; [congruence|]. split; [eapply Qle_trans; eassumption|]. split.
    + destruct IHin as [IHin|[IHin IHe]].
      * rewrite IHin. destruct Hin1 as [Hin1|[Hin1 He1]].
        -- left. exact Hin1.
        -- right. rewrite Hin1. split; [left; reflexivity | exact He1].
      * right. split; [right; exact IHin | apply Hel; exact IHe].
    + intros x [Hx|Hx] Hex.
      * subst x. eapply Qle_trans; [apply Hmax1; exact Hex | exact IHle].
      * apply IHmax; [exact Hx | apply Hel; exact Hex].
Qed.

(** [select_sample_rate], started as [main] starts it with no rate selected,
    chooses the largest rate the device lists that is within the limit (any
    rate when the limit is 0). *)
Lemma select_sample_rate_largest (pc : Configuration) :
  sample_rate pc = 0%Q ->
  (forall r, In r (sample_rates pc) -> eligible pc r ->
     (r <= sample_rate (select_sample_rate pc))%Q)
  /\ (sample_rate (select_sample_rate pc) = 0%Q
      \/ (In (sample_rate (select_sample_rate pc)) (sample_rates pc)
          /\ eligible pc (sample_rate (select_sample_rate pc)))).
Proof.
  intros H0. unfold select_sample_rate.
  destruct (select_loop_largest (sample_rates pc) pc) as (_ & _ & Hin & Hmax).
  split; [exact Hmax|]. rewrite <- H0. exact Hin.
Qed.

End Planner.

Section PlanFFT.

Context {F C : Type}.
Variables (fzero funinit : F) (cuninit : C).

Abbreviation Configuration := (@ProgramConfiguration F C).

Lemma plan_fft_fields (dev : Device) (pc pc' : Configuration) :
  plan_fft fzero funinit cuninit dev pc = Ok pc' ->
  fft_size pc' = 8192
  /\ frequency_resolution pc' = Qtrunc (sample_rate pc / inject_Z 8192)
  /\ power_buckets pc'
     = (end_frequency pc - start_frequency pc + frequency_resolution pc' - 1)
       ÷ frequency_resolution pc'
  /\ 0 <= power_buckets pc'
  /\ power_accumulation pc' = replicate (Z.to_nat (power_buckets pc')) fzero
  /\ accumulation_count pc' = 0
  /\ start_frequency pc' = start_frequency pc
  /\ end_frequency pc' = end_frequency pc
  /\ sample_rate pc' = sample_rate pc
  /\ crop_ratio pc' = crop_ratio pc.
Proof.
  unfold plan_fft. destruct pc; fields.
  replace (8192 <? 4) with false by reflexivity. fields.
  destruct (Qtrunc _ =? 0); [discriminate|].
  destruct (memory_ok dev); cbn [andb]; [|discriminate].
  destruct (0 <=? _) eqn:Hb; [|discriminate].
  intros H. ok_inv H. apply Z.leb_le in Hb.
  repeat split; fields; try reflexivity. exact Hb.
Qed.

End PlanFFT.

(** ** The accumulator *)

Lemma read_inv {A : Type} (a : list A) (i : Z) (x : A) :
  read a i = Ok x <-> 0 <= i /\ a !! Z.to_nat i = Some x.
Proof.
  unfold read. destruct (i <? 0) eqn:Hi.
  - apply Z.ltb_lt in Hi. split; [discriminate | lia].
  - apply Z.ltb_ge in Hi. destruct (a !! Z.to_nat i); split.
    + intros [= ->]. auto.
    + intros [_ [= ->]]. reflexivity.
    + discriminate.
    + intros [_ [=]].
Qed.

Lemma write_inv {A : Type} (a a' : list A) (i : Z) (x : A) :
  write a i x = Ok a' <->
  0 <= i < Z.of_nat (length a) /\ a' = <[Z.to_nat i := x]> a.
Proof.
  unfold write. destruct (i <? 0) eqn:Hi; simpl.
  - apply Z.ltb_lt in Hi. split; [discriminate | lia].
  - apply Z.ltb_ge in Hi. destruct (Z.of_nat (length a) <=? i) eqn:Hl.
    + apply Z.leb_le in Hl. split; [discriminate | lia].
    + apply Z.leb_gt in Hl. split.
      * intros [= <-]. auto.
      * intros [_ ->]. reflexivity.
Qed.

Lemma read_total {A : Type} (a : list A) (i : Z) :
  0 <= i < Z.of_nat (length a) -> exists x, read a i = Ok x.
Proof.
  intros Hi. destruct (lookup_lt_is_Some_2 a (Z.to_nat i)) as [x Hx]; [lia|].
  exists x. apply read_inv. split; [lia | exact Hx].
Qed.

Lemma write_total {A : Type} (a : list A) (i : Z) (x : A) :
  0 <= i < Z.of_nat (length a) -> write a i x = Ok (<[Z.to_nat i := x]> a).
Proof. intros Hi. apply write_inv. auto. Qed.

Lemma bind_inv {A B : Type} (r : result A) (k : A -> result B) (b : B) :
  bind r k = Ok b -> exists a, r = Ok a /\ k a = Ok b.
Proof. destruct r as [a|e]; simpl; [eauto | discriminate]. Qed.

Section Accumulator.

Context {F C : Type}.
Variables (fadd : F -> F -> F) (cabs : C -> F).

Abbreviation Configuration := (@ProgramConfiguration F C).

Lemma magnitudes_length (n : nat) (s : Z) (out : list C) (power power' : list F) :
  magnitudes cabs n s out power = Ok power' -> length power' = length power.
Proof.
  revert s power. induction n as [|n IH]; intros s power; simpl.
  - intros [= <-]. reflexivity.
  - intros H. apply bind_inv in H as (c & _ & H).
    apply bind_inv in H as (p1 & Hw & H).
    apply write_inv in Hw as [_ ->]. apply IH in H.
    rewrite H. apply length_insert.
Qed.

Lemma magnitudes_total (n : nat) (s : Z) (out : list C) (power : list F) :
  1 <= s ->
  s + Z.of_nat n <= Z.of_nat (length out) ->
  s - 1 + Z.of_nat n <= Z.of_nat (length power) ->
  exists power', magnitudes cabs n s out power = Ok power'.
Proof.
  revert s power. induction n as [|n IH]; intros s power Hs Hout Hpow; simpl.
  - eauto.
  - destruct (read_total out s) as [c ->]; [lia|]. simpl.
    rewrite write_total by lia. simpl.
    apply IH; [lia | lia | rewrite length_insert; lia].
Qed.

(** After the first loop of [handle_fft_out], slot [j - 1] of the scratch
    buffer holds the magnitude of output bin [j]; the other slots keep what
    they held. *)
Lemma magnitudes_content (n : nat) (s : Z) (out : list C) (power power' : list F) :
  magnitudes cabs n s out power = Ok power' ->
  1 <= s ->
  (forall j, s <= j < s + Z.of_nat n ->
     exists c, out !! Z.to_nat j = Some c
               /\ power' !! Z.to_nat (j - 1) = Some (cabs c))
  /\ (forall i : nat, ~ (s - 1 <= Z.of_nat i < s - 1 + Z.of_nat n) ->
      power' !! i = power !! i).
Proof.
  revert s power. induction n as [|n IH]; intros s power; simpl.
  - intros [= <-] Hs. split; [intros j Hj; lia | reflexivity].
  - intros H Hs. apply bind_inv in H as (c & Hr & H).
    apply bind_inv in H as (p1 & Hw & H).
    apply read_inv in Hr as [_ Hr]. apply write_inv in Hw as [Hlen ->].
    destruct (IH _ _ H) as [IHin IHout]; [lia|]. split.
    + intros j Hj. destruct (Z.eq_dec j s) as [->|Hne].
      * exists c. split; [exact Hr|].
        rewrite IHout by lia. apply list_lookup_insert_eq. lia.
      * apply IHin. lia.
    + intros i Hi. rewrite IHout by lia.
      apply list_lookup_insert_ne. lia.
Qed.

Lemma accumulate_length (n : nat) (s lowest : Z) (power acc acc' : list F) :
  accumulate fadd n s lowest power acc = Ok acc' -> length acc' = length acc.
Proof.
  revert s acc. induction n as [|n IH]; intros s acc; simpl.
  - intros [= <-]. reflexivity.
  - intros H. apply bind_inv in H as (p & _ & H).
    apply bind_inv in H as (a & _ & H).
    apply bind_inv in H as (acc1 & Hw & H).
    apply write_inv in Hw as [_ ->]. apply IH in H.
    rewrite H. apply length_insert.
Qed.

Lemma accumulate_total (n : nat) (s lowest : Z) (power acc : list F) :
  0 <= s -> s + Z.of_nat n <= Z.of_nat (length power) ->
  0 <= lowest + s -> lowest + s + Z.of_nat n <= Z.of_nat (length acc) ->
  exists acc', accumulate fadd n s lowest power acc = Ok acc'.
Proof.
  revert s acc. induction n as [|n IH]; intros s acc Hs Hpow Hlow Hacc; simpl.
  - eauto.
  - destruct (read_total power s) as [p ->]; [lia|]. simpl.
    destruct (read_total acc (lowest + s)) as [a ->]; [lia|]. simpl.
    rewrite write_total by lia. simpl.
    apply IH; [lia | lia | lia | rewrite length_insert; lia].
Qed.

(** The second loop of [handle_fft_out] adds slot [j] of the scratch buffer
    to bucket [lowest + j], and touches no other bucket. *)
Lemma accumulate_content (n : nat) (s lowest : Z) (power acc acc' : list F) :
  accumulate fadd n s lowest power acc = Ok acc' ->
  (forall j, s <= j < s + Z.of_nat n ->
     exists a p, acc !! Z.to_nat (lowest + j) = Some a
                 /\ power !! Z.to_nat j = Some p
                 /\ acc' !! Z.to_nat (lowest + j) = Some (fadd a p))
  /\ (forall i : nat,
        ~ (lowest + s <= Z.of_nat i < lowest + s + Z.of_nat n) ->
        acc' !! i = acc !! i).
Proof.
  revert s acc. induction n as [|n IH]; intros s acc; simpl.
  - intros [= <-]. split; [intros j Hj; lia | reflexivity].
  - intros H. apply bind_inv in H as (p & Hp & H).
    apply bind_inv in H as (a & Ha & H).
    apply bind_inv in H as (acc1 & Hw & H).
    apply read_inv in Hp as [Hs Hp]. apply read_inv in Ha as [Hlow Ha].
    apply write_inv in Hw as [Hlen ->].
    destruct (IH _ _ H) as [IHin IHout]. split.
    + intros j Hj. destruct (Z.eq_dec j s) as [->|Hne].
      * exists a, p. repeat split; [exact Ha | exact Hp|].
        rewrite IHout by lia. apply list_lookup_insert_eq. lia.
      * destruct (IHin j) as (a' & p' & Ha' & Hp' & Hr); [lia|].
        exists a', p'. repeat split; [|exact Hp' | exact Hr].
        rewrite list_lookup_insert_ne in Ha' by lia. exact Ha'.
    + intros i Hi. rewrite IHout by lia.
      apply list_lookup_insert_ne. lia.
Qed.

(** The two ways [handle_fft_out] returns. *)
Lemma handle_fft_out_inv (pc pc' : Configuration) :
  handle_fft_out fadd cabs pc = Ok pc' ->
  exists power,
    magnitudes cabs (Z.to_nat (fft_size pc - 1)) 1 (fftw_out pc) (fft_power pc)
    = Ok power
    /\ frequency_resolution pc <> 0
    /\ ((in_range pc = false /\ pc' = set_fft_power power pc)
        \/ (in_range pc = true
            /\ exists acc,
                 accumulate fadd (Z.to_nat (bin_count pc)) 0 (lowest_bin pc)
                   power (power_accumulation pc) = Ok acc
                 /\ pc' = set_accumulation_count (accumulation_count pc + 1)
                            (set_power_accumulation acc (set_fft_power power pc)))).
Proof.
  unfold handle_fft_out. intros H. apply bind_inv in H as (power & Hm & H).
  exists power. split; [exact Hm|].
  replace (frequency_resolution (set_fft_power power pc))
    with (frequency_resolution pc) in H by (destruct pc; reflexivity).
  replace (in_range (set_fft_power power pc))
    with (in_range pc) in H by (destruct pc; reflexivity).
  destruct (frequency_resolution pc =? 0) eqn:Hr; [discriminate|].
  apply Z.eqb_neq in Hr. split; [exact Hr|].
  destruct (in_range pc) eqn:Hin; simpl in H.
  - right. split; [reflexivity|].
    apply bind_inv in H as (acc & Ha & H). exists acc.
    replace (bin_count (set_fft_power power pc)) with (bin_count pc) in Ha
      by (destruct pc; reflexivity).
    replace (lowest_bin (set_fft_power power pc)) with (lowest_bin pc) in Ha
      by (destruct pc; reflexivity).
    replace (fft_power (set_fft_power power pc)) with power in Ha
      by (destruct pc; reflexivity).
    replace (power_accumulation (set_fft_power power pc))
      with (power_accumulation pc) in Ha by (destruct pc; reflexivity).
    split; [exact Ha|].
    replace (accumulation_count (set_power_accumulation acc (set_fft_power power pc)))
      with (accumulation_count pc) in H by (destruct pc; reflexivity).
    congruence.
  - left. split; [reflexivity | congruence].
Qed.

Lemma in_range_true (pc : Configuration) :
  in_range pc = true <->
  0 <= lowest_bin pc /\ lowest_bin pc + bin_count pc <= power_buckets pc.
Proof.
  unfold in_range. rewrite negb_true_iff, orb_false_iff, Z.ltb_ge, Z.ltb_ge.
  reflexivity.
Qed.

Lemma in_range_false (pc : Configuration) :
  in_range pc = false <->
  lowest_bin pc < 0 \/ power_buckets pc < lowest_bin pc + bin_count pc.
Proof.
  unfold in_range. rewrite negb_false_iff, orb_true_iff, Z.ltb_lt, Z.ltb_lt.
  reflexivity.
Qed.

Lemma handle_fft_out_magnitudes (pc : Configuration) :
  buffers_allocated pc ->
  exists power,
    magnitudes cabs (Z.to_nat (fft_size pc - 1)) 1 (fftw_out pc) (fft_power pc)
    = Ok power.
Proof.
  intros (Hsize & Hout & Hpow & _). apply magnitudes_total; lia.
Qed.

Lemma handle_fft_out_returns (pc : Configuration) :
  buffers_allocated pc ->
  in_range pc = false \/ bin_count pc <= fft_size pc ->
  exists pc', handle_fft_out fadd cabs pc = Ok pc'.
Proof.
  intros Hbuf Hcase. destruct (handle_fft_out_magnitudes pc Hbuf) as [power Hm].
  destruct Hbuf as (Hsize & Hout & Hpow & Hacc & Hres).
  apply Z.eqb_neq in Hres. apply magnitudes_length in Hm as Hlen.
  unfold handle_fft_out. rewrite Hm. simpl.
  replace (frequency_resolution (set_fft_power power pc))
    with (frequency_resolution pc) by (destruct pc; reflexivity).
  replace (in_range (set_fft_power power pc)) with (in_range pc)
    by (destruct pc; reflexivity).
  rewrite Hres. destruct (in_range pc) eqn:Hin; simpl; [|eauto].
  destruct Hcase as [Hcase|Hbins]; [discriminate|].
  apply in_range_true in Hin.
  replace (bin_count (set_fft_power power pc)) with (bin_count pc)
    by (destruct pc; reflexivity).
  replace (lowest_bin (set_fft_power power pc)) with (lowest_bin pc)
    by (destruct pc; reflexivity).
  replace (fft_power (set_fft_power power pc)) with power
    by (destruct pc; reflexivity).
  replace (power_accumulation (set_fft_power power pc))
    with (power_accumulation pc) by (destruct pc; reflexivity).
  assert (exists acc, accumulate fadd (Z.to_nat (bin_count pc)) 0 (lowest_bin pc)
                        power (power_accumulation pc) = Ok acc) as [acc Ha].
  { destruct (Z_le_gt_dec (bin_count pc) 0) as [Hle|Hgt].
    - replace (Z.to_nat (bin_count pc)) with 0%nat by lia. simpl. eauto.
    - apply accumulate_total; lia. }
  rewrite Ha. simpl. eauto.
Qed.

(** C3.  With the buffers laid out as [plan_fft] leaves them: a frame whose
    lowest bin is negative, or whose bins overrun [power_buckets], is
    dropped, and [handle_fft_out] returns with [power_accumulation] and
    [accumulation_count] as they were; for a frame that is in range, every
    return of [handle_fft_out] has [accumulation_count] one higher, and it
    does return as long as the retained bins are read inside the scratch
    buffer. *)
Theorem handle_fft_out_edge_drop (pc : Configuration) :
  buffers_allocated pc ->
  (lowest_bin pc < 0 \/ power_buckets pc < lowest_bin pc + bin_count pc ->
   exists pc', handle_fft_out fadd cabs pc = Ok pc'
               /\ power_accumulation pc' = power_accumulation pc
               /\ accumulation_count pc' = accumulation_count pc)
  /\ (0 <= lowest_bin pc /\ lowest_bin pc + bin_count pc <= power_buckets pc ->
      (forall pc', handle_fft_out fadd cabs pc = Ok pc' ->
                   accumulation_count pc' = accumulation_count pc + 1
                   /\ length (power_accumulation pc') = length (power_accumulation pc))
      /\ (bin_count pc <= fft_size pc ->
          exists pc', handle_fft_out fadd cabs pc = Ok pc')).
Proof.
  intros Hbuf. split.
  - intros Hdrop. apply in_range_false in Hdrop.
    destruct (handle_fft_out_returns pc Hbuf) as [pc' H]; [left; exact Hdrop|].
    exists pc'. split; [exact H|].
    apply handle_fft_out_inv in H as (power & _ & _ & [[_ ->]|[Hin _]]);
      [|congruence].
    split; destruct pc; reflexivity.
  - intros Hin. split.
    + intros pc' H. apply handle_fft_out_inv in H as (power' & _ & _ & [[Hf _]|[_ H]]).
      * apply in_range_true in Hin. congruence.
      * destruct H as (acc & Ha & ->). apply accumulate_length in Ha.
        split; [destruct pc; reflexivity|].
        rewrite <- Ha. destruct pc; reflexivity.
    + intros Hbins. apply handle_fft_out_returns; [exact Hbuf | right; exact Hbins].
Qed.

(** What an accumulated frame adds: bucket [lowest_bin + j] receives the
    magnitude of output bin [j + 1], the bins being taken in the order the
    FFT delivers them. *)
Lemma handle_fft_out_raw_order (pc pc' : Configuration) (j : Z) :
  handle_fft_out fadd cabs pc = Ok pc' ->
  in_range pc = true ->
  0 <= j < bin_count pc -> j < fft_size pc - 1 ->
  exists a c,
    power_accumulation pc !! Z.to_nat (lowest_bin pc + j) = Some a
    /\ fftw_out pc !! Z.to_nat (j + 1) = Some c
    /\ power_accumulation pc' !! Z.to_nat (lowest_bin pc + j) = Some (fadd a (cabs c)).
Proof.
  intros H Hin Hj Hk.
  apply handle_fft_out_inv in H as (power & Hm & _ & [[Hf _]|[_ H]]); [congruence|].
  destruct H as (acc & Ha & ->).
  apply magnitudes_content in Hm as [Hm _]; [|lia].
  destruct (Hm (j + 1)) as (c & Hc & Hp); [lia|].
  apply accumulate_content in Ha as [Ha _].
  destruct (Ha j) as (a & p & Haj & Hpj & Hr); [lia|].
  replace (j + 1 - 1) with j in Hp by lia.
  assert (p = cabs c) by congruence. subst p.
  exists a, c. repeat split; [exact Haj | exact Hc|].
  rewrite <- Hr. destruct pc; reflexivity.
Qed.

End Accumulator.

Lemma example_frame_0_allocated : buffers_allocated (example_frame 0).
Proof. vm_compute. repeat split; discriminate. Qed.

Lemma example_frame_1_allocated : buffers_allocated (example_frame 1).
Proof. vm_compute. repeat split; discriminate. Qed.

Lemma handle_fft_out_edge_drop_witness :
  (exists pc', handle_fft_out Z.add Z.abs (example_frame 1) = Ok pc'
               /\ power_accumulation pc' = power_accumulation (example_frame 1)
               /\ accumulation_count pc' = accumulation_count (example_frame 1))
  /\ (exists pc', handle_fft_out Z.add Z.abs (example_frame 0) = Ok pc'
                  /\ accumulation_count pc' = accumulation_count (example_frame 0) + 1).
Proof.
  split.
  - apply (proj1 (handle_fft_out_edge_drop Z.add Z.abs (example_frame 1)
                    example_frame_1_allocated)).
    right. vm_compute. reflexivity.
  - destruct (proj2 (handle_fft_out_edge_drop Z.add Z.abs (example_frame 0)
                       example_frame_0_allocated)) as [Hcount Hreturns].
    { vm_compute. split; discriminate. }
    destruct Hreturns as [pc' H]; [vm_compute; discriminate|].
    exists pc'. split; [exact H | apply (Hcount pc' H)].
Defined.

(** C2 (defect).  In the first tuning of the example plan bucket 0 stands
    for the frequency 3072000 Hz below the tuning, which is the baseband
    offset of output bin 5120.  [handle_fft_out] adds the magnitude of output
    bin 1 (offset +1000 Hz) to it: the bins are accumulated in the order the
    FFT delivers them, as the REVISIT note in the function says. *)
Theorem handle_fft_out_not_reordered :
  let pc := example_frame 0 in
  in_range pc = true
  /\ lowest_bin pc = 0
  /\ lowest_frequency_retained pc + 0 * frequency_resolution pc - current_frequency pc
     = -3072000
  /\ baseband_offset (fft_size pc) (frequency_resolution pc) 5120 = -3072000
  /\ baseband_offset (fft_size pc) (frequency_resolution pc) 1 = 1000
  /\ fftw_out pc !! Z.to_nat 5120 = Some 5120
  /\ fftw_out pc !! 1%nat = Some 1
  /\ power_accumulation pc !! 0%nat = Some 0
  /\ exists pc', handle_fft_out Z.add Z.abs pc = Ok pc'
                 /\ power_accumulation pc' !! 0%nat = Some 1.
Proof.
  cbv zeta.
  assert (Hin : in_range (example_frame 0) = true) by (vm_compute; reflexivity).
  assert (Hlow : lowest_bin (example_frame 0) = 0) by (vm_compute; reflexivity).
  assert (Hout : fftw_out (example_frame 0) !! 1%nat = Some 1)
    by (vm_compute; reflexivity).
  assert (Hacc : power_accumulation (example_frame 0) !! 0%nat = Some 0)
    by (vm_compute; reflexivity).
  split; [exact Hin|]. split; [exact Hlow|].
  split; [vm_compute; reflexivity|]. split; [vm_compute; reflexivity|].
  split; [vm_compute; reflexivity|]. split; [vm_compute; reflexivity|].
  split; [exact Hout|]. split; [exact Hacc|].
  destruct (handle_fft_out_returns Z.add Z.abs (example_frame 0)
              example_frame_0_allocated) as [pc' H].
  { right. vm_compute. discriminate. }
  exists pc'. split; [exact H|].
  destruct (handle_fft_out_raw_order Z.add Z.abs _ _ 0 H Hin) as (a & c & Ha & Hc & Hr).
  { vm_compute. split; [discriminate | reflexivity]. }
  { vm_compute. reflexivity. }
  rewrite Hlow in Ha, Hr.
  change (Z.to_nat (0 + 0)) with 0%nat in Ha, Hr.
  change (Z.to_nat (0 + 1)) with 1%nat in Hc.
  rewrite Hacc in Ha. rewrite Hout in Hc.
  injection Ha as <-. injection Hc as <-. exact Hr.
Qed.

(** ** The accumulator after planning *)

Section FreshAccumulator.

Context {F C : Type}.
Variables (fzero funinit : F) (fadd : F -> F -> F).
Variables (cuninit : C) (cabs : C -> F).

Abbreviation Configuration := (@ProgramConfiguration F C).

Lemma frame_in_range_placement (pc pc' : Configuration) (frame : Frequency * list C) :
  placement pc = placement pc' ->
  frame_in_range pc frame = frame_in_range pc' frame.
Proof.
  unfold placement, frame_in_range, in_range, lowest_bin, bin_count,
    lowest_frequency_retained.
  destruct pc, pc'; fields. intros [= -> -> -> ->]. reflexivity.
Qed.

Lemma deliver_dropped (pc pc' : Configuration) (frame : Frequency * list C) :
  deliver fadd cabs pc frame = Ok pc' ->
  frame_in_range pc frame = false ->
  placement pc' = placement pc /\ accumulator pc' = accumulator pc.
Proof.
  unfold deliver, frame_in_range. intros H Hdrop.
  apply handle_fft_out_inv in H as (power & _ & _ & [[_ ->]|[Hin _]]).
  - split; destruct pc; reflexivity.
  - replace (in_range (set_fftw_out (snd frame) (set_current_frequency (fst frame) pc)))
      with (in_range (set_current_frequency (fst frame) pc)) in Hin
      by (destruct pc; reflexivity).
    congruence.
Qed.

Lemma deliver_all_dropped (frames : list (Frequency * list C)) (pc pc' : Configuration) :
  deliver_all fadd cabs pc frames = Ok pc' ->
  Forall (fun frame => frame_in_range pc frame = false) frames ->
  accumulator pc' = accumulator pc.
Proof.
  revert pc. induction frames as [|frame frames IH]; intros pc; simpl.
  - intros [= <-] _. reflexivity.
  - intros H Hall. apply bind_inv in H as (pc1 & H1 & H).
    apply Forall_cons in Hall as [Hframe Hall].
    destruct (deliver_dropped _ _ _ H1 Hframe) as [Hplace Hacc].
    rewrite <- Hacc. apply IH; [exact H|].
    eapply Forall_impl; [exact Hall|]. intros fr Hfr. cbv beta in Hfr |- *.
    rewrite <- Hfr. apply frame_in_range_placement. exact Hplace.
Qed.

(** C10.  When [plan_fft] returns, [accumulation_count] is 0 and each of the
    [power_buckets] elements of [power_accumulation] is zero; frames that are
    dropped leave it so, so the accumulator reads all zero until the first
    frame that is in range. *)
Theorem plan_fft_accumulator_zero (dev : Device) (pc pc' : Configuration) :
  plan_fft fzero funinit cuninit dev pc = Ok pc' ->
  accumulation_count pc' = 0
  /\ Z.of_nat (length (power_accumulation pc')) = power_buckets pc'
  /\ (forall i, 0 <= i < power_buckets pc' ->
        power_accumulation pc' !! Z.to_nat i = Some fzero)
  /\ (forall frames pc'',
        Forall (fun frame => frame_in_range pc' frame = false) frames ->
        deliver_all fadd cabs pc' frames = Ok pc'' ->
        accumulation_count pc'' = 0
        /\ forall i, 0 <= i < power_buckets pc' ->
             power_accumulation pc'' !! Z.to_nat i = Some fzero).
Proof.
  intros H. apply plan_fft_fields in H
    as (_ & _ & _ & Hpos & Hacc & Hcount & _).
  assert (Hzero : forall i, 0 <= i < power_buckets pc' ->
                    power_accumulation pc' !! Z.to_nat i = Some fzero).
  { intros i Hi. rewrite Hacc. apply lookup_replicate_2. lia. }
  split; [exact Hcount|]. split.
  { rewrite Hacc, length_replicate. lia. }
  split; [exact Hzero|].
  intros frames pc'' Hall Hrun.
  pose proof (deliver_all_dropped _ _ _ Hrun Hall) as Hsame.
  unfold accumulator in Hsame. injection Hsame as Hsame1 Hsame2.
  rewrite Hsame1, Hsame2. split; [exact Hcount | exact Hzero].
Qed.

(** C1 (defect).  For [powerscan -d hackrf -s 100M -e 104M -r 1000] on a
    device sampling at 4096000 the resolution asks for an FFT of 4096 points,
    a power of two inside [[4, 2^16]]; [plan_fft] overwrites the size it has
    just computed with 8192, and the resolution becomes 500.  Every plan that
    [plan_fft] returns has 8192 points, whatever the resolution. *)
Theorem plan_fft_size_pinned :
  (exists pc pc' : Configuration,
     gather_parameters pinned_argv = Ok (true, pc, [])
     /\ frequency_resolution pc = 1000
     /\ initialise_configuration fzero funinit cuninit pinned_device pc = Ok pc'
     /\ sample_rate pc' = inject_Z 4096000
     /\ resolution_driven_fft_size (set_frequency_resolution 1000 pc') = 4096
     /\ fft_size pc' = 8192
     /\ frequency_resolution pc' = 500)
  /\ (forall (dev : Device) (pc : Configuration),
        match plan_fft fzero funinit cuninit dev pc with
        | Ok pc' =>
            fft_size pc' = 8192
            /\ frequency_resolution pc' = Qtrunc (sample_rate pc / inject_Z 8192)
        | Err _ => True
        end).
Proof.
  split.
  - eexists. eexists. split; [vm_compute; reflexivity|].
    split; [reflexivity|]. split; [vm_compute; reflexivity|].
    repeat split.
  - intros dev pc. destruct (plan_fft fzero funinit cuninit dev pc) as [pc'|e] eqn:E;
      [|exact I].
    apply plan_fft_fields in E as (Hsize & Hres & _). split; assumption.
Qed.

End FreshAccumulator.

Lemma plan_fft_accumulator_zero_witness :
  exists pc' : @ProgramConfiguration Z Z,
    plan_fft 0 0 0 example_device
      (set_sample_rate (inject_Z 8192000)
         (set_end_frequency 106144000
            (set_start_frequency 100000000 default_parameters))) = Ok pc'
    /\ accumulation_count pc' = 0
    /\ power_buckets pc' = 6144
    /\ power_accumulation pc' !! Z.to_nat 6143 = Some 0.
Proof.
  eexists. split; [vm_compute; reflexivity|].
  match goal with
  | |- accumulation_count ?p = 0 /\ _ =>
      destruct (plan_fft_accumulator_zero 0 0 Z.add 0 Z.abs example_device
                  (set_sample_rate (inject_Z 8192000)
                     (set_end_frequency 106144000
                        (set_start_frequency 100000000 default_parameters))) p)
        as (Hcount & _ & Hzero & _)
  end.
  { vm_compute. reflexivity. }
  split; [exact Hcount|]. split; [reflexivity|].
  apply Hzero. vm_compute. split; [discriminate | reflexivity].
Defined.

(** ** The tuning plan *)

Lemma Qceiling_pos (x : Q) : (0 < x)%Q -> 0 < Qceiling x.
Proof.
  intros H. rewrite Zlt_Qlt. change (inject_Z 0) with 0%Q.
  eapply Qlt_le_trans; [exact H | apply Qle_ceiling].
Qed.

Lemma Qfloor_nonneg (x : Q) : (0 <= x)%Q -> 0 <= Qfloor x.
Proof. intros H. apply Qfloor_resp_le in H. exact H. Qed.

(** [ceil(a / b) * b] covers [a]. *)
Lemma Qceiling_div_covers (a b : Z) :
  0 < b -> a <= Qceiling (inject_Z a / inject_Z b) * b.
Proof.
  intros Hb. rewrite Zle_Qle, inject_Z_mult.
  assert (Hq : (0 < inject_Z b)%Q).
  { change 0%Q with (inject_Z 0). rewrite <- Zlt_Qlt. exact Hb. }
  pose proof (Qle_ceiling (inject_Z a / inject_Z b)) as Hc.
  apply Qmult_le_compat_r with (z := inject_Z b) in Hc; [|apply Qlt_le_weak; exact Hq].
  rewrite Qmult_comm, Qmult_div_r in Hc; [exact Hc|].
  intros E. rewrite E in Hq. discriminate.
Qed.

Lemma ceil_rounded_quotient_covers (a b : Z) (x : Q) :
  0 < b -> 0 <= a < 2 ^ 53 ->
  (inject_Z a / inject_Z b * (1 - unit_roundoff) <= x)%Q ->
  a <= Qceiling x * b.
Proof.
  intros Hb Ha Hx.
  assert (Hq : (0 < inject_Z b)%Q).
  { change 0%Q with (inject_Z 0). rewrite <- Zlt_Qlt. exact Hb. }
  pose proof (Qle_ceiling x) as Hc.
  set (n := Qceiling x) in *.
  assert (H1 : (inject_Z a * (1 - unit_roundoff) <= inject_Z (n * b))%Q).
  { rewrite inject_Z_mult.
    apply Qle_trans with (y := (x * inject_Z b)%Q).
    - apply Qle_trans with (y := (inject_Z a / inject_Z b * (1 - unit_roundoff) * inject_Z b)%Q).
      + apply Qle_lteq. right. field. intros E. rewrite E in Hq. discriminate.
      + apply Qmult_le_compat_r; [exact Hx | apply Qlt_le_weak; exact Hq].
    - apply Qmult_le_compat_r; [exact Hc | apply Qlt_le_weak; exact Hq]. }
  set (p := n * b) in *.
  unfold unit_roundoff in H1.
  assert (H2 : a * (2 ^ 53 - 1) <= p * 2 ^ 53).
  { rewrite Zle_Qle. rewrite !inject_Z_mult.
    assert (H3 : (inject_Z (2 ^ 53) == 9007199254740992)%Q) by reflexivity.
    assert (H4 : (inject_Z (2 ^ 53 - 1) == 9007199254740991)%Q) by reflexivity.
    rewrite H3, H4.
    change (1 # 2 ^ 53)%Q with (1 # 9007199254740992)%Q in H1.
    lra. }
  change (2 ^ 53) with 9007199254740992 in *.
  lia.
Qed.

Section Tuning.

Context {F C : Type}.
Variables (fzero funinit : F) (cuninit : C).

Abbreviation Configuration := (@ProgramConfiguration F C).


(** The coverage does not depend on the quotient being exact: it holds for
    any value within the unit roundoff below the exact quotient, as long as
    the range to scan is below [2^53] Hz. *)
Lemma plan_tuning_coverage_rounded (pc : Configuration) (quotient : Q) :
  0 < start_frequency pc < end_frequency pc ->
  (0 < sample_rate pc)%Q ->
  (0 <= crop_ratio pc)%Q -> (crop_ratio pc <= MAX_CROP_RATIO)%Q ->
  let total_scan :=
    end_frequency pc - start_frequency pc
    + Qfloor (crop_ratio pc * sample_rate pc) in
  let bandwidth := Qceiling (sample_rate pc * (1 - crop_ratio pc)) in
  total_scan < 2 ^ 53 ->
  (inject_Z total_scan / inject_Z bandwidth * (1 - unit_roundoff) <= quotient)%Q ->
  Qceiling quotient * bandwidth >= total_scan.
Proof.
  intros Hband Hrate Hcrop0 Hcrop1 total_scan bandwidth Htotal Hq.
  assert (Hbw : 0 < bandwidth).
  { apply Qceiling_pos. apply Qmult_lt_0_compat; [exact Hrate|].
    unfold MAX_CROP_RATIO in Hcrop1. lra. }
  assert (Hfloor : 0 <= Qfloor (crop_ratio pc * sample_rate pc)).
  { apply Qfloor_nonneg. apply Qmult_le_0_compat; [exact Hcrop0|].
    apply Qlt_le_weak. exact Hrate. }
  apply Z.le_ge. apply ceil_rounded_quotient_covers; [exact Hbw | | exact Hq].
  subst total_scan. lia.
Qed.

Lemma select_loop_band (rates : list Q) (pc : Configuration) :
  start_frequency (select_loop rates pc) = start_frequency pc
  /\ end_frequency (select_loop rates pc) = end_frequency pc
  /\ crop_ratio (select_loop rates pc) = crop_ratio pc.
Proof.
  revert pc. induction rates as [|r rates IH]; intros pc; simpl; [auto|].
  destruct (IH (if Qltb (sample_rate pc) r
                   && ((requested_sample_rate pc =? 0)
                       || Qle_bool r (inject_Z (requested_sample_rate pc)))
                then set_sample_rate r pc else pc)) as (-> & -> & ->).
  destruct (_ && _); [destruct pc|]; auto.
Qed.

Lemma limit_crop_ratio_band (pc : Configuration) :
  start_frequency (limit_crop_ratio pc) = start_frequency pc
  /\ end_frequency (limit_crop_ratio pc) = end_frequency pc
  /\ sample_rate (limit_crop_ratio pc) = sample_rate pc.
Proof.
  unfold limit_crop_ratio.
  destruct (Qltb _ _); [destruct pc; auto|].
  destruct (Qltb _ _); [destruct pc; auto|]. auto.
Qed.

Lemma default_frequency_resolution_band (pc : Configuration) :
  band (default_frequency_resolution pc) = band pc.
Proof.
  unfold default_frequency_resolution, band. destruct pc; fields.
  repeat (match goal with |- context [if ?b then _ else _] => destruct b end; fields);
    reflexivity.
Qed.

Lemma plan_tuning_band (pc pc' : Configuration) :
  plan_tuning pc = Ok pc' -> band pc' = band pc.
Proof.
  unfold plan_tuning, band. destruct pc; fields.
  destruct (_ =? 0); [discriminate|]. destruct (_ =? 0); [discriminate|].
  intros H. ok_inv H. destruct (_ <? _); reflexivity.
Qed.

Lemma setup_stream_band (dev : Device) (pc pc' : Configuration) :
  setup_stream dev pc = Ok pc' -> band pc' = band pc.
Proof.
  unfold setup_stream, band. destruct pc; fields.
  destruct (_ || _); [discriminate|]. destruct (stream_ok dev); [|discriminate].
  intros H. ok_inv H. reflexivity.
Qed.

Lemma plan_fft_band (dev : Device) (pc pc' : Configuration) :
  plan_fft fzero funinit cuninit dev pc = Ok pc' -> band pc' = band pc.
Proof.
  intros H. unfold band.
  apply plan_fft_fields in H as (_ & _ & _ & _ & _ & _ & -> & -> & -> & ->).
  reflexivity.
Qed.

(** The band that [default_end_frequency] substitutes for a missing or
    inverted one. *)
Lemma default_end_frequency_centred (pc : Configuration) :
  end_frequency pc <= 0 \/ end_frequency pc <= start_frequency pc ->
  let default_bandwidth := Qtrunc (sample_rate pc * (1 - crop_ratio pc)) in
  band (default_end_frequency pc)
  = (start_frequency pc + default_bandwidth ÷ 2 - default_bandwidth,
     start_frequency pc + default_bandwidth ÷ 2,
     sample_rate pc, crop_ratio pc).
Proof.
  unfold default_end_frequency, band.
  destruct pc as [? ? ? start finish ? ? ? ? crop ? ? ? rate ? ? ? ? ? ? ? ? ? ? ? ? ? ?].
  fields. intros Hend.
  destruct (0 <? finish) eqn:E1; destruct (finish <=? start) eqn:E2;
    cbn [andb]; fields.
  - change (0 <=? 0) with true. fields. reflexivity.
  - apply Z.ltb_lt in E1. apply Z.leb_gt in E2. lia.
  - destruct (finish <=? 0) eqn:E3; fields; [reflexivity|].
    apply Z.ltb_ge in E1. apply Z.leb_gt in E3. lia.
  - destruct (finish <=? 0) eqn:E3; fields; [reflexivity|].
    apply Z.ltb_ge in E1. apply Z.leb_gt in E3. lia.
Qed.


End Tuning.



(** ** The scan loop and the interrupt counter *)

Section ScanLoop.

Context {F C : Type}.

Abbreviation Machine := (@machine F C).

Lemma flush_loop_actions (n i : nat) (inp : input) (pc : @ProgramConfiguration F C) :
  Forall (fun a => a = ReadStream) (snd (flush_loop n i inp pc)).
Proof.
  revert i. induction n as [|n IH]; intros i; simpl; [constructor|].
  destruct (0 <=? samples (blocks inp i)); simpl; [repeat constructor|].
  specialize (IH (S i)). destruct (flush_loop n (S i) inp pc) as [[pc' ok] acts].
  simpl in *. constructor; [reflexivity | exact IH].
Qed.

Lemma retune_actions (inp : input) (pc : @ProgramConfiguration F C) (frequency : Frequency) :
  exists reads,
    snd (retune inp pc frequency) = SetFrequency frequency :: reads
    /\ Forall (fun a => a = ReadStream) reads.
Proof.
  unfold retune. destruct (set_frequency_ok inp); simpl.
  - unfold flush_data_after_config_change.
    pose proof (flush_loop_actions 3 0 inp pc) as H.
    destruct (flush_loop 3 0 inp pc) as [[pc' ok] acts]. simpl in H.
    destruct ok; simpl; eauto.
  - exists []. split; [reflexivity | constructor].
Qed.

Lemma step_signals (inp : input) (m : Machine) :
  signals_caught (fst (step inp m)) = signals_caught m + Z.of_nat (interrupts inp).
Proof.
  unfold step. destruct (at_point m) as [rep|rep i f|rep i f e|rep r|].
  - destruct (_ || _); reflexivity.
  - destruct (_ <? _); [|reflexivity]. destruct (1 <? _); [reflexivity|].
    destruct (retune inp (config m) f) as [[pc ok] acts]. destruct ok; reflexivity.
  - destruct (_ <? _); [|reflexivity].
    destruct (receive_block inp (config m)) as [pc ok]. destruct ok; reflexivity.
  - destruct (_ || _); reflexivity.
  - reflexivity.
Qed.

Lemma step_after_second_signal (inp : input) (m : Machine) :
  1 < signals_caught m ->
  Forall (fun a => is_retune a = false) (snd (step inp m)).
Proof.
  intros H. unfold step. destruct (at_point m) as [rep|rep i f|rep i f e|rep r|].
  - destruct (_ || _); repeat constructor.
  - destruct (_ <? _); [|constructor].
    destruct (1 <? _) eqn:E; [constructor|]. apply Z.ltb_ge in E. lia.
  - destruct (_ <? _); [|constructor].
    destruct (receive_block inp (config m)) as [pc ok]. destruct ok; repeat constructor.
  - destruct (_ || _); repeat constructor.
  - constructor.
Qed.

Lemma step_in_scan (inp : input) (m : Machine) :
  1 <= signals_caught m -> in_scan (at_point m) = true ->
  in_scan (at_point (fst (step inp m))) = true
  /\ Forall (fun a => is_sweep_start a = false) (snd (step inp m)).
Proof.
  intros H Hp. unfold step. destruct (at_point m) as [rep|rep i f|rep i f e|rep r|].
  - discriminate.
  - destruct (_ <? _); [|split; [reflexivity | constructor]].
    destruct (1 <? _); [split; [reflexivity | constructor]|].
    destruct (retune_actions inp (config m) f) as (reads & Hacts & Hreads).
    destruct (retune inp (config m) f) as [[pc ok] acts]. simpl in Hacts. subst acts.
    assert (Forall (fun a => is_sweep_start a = false) (SetFrequency f :: reads)).
    { constructor; [reflexivity|]. eapply Forall_impl; [exact Hreads|].
      intros a ->. reflexivity. }
    destruct ok; (split; [reflexivity | assumption]).
  - destruct (_ <? _); [|split; [reflexivity | constructor]].
    destruct (receive_block inp (config m)) as [pc ok].
    destruct ok; (split; [reflexivity | repeat constructor]).
  - destruct (negb r || (1 <=? _)) eqn:E; [split; [reflexivity | repeat constructor]|].
    apply orb_false_elim in E as [_ E]. apply Z.leb_gt in E. lia.
  - split; [reflexivity | constructor].
Qed.

Lemma run_after_second_signal (inputs : list input) (m : Machine) :
  1 < signals_caught m ->
  Forall (fun a => is_retune a = false) (snd (run inputs m)).
Proof.
  revert m. induction inputs as [|inp inputs IH]; intros m H; simpl; [constructor|].
  pose proof (step_after_second_signal inp m H) as Hstep.
  pose proof (step_signals inp m) as Hsig.
  destruct (step inp m) as [m1 acts1]. simpl in *.
  specialize (IH m1). destruct (run inputs m1) as [m2 acts2]. simpl in *.
  apply Forall_app. split; [exact Hstep | apply IH; lia].
Qed.

Lemma run_in_scan (inputs : list input) (m : Machine) :
  1 <= signals_caught m -> in_scan (at_point m) = true ->
  Forall (fun a => is_sweep_start a = false) (snd (run inputs m)).
Proof.
  revert m. induction inputs as [|inp inputs IH]; intros m H Hp; simpl; [constructor|].
  destruct (step_in_scan inp m H Hp) as [Hp1 Hstep].
  pose proof (step_signals inp m) as Hsig.
  destruct (step inp m) as [m1 acts1]. simpl in *.
  specialize (IH m1). destruct (run inputs m1) as [m2 acts2]. simpl in *.
  apply Forall_app. split; [exact Hstep | apply IH; [lia | exact Hp1]].
Qed.

(** C4 (as the code has it).  [main] tests the counter when [scan] has
    returned, and [scan] tests it before each retune.  So, with [caught] the
    counter as a step reads it:
    - once [scan] has returned with [caught >= 1] the program finalises and
      exits, and from a machine inside [scan] with a signal caught no further
      sweep is ever started;
    - until then a caught signal changes nothing: at a tuning boundary with
      [caught <= 1] the next tuning is retuned, and a dwell that has time left
      reads its next block whatever the counter;
    - at a tuning boundary with [caught > 1], [scan] returns without a call
      to the driver (false if tunings remain), and once two signals are
      caught no retune is ever issued. *)
Theorem scan_interrupt_levels (m : Machine) (inp : input) (inputs : list input) :
  let caught := signals_caught m + Z.of_nat (interrupts inp) in
  (forall repetition r,
     at_point m = ScanReturned repetition r -> 1 <= caught ->
     at_point (fst (step inp m)) = Exited /\ snd (step inp m) = [Finalise])
  /\ (1 <= signals_caught m -> in_scan (at_point m) = true ->
      Forall (fun a => is_sweep_start a = false) (snd (run inputs m)))
  /\ (forall repetition i frequency,
        at_point m = ScanLoop repetition i frequency ->
        i < tuning_count (config m) -> caught <= 1 ->
        exists reads, snd (step inp m) = SetFrequency frequency :: reads)
  /\ (forall repetition i frequency receive_end_time,
        at_point m = Dwell repetition i frequency receive_end_time ->
        last_time (config m) < receive_end_time ->
        snd (step inp m) = [ReadStream])
  /\ (forall repetition i frequency,
        at_point m = ScanLoop repetition i frequency -> 1 < caught ->
        snd (step inp m) = []
        /\ at_point (fst (step inp m))
           = ScanReturned repetition (negb (i <? tuning_count (config m))))
  /\ (1 < signals_caught m ->
      Forall (fun a => is_retune a = false) (snd (run inputs m))).
Proof.
  cbv zeta. split; [|split; [|split; [|split; [|split]]]].
  - intros repetition r Hp Hc. unfold step. rewrite Hp.
    apply Z.leb_le in Hc. rewrite Hc, orb_true_r. split; reflexivity.
  - apply run_in_scan.
  - intros repetition i frequency Hp Hi Hc. unfold step. rewrite Hp.
    apply Z.ltb_lt in Hi. rewrite Hi.
    replace (1 <? _) with false by (symmetry; apply Z.ltb_ge; exact Hc).
    destruct (retune_actions inp (config m) frequency) as (reads & Hacts & _).
    destruct (retune inp (config m) frequency) as [[pc ok] acts].
    simpl in Hacts. subst acts. exists reads. destruct ok; reflexivity.
  - intros repetition i frequency receive_end_time Hp Ht. unfold step. rewrite Hp.
    apply Z.ltb_lt in Ht. rewrite Ht.
    destruct (receive_block inp (config m)) as [pc ok]. destruct ok; reflexivity.
  - intros repetition i frequency Hp Hc. unfold step. rewrite Hp.
    apply Z.ltb_lt in Hc. rewrite Hc.
    destruct (i <? tuning_count (config m)); split; reflexivity.
  - apply run_after_second_signal.
Qed.

End ScanLoop.

Lemma scan_interrupt_levels_witness :
  (let m : @machine Z Z := fst (run first_signal_inputs (start example_plan)) in
   (exists reads, snd (step (tick 0 6010000) m) = SetFrequency 109216000 :: reads)
   /\ Forall (fun a => is_sweep_start a = false)
        (snd (run [tick 0 6010000; tick 0 16000000; tick 0 16000000] m)))
  /\ (let m : @machine Z Z := fst (run second_signal_inputs (start example_plan)) in
      snd (step (tick 0 3000000) m) = [ReadStream]
      /\ Forall (fun a => is_retune a = false)
           (snd (run [tick 0 3000000; tick 0 6000000; tick 0 6000000; tick 0 6000000] m)))
  /\ (let m : @machine Z Z :=
        fst (run (second_signal_inputs ++ [tick 0 3000000; tick 0 6000000; tick 0 6000000])
               (start example_plan)) in
      (snd (step (tick 0 6000000) m) = []
       /\ at_point (fst (step (tick 0 6000000) m))
          = ScanReturned 0 (negb (1 <? tuning_count (config m))))
      /\ at_point (fst (step (tick 0 6000000) (fst (step (tick 0 6000000) m)))) = Exited
      /\ snd (step (tick 0 6000000) (fst (step (tick 0 6000000) m))) = [Finalise]).
Proof.
  cbv zeta. split; [|split].
  - pose proof (scan_interrupt_levels
                  (fst (run first_signal_inputs (start example_plan)))
                  (tick 0 6010000)
                  [tick 0 6010000; tick 0 16000000; tick 0 16000000])
      as (_ & Hsweep & Hretune & _).
    split.
    + apply (Hretune 0 1 109216000); vm_compute; (reflexivity || discriminate).
    + apply Hsweep; vm_compute; (reflexivity || discriminate).
  - pose proof (scan_interrupt_levels
                  (fst (run second_signal_inputs (start example_plan)))
                  (tick 0 3000000)
                  [tick 0 3000000; tick 0 6000000; tick 0 6000000; tick 0 6000000])
      as (_ & _ & _ & Hdwell & _ & Hnever).
    split.
    + apply (Hdwell 0 0 103072000 5001000); vm_compute; reflexivity.
    + apply Hnever. vm_compute. reflexivity.
  - split.
    + pose proof (scan_interrupt_levels
                    (fst (run (second_signal_inputs
                               ++ [tick 0 3000000; tick 0 6000000; tick 0 6000000])
                            (start example_plan)))
                    (tick 0 6000000) [])
        as (_ & _ & _ & _ & Habort & _).
      apply (Habort 0 1 109216000); vm_compute; reflexivity.
    + pose proof (scan_interrupt_levels
                    (fst (step (tick 0 6000000)
                            (fst (run (second_signal_inputs
                                       ++ [tick 0 3000000; tick 0 6000000; tick 0 6000000])
                                    (start example_plan)))))
                    (tick 0 6000000) [])
        as (Hexit & _).
      apply (Hexit 0 false); vm_compute; (reflexivity || discriminate).
Defined.

(** C4, as stated, fails on the example plan.  A signal caught in the first
    tuning leaves the machine at the next tuning boundary with the counter at
    1, and the step from there retunes to the second tuning.  Two signals
    caught in the first tuning leave the machine in its dwell, and the step
    from there reads the next block of the same tuning. *)
Lemma scan_retunes_after_first_signal :
  (let m : @machine Z Z := fst (run first_signal_inputs (start example_plan)) in
   signals_caught m = 1
   /\ at_point m = ScanLoop 0 1 109216000
   /\ snd (step (tick 0 6010000) m) = [SetFrequency 109216000; ReadStream])
  /\ (let m : @machine Z Z := fst (run second_signal_inputs (start example_plan)) in
      signals_caught m = 2
      /\ at_point m = Dwell 0 0 103072000 5001000
      /\ snd (step (tick 0 3000000) m) = [ReadStream]
      /\ at_point (fst (step (tick 0 3000000) m)) = Dwell 0 0 103072000 5001000).
Proof. vm_compute. repeat split. Qed.

(** * Further properties of the code *)

(** ** The planner as a whole *)

Lemma Qtrunc_floor (q : Q) : (0 <= q)%Q -> Qtrunc q = Qfloor q.
Proof.
  destruct q as [n d]. unfold Qle, Qtrunc, Qfloor. simpl. intros H.
  apply Z.quot_div_nonneg; lia.
Qed.

Lemma Qtrunc_nonneg (q : Q) : (0 <= q)%Q -> 0 <= Qtrunc q.
Proof. intros H. rewrite Qtrunc_floor by exact H. apply Qfloor_nonneg. exact H. Qed.

Lemma Qtrunc_le (q : Q) (z : Z) : (inject_Z z <= q)%Q -> 0 <= z -> z <= Qtrunc q.
Proof.
  intros H Hz. rewrite Qtrunc_floor.
  - apply Qfloor_resp_le in H. rewrite Qfloor_Z in H. exact H.
  - eapply Qle_trans; [|exact H]. change 0%Q with (inject_Z 0).
    rewrite <- Zle_Qle. exact Hz.
Qed.

Section PlanProperties.
Context {F C : Type}.
Variables (fzero funinit : F) (cuninit : C).
Abbreviation Configuration := (@ProgramConfiguration F C).

Lemma limit_crop_ratio_range (pc : Configuration) :
  (0 <= crop_ratio (limit_crop_ratio pc))%Q
  /\ (crop_ratio (limit_crop_ratio pc) <= MAX_CROP_RATIO)%Q.
Proof.
  unfold limit_crop_ratio.
  destruct (Qltb MAX_CROP_RATIO (crop_ratio pc)) eqn:E1.
  - cbn. split; [discriminate | apply Qle_refl].
  - apply Qltb_false in E1. destruct (Qltb (crop_ratio pc) 0) eqn:E2.
    + cbn. split; [apply Qle_refl | discriminate].
    + apply Qltb_false in E2. split; assumption.
Qed.

Lemma plan_tuning_fields (pc pc' : Configuration) :
  plan_tuning pc = Ok pc' ->
  let total_scan :=
    end_frequency pc - start_frequency pc + Qfloor (crop_ratio pc * sample_rate pc) in
  tuning_bandwidth pc' = Qceiling (sample_rate pc * (1 - crop_ratio pc))
  /\ tuning_bandwidth pc' <> 0
  /\ tuning_start pc' = start_frequency pc + tuning_bandwidth pc' ÷ 2
  /\ tuning_count pc'
     = Qceiling (inject_Z total_scan / inject_Z (tuning_bandwidth pc'))
  /\ tuning_count pc' <> 0
  /\ MIN_DWELL_TIME <= dwell_time pc'
  /\ frequency_resolution pc' = frequency_resolution pc
  /\ sdr_channel pc' = sdr_channel pc
  /\ repetition_limit pc' = repetition_limit pc.
Proof.
  unfold plan_tuning. fields.
  destruct (Qceiling _ =? 0) eqn:E1; [discriminate|].
  destruct (Qceiling (_ / _) =? 0) eqn:E2; [discriminate|].
  apply Z.eqb_neq in E1, E2.
  intros H. ok_inv H. cbv zeta.
  destruct (_ <? MIN_DWELL_TIME) eqn:E3; fields;
    repeat split; try reflexivity; try assumption.
  - apply Z.ltb_ge in E3. exact E3.
Qed.

Lemma setup_stream_fields (dev : Device) (pc pc' : Configuration) :
  setup_stream dev pc = Ok pc' ->
  pc' = set_channel_count (device_channels dev) pc
  /\ 0 <= sdr_channel pc < device_channels dev.
Proof.
  unfold setup_stream. fields.
  destruct (sdr_channel pc <? 0) eqn:E1; [discriminate|].
  destruct (device_channels dev <=? sdr_channel pc) eqn:E2; [discriminate|].
  destruct (stream_ok dev); [|discriminate]. cbn [orb].
  intros H. ok_inv H. apply Z.ltb_ge in E1. apply Z.leb_gt in E2. auto.
Qed.

Lemma plan_fft_schedule (dev : Device) (pc pc' : Configuration) :
  plan_fft fzero funinit cuninit dev pc = Ok pc' ->
  schedule pc' = schedule pc
  /\ frequency_resolution pc' <> 0
  /\ fftw_out pc' = replicate (Z.to_nat 8192) cuninit
  /\ fft_power pc' = replicate (Z.to_nat 8192) funinit
  /\ fft_fill pc' = 0
  /\ current_frequency pc' = current_frequency pc.
Proof.
  unfold plan_fft. fields.
  replace (8192 <? 4) with false by reflexivity. fields.
  destruct (Qtrunc _ =? 0) eqn:E; [discriminate|]. apply Z.eqb_neq in E.
  destruct (memory_ok dev); cbn [andb]; [|discriminate].
  destruct (0 <=? _); [|discriminate].
  intros H. ok_inv H. repeat split; try reflexivity. exact E.
Qed.

(** What a successful initialisation went through. *)
Lemma initialise_configuration_stages (dev : Device) (pc pc' : Configuration) :
  initialise_configuration fzero funinit cuninit dev pc = Ok pc' ->
  let pc1 :=
    limit_crop_ratio
      (select_sample_rate (set_sample_rates (device_sample_rates dev) pc)) in
  let pc2 := default_frequency_resolution (default_end_frequency pc1) in
  device_found dev = true
  /\ 0 < start_frequency pc
  /\ exists pc3 pc4,
       plan_tuning pc2 = Ok pc3
       /\ setup_stream dev pc3 = Ok pc4
       /\ plan_fft fzero funinit cuninit dev pc4 = Ok pc'.
Proof.
  unfold initialise_configuration. intros H.
  destruct (device_found dev); [|discriminate]. cbn [negb] in H. cbv zeta in H |- *.
  set (pc1 := limit_crop_ratio _) in *.
  assert (Hstart : start_frequency pc1 = start_frequency pc).
  { subst pc1. rewrite (proj1 (limit_crop_ratio_band _)).
    unfold select_sample_rate. rewrite (proj1 (select_loop_band _ _)). reflexivity. }
  destruct (start_frequency pc1 <=? 0) eqn:Hpos; [discriminate|].
  apply Z.leb_gt in Hpos.
  apply bind_inv in H as (pc3 & H3 & H). apply bind_inv in H as (pc4 & H4 & H).
  split; [reflexivity|]. split; [lia|]. exists pc3, pc4. auto.
Qed.

Lemma default_end_frequency_ordered (pc : Configuration) :
  (0 <= sample_rate pc)%Q -> (crop_ratio pc <= MAX_CROP_RATIO)%Q ->
  start_frequency (default_end_frequency pc) <= end_frequency (default_end_frequency pc)
  /\ sample_rate (default_end_frequency pc) = sample_rate pc
  /\ crop_ratio (default_end_frequency pc) = crop_ratio pc
  /\ (start_frequency (default_end_frequency pc) = start_frequency pc
      \/ end_frequency (default_end_frequency pc)
         - start_frequency (default_end_frequency pc)
         = Qtrunc (sample_rate pc * (1 - crop_ratio pc))).
Proof.
  intros Hrate Hcrop.
  assert (Hwidth : 0 <= Qtrunc (sample_rate pc * (1 - crop_ratio pc))).
  { apply Qtrunc_nonneg. apply Qmult_le_0_compat; [exact Hrate|].
    unfold MAX_CROP_RATIO in Hcrop. lra. }
  destruct (Z_le_gt_dec (end_frequency pc) 0) as [H0|H0];
    [|destruct (Z_le_gt_dec (end_frequency pc) (start_frequency pc)) as [H1|H1]].
  - pose proof (default_end_frequency_centred pc (or_introl H0)) as H.
    cbv zeta in H. unfold band in H. injection H as Hs He Hr Hc.
    rewrite Hs, He, Hr, Hc. repeat split; [lia | right; lia].
  - pose proof (default_end_frequency_centred pc (or_intror H1)) as H.
    cbv zeta in H. unfold band in H. injection H as Hs He Hr Hc.
    rewrite Hs, He, Hr, Hc. repeat split; [lia | right; lia].
  - unfold default_end_frequency.
    replace (0 <? end_frequency pc) with true by (symmetry; apply Z.ltb_lt; lia).
    replace (end_frequency pc <=? start_frequency pc) with false
      by (symmetry; apply Z.leb_gt; lia).
    cbn [andb].
    replace (end_frequency pc <=? 0) with false by (symmetry; apply Z.leb_gt; lia).
    repeat split; [lia | left; reflexivity].
Qed.

(** What initialisation guarantees about the chosen rate and the band. *)
Lemma initialise_configuration_inputs (dev : Device) (pc pc' : Configuration) :
  initialise_configuration fzero funinit cuninit dev pc = Ok pc' ->
  (0 <= sample_rate pc)%Q ->
  exists pc2 pc3 : Configuration,
    plan_tuning pc2 = Ok pc3
    /\ plan_fft fzero funinit cuninit dev
         (set_channel_count (device_channels dev) pc3) = Ok pc'
    /\ (0 <= sample_rate pc2)%Q
    /\ (0 <= crop_ratio pc2)%Q /\ (crop_ratio pc2 <= MAX_CROP_RATIO)%Q
    /\ start_frequency pc2 <= end_frequency pc2
    /\ (start_frequency pc2 < end_frequency pc2
        \/ end_frequency pc2 - start_frequency pc2
           = Qtrunc (sample_rate pc2 * (1 - crop_ratio pc2)))
    /\ band pc' = band pc2.
Proof.
  intros H Hrate.
  apply initialise_configuration_stages in H as (_ & Hpos & pc3 & pc4 & H3 & H4 & H5).
  cbv zeta in H3.
  set (pc0 := set_sample_rates (device_sample_rates dev) pc) in *.
  set (pc1 := limit_crop_ratio (select_sample_rate pc0)) in *.
  set (pc2 := default_frequency_resolution (default_end_frequency pc1)) in *.
  apply setup_stream_fields in H4 as [-> _].
  destruct (limit_crop_ratio_range (select_sample_rate pc0)) as [Hc0 Hc1].
  fold pc1 in Hc0, Hc1.
  assert (Hr1 : (0 <= sample_rate pc1)%Q).
  { subst pc1. rewrite (proj2 (proj2 (limit_crop_ratio_band _))).
    unfold select_sample_rate.
    eapply Qle_trans; [exact Hrate|].
    apply (proj1 (proj2 (select_loop_largest (sample_rates pc0) pc0))). }
  destruct (default_end_frequency_ordered pc1 Hr1 Hc1) as (Hord & Hsr & Hcr & Hcase).
  pose proof (default_frequency_resolution_band (default_end_frequency pc1)) as Hb.
  fold pc2 in Hb. unfold band in Hb. injection Hb as Hs2 He2 Hr2 Hcr2.
  exists pc2, pc3. split; [exact H3|]. split; [exact H5|].
  rewrite Hr2, Hcr2, Hs2, He2, Hsr, Hcr.
  split; [exact Hr1|]. split; [exact Hc0|]. split; [exact Hc1|].
  split; [exact Hord|]. split.
  - destruct Hcase as [Hcase|Hcase]; [|right; exact Hcase].
    destruct (Z_lt_le_dec (start_frequency (default_end_frequency pc1))
                (end_frequency (default_end_frequency pc1))) as [Hlt|Hge];
      [left; exact Hlt|].
    right. assert (Hend : end_frequency pc1 <= 0 \/ end_frequency pc1 <= start_frequency pc1).
    { destruct (Z_le_gt_dec (end_frequency pc1) 0) as [H0|H0]; [left; exact H0|].
      destruct (Z_le_gt_dec (end_frequency pc1) (start_frequency pc1)) as [H1|H1];
        [right; exact H1|].
      exfalso. revert Hge. unfold default_end_frequency.
      replace (0 <? end_frequency pc1) with true by (symmetry; apply Z.ltb_lt; lia).
      replace (end_frequency pc1 <=? start_frequency pc1) with false
        by (symmetry; apply Z.leb_gt; lia).
      cbn [andb].
      replace (end_frequency pc1 <=? 0) with false by (symmetry; apply Z.leb_gt; lia).
      lia. }
    pose proof (default_end_frequency_centred pc1 Hend) as Hc.
    cbv zeta in Hc. unfold band in Hc. injection Hc as Hs He _ _.
    rewrite Hs, He. lia.
  - apply plan_fft_band in H5. apply plan_tuning_band in H3.
    rewrite H5. unfold band in *. cbn. injection H3 as -> -> -> ->.
    rewrite Hs2, He2, Hr2, Hcr2, Hsr, Hcr. reflexivity.
Qed.


End PlanProperties.



(** ** The command line as a whole *)

Lemma Qtrunc_times_one (q : Q) : Qtrunc (q * inject_Z 1) = Qtrunc q.
Proof.
  destruct q as [n d]. unfold Qtrunc. simpl.
  rewrite Z.mul_1_r, Pos.mul_1_r. reflexivity.
Qed.



Section CommandLine.
Context {F C : Type}.
Variables (fzero funinit : F) (cuninit : C).
Abbreviation Configuration := (@ProgramConfiguration F C).


(** X4.  A start frequency that [frequency_from_str] rejects does not stop
    [gather_parameters]: it returns true with the message on [stderr] and a
    start frequency of 0, and initialisation then fails for want of a start
    frequency. *)
Theorem invalid_start_frequency (dev : Device) (bad : string) :
  rejected_literal bad = true ->
  device_found dev = true ->
  exists pc : Configuration,
    gather_parameters ["powerscan"%string; "-s"%string; bad]
    = Ok (true, pc, [invalid_frequency bad])
    /\ start_frequency pc = 0
    /\ initialise_configuration fzero funinit cuninit dev pc = Err ENoStart.
Proof.
  intros Hbad Hdev.
  exists (set_start_frequency 0 default_parameters).
  split; [|split; [reflexivity|]].
  - unfold gather_parameters, Libc.getopt. cbn [tail Libc.getopt_args].
    change (Libc.getopt_cluster optstring "s" [bad])
      with ([("s"%char, Some bad)], true).
    cbn [app gather_options Ascii.eqb Bool.eqb default].
    change (id bad) with bad.
    rewrite (frequency_from_str_rejected bad Hbad). reflexivity.
  - unfold initialise_configuration. rewrite Hdev. cbn [negb]. cbv zeta.
    rewrite (proj1 (limit_crop_ratio_band _)).
    unfold select_sample_rate. rewrite (proj1 (select_loop_band _ _)).
    reflexivity.
Qed.

(** X1.  Started with no rate selected, [select_sample_rate] leaves the
    largest rate of the device's list that is within the limit (any rate
    when the limit is 0); the rate stays 0 exactly when no listed rate within
    the limit is positive. *)
Theorem select_sample_rate_choice (pc : Configuration) :
  sample_rate pc = 0%Q ->
  let chosen := sample_rate (select_sample_rate pc) in
  (0 <= chosen)%Q
  /\ (forall r, In r (sample_rates pc) -> eligible pc r -> (r <= chosen)%Q)
  /\ (chosen = 0%Q \/ (In chosen (sample_rates pc) /\ eligible pc chosen))
  /\ ((chosen == 0)%Q <->
      forall r, In r (sample_rates pc) -> eligible pc r -> (r <= 0)%Q).
Proof.
  intros H0. cbv zeta. unfold select_sample_rate.
  destruct (select_loop_largest (sample_rates pc) pc) as (_ & Hle & Hin & Hmax).
  rewrite H0 in Hle, Hin.
  split; [exact Hle|]. split; [exact Hmax|]. split; [exact Hin|]. split.
  - intros Hz r Hr He. rewrite <- Hz. apply Hmax; assumption.
  - intros Hall. destruct Hin as [->|[Hin He]]; [reflexivity|].
    apply Qle_antisym; [apply Hall; assumption | exact Hle].
Qed.
End CommandLine.

Lemma invalid_start_frequency_witness :
  rejected_literal "12x" = true
  /\ exists pc : @ProgramConfiguration Z Z,
       gather_parameters ["powerscan"%string; "-s"%string; "12x"%string]
       = Ok (true, pc, [invalid_frequency "12x"])
       /\ start_frequency pc = 0
       /\ initialise_configuration 0 0 0 example_device pc = Err ENoStart.
Proof.
  split; [reflexivity|].
  apply (invalid_start_frequency 0 0 0 example_device "12x"); reflexivity.
Defined.

Lemma select_sample_rate_choice_witness :
  sample_rate limited_rates = 0%Q
  /\ (inject_Z 10000000 <= sample_rate (select_sample_rate limited_rates))%Q
  /\ (sample_rate (select_sample_rate limited_rates) = 0%Q
      \/ In (sample_rate (select_sample_rate limited_rates)) (sample_rates limited_rates)
         /\ eligible limited_rates (sample_rate (select_sample_rate limited_rates))).
Proof.
  split; [reflexivity|].
  destruct (select_sample_rate_choice limited_rates eq_refl) as (_ & Hmax & Hin & _).
  split; [|exact Hin].
  apply Hmax; [right; right; left; reflexivity|].
  right. vm_compute. discriminate.
Defined.

(** ** Frames in the accumulator *)

Section FrameEffects.
Context {F C : Type}.
Variables (fadd : F -> F -> F) (cabs : C -> F).
Abbreviation Configuration := (@ProgramConfiguration F C).

(** [handle_fft_out] writes the scratch buffer, the accumulator and its
    count, and nothing else. *)
Lemma handle_fft_out_shape (pc pc' : Configuration) :
  handle_fft_out fadd cabs pc = Ok pc' ->
  exists power acc,
    pc' = set_accumulation_count
            (accumulation_count pc + (if in_range pc then 1 else 0))
            (set_power_accumulation acc (set_fft_power power pc))
    /\ length power = length (fft_power pc)
    /\ length acc = length (power_accumulation pc)
    /\ (in_range pc = false -> acc = power_accumulation pc)
    /\ (in_range pc = true ->
        accumulate fadd (Z.to_nat (bin_count pc)) 0 (lowest_bin pc) power
          (power_accumulation pc) = Ok acc).
Proof.
  intros H. apply handle_fft_out_inv in H as (power & Hm & _ & Hcase).
  apply magnitudes_length in Hm as Hlen. exists power.
  destruct Hcase as [[Hin ->]|[Hin (acc & Ha & ->)]]; rewrite Hin.
  - exists (power_accumulation pc).
    split; [|split; [exact Hlen|split; [reflexivity|split; [reflexivity|discriminate]]]].
    unfold set_accumulation_count, set_power_accumulation, set_fft_power; cbn.
    rewrite Z.add_0_r. reflexivity.
  - exists acc. apply accumulate_length in Ha as Hl.
    split; [reflexivity|]. split; [exact Hlen|]. split; [exact Hl|].
    split; [discriminate | intros _; exact Ha].
Qed.

(** X7.  What one call of [handle_fft_out] does to the accumulator: the count
    goes up by one if the frame is in range and stays otherwise; no bucket
    outside [[lowest_bin, lowest_bin + bin_count)] changes, and the number of
    buckets and the fields that place a frame stay; for a frame in range,
    bucket [lowest_bin + j] receives the magnitude of output bin [j + 1]. *)
Theorem handle_fft_out_effect (pc pc' : Configuration) :
  handle_fft_out fadd cabs pc = Ok pc' ->
  accumulation_count pc'
  = accumulation_count pc + (if in_range pc then 1 else 0)
  /\ length (power_accumulation pc') = length (power_accumulation pc)
  /\ placement pc' = placement pc
  /\ current_frequency pc' = current_frequency pc
  /\ (forall i : nat,
        ~ (lowest_bin pc <= Z.of_nat i < lowest_bin pc + bin_count pc) ->
        power_accumulation pc' !! i = power_accumulation pc !! i)
  /\ (in_range pc = true ->
      forall j, 0 <= j < bin_count pc -> j < fft_size pc - 1 ->
      exists a c,
        power_accumulation pc !! Z.to_nat (lowest_bin pc + j) = Some a
        /\ fftw_out pc !! Z.to_nat (j + 1) = Some c
        /\ power_accumulation pc' !! Z.to_nat (lowest_bin pc + j)
           = Some (fadd a (cabs c))).
Proof.
  intros H. pose proof (handle_fft_out_shape pc pc' H)
    as (power & acc & Hpc' & _ & Hlen & Hdrop & Hacc).
  split; [rewrite Hpc'; reflexivity|].
  split; [rewrite Hpc'; exact Hlen|].
  split; [rewrite Hpc'; reflexivity|].
  split; [rewrite Hpc'; reflexivity|].
  split.
  - intros i Hi. rewrite Hpc'. cbn [power_accumulation set_accumulation_count
      set_power_accumulation].
    destruct (in_range pc) eqn:Hin.
    + specialize (Hacc eq_refl). apply accumulate_content in Hacc as [_ Hout].
      apply Hout. lia.
    + rewrite (Hdrop eq_refl). reflexivity.
  - intros Hin j Hj Hk. exact (handle_fft_out_raw_order fadd cabs pc pc' j H Hin Hj Hk).
Qed.

Lemma deliver_effect (pc pc' : Configuration) (frame : Frequency * list C) :
  deliver fadd cabs pc frame = Ok pc' ->
  accumulation_count pc'
  = accumulation_count pc + (if frame_in_range pc frame then 1 else 0)
  /\ length (power_accumulation pc') = length (power_accumulation pc)
  /\ placement pc' = placement pc
  /\ fft_size pc' = fft_size pc.
Proof.
  unfold deliver, frame_in_range. intros H.
  apply handle_fft_out_shape in H as (power & acc & -> & _ & Hlen & _).
  repeat split; exact Hlen.
Qed.

(** X8.  Over any run of frames, [accumulation_count] goes up by the number
    of frames that are in range, so it never goes down; the number of buckets
    and the fields that place a frame do not change. *)
Theorem deliver_all_counts (frames : list (Frequency * list C)) (pc pc' : Configuration) :
  deliver_all fadd cabs pc frames = Ok pc' ->
  accumulation_count pc'
  = accumulation_count pc
    + Z.of_nat (length (List.filter (frame_in_range pc) frames))
  /\ accumulation_count pc <= accumulation_count pc'
  /\ length (power_accumulation pc') = length (power_accumulation pc)
  /\ placement pc' = placement pc.
Proof.
  revert pc. induction frames as [|frame frames IH]; intros pc; simpl.
  - intros [= <-]. repeat split; lia.
  - intros H. apply bind_inv in H as (pc1 & H1 & H).
    apply deliver_effect in H1 as (Hc1 & Hl1 & Hp1 & _).
    apply IH in H as (Hc & _ & Hl & Hp).
    assert (Hf : List.filter (frame_in_range pc1) frames
                 = List.filter (frame_in_range pc) frames).
    { apply List.filter_ext. intros fr. apply frame_in_range_placement. exact Hp1. }
    rewrite Hf in Hc.
    assert (Heq : accumulation_count pc'
                  = accumulation_count pc
                    + Z.of_nat (length (if frame_in_range pc frame
                                        then frame :: List.filter (frame_in_range pc) frames
                                        else List.filter (frame_in_range pc) frames))).
    { rewrite Hc, Hc1. destruct (frame_in_range pc frame); simpl length; lia. }
    repeat split; [exact Heq | lia | congruence | congruence].
Qed.

Lemma placement_bins (pc pc' : Configuration) (f : Frequency) :
  placement pc' = placement pc ->
  lowest_bin (set_current_frequency f pc') = lowest_bin (set_current_frequency f pc)
  /\ bin_count (set_current_frequency f pc') = bin_count (set_current_frequency f pc).
Proof.
  unfold placement, lowest_bin, bin_count, lowest_frequency_retained. fields.
  intros [= -> -> -> _]. split; reflexivity.
Qed.

(** X9.  Delivering the same frame [n] times while it is in range adds the
    magnitude of output bin [j + 1] to bucket [lowest_bin + j] [n] times over,
    and raises [accumulation_count] by [n]. *)
Theorem deliver_all_repeated (n : nat) (frame : Frequency * list C)
    (pc pc' : Configuration) (j : Z) (a : F) (c : C) :
  deliver_all fadd cabs pc (replicate n frame) = Ok pc' ->
  frame_in_range pc frame = true ->
  let tuned := set_current_frequency (fst frame) pc in
  0 <= j < bin_count tuned -> j < fft_size pc - 1 ->
  power_accumulation pc !! Z.to_nat (lowest_bin tuned + j) = Some a ->
  snd frame !! Z.to_nat (j + 1) = Some c ->
  accumulation_count pc' = accumulation_count pc + Z.of_nat n
  /\ power_accumulation pc' !! Z.to_nat (lowest_bin tuned + j)
     = Some (Nat.iter n (fun x => fadd x (cabs c)) a).
Proof.
  cbv zeta. revert pc a. induction n as [|n IH]; intros pc a; simpl replicate; simpl deliver_all.
  - intros [= <-] _ _ _ Ha _. split; [lia | exact Ha].
  - intros H Hin Hj Hk Ha Hc. apply bind_inv in H as (pc1 & H1 & H).
    pose proof (deliver_effect _ _ _ H1) as (Hc1 & _ & Hp1 & Hs1).
    rewrite Hin in Hc1.
    destruct (placement_bins pc pc1 (fst frame) Hp1) as [Hlb Hbc].
    unfold deliver in H1. unfold frame_in_range in Hin.
    set (tuned := set_current_frequency (fst frame) pc) in *.
    assert (Hin' : in_range (set_fftw_out (snd frame) tuned) = true) by exact Hin.
    destruct (handle_fft_out_raw_order fadd cabs _ _ j H1 Hin') as (a0 & c0 & Ha0 & Hc0 & Hr);
      [exact Hj | exact Hk|].
    change (power_accumulation (set_fftw_out (snd frame) tuned))
      with (power_accumulation pc) in Ha0.
    change (lowest_bin (set_fftw_out (snd frame) tuned)) with (lowest_bin tuned) in Ha0, Hr.
    change (fftw_out (set_fftw_out (snd frame) tuned)) with (snd frame) in Hc0.
    assert (a0 = a) by congruence. assert (c0 = c) by congruence. subst a0 c0.
    destruct (IH pc1 (fadd a (cabs c)) H) as [Hcount Hval].
    + rewrite <- Hin. apply frame_in_range_placement. exact Hp1.
    + rewrite Hbc. exact Hj.
    + rewrite Hs1. exact Hk.
    + rewrite Hlb. exact Hr.
    + exact Hc.
    + rewrite Hlb in Hval. split; [lia|].
      rewrite Hval. f_equal. symmetry. apply (Nat.iter_succ_r n (fun x => fadd x (cabs c)) a).
Qed.

(** X10.  With the first tuning centred half a bandwidth above the start
    frequency, as [plan_tuning] sets it, the retained band of tuning [i]
    starts [i] bandwidths above the start frequency; the bucket runs of
    successive tunings do not overlap, and at most one bucket lies between
    them. *)
Theorem tuning_bucket_runs (pc : Configuration) (i : Z) :
  tuning_start pc = start_frequency pc + tuning_bandwidth pc ÷ 2 ->
  0 <= tuning_bandwidth pc -> 0 < frequency_resolution pc -> 0 <= i ->
  let tuned k := set_current_frequency (planned_frequency pc k) pc in
  lowest_frequency_retained (tuned i) = start_frequency pc + i * tuning_bandwidth pc
  /\ 0 <= lowest_bin (tuned i)
  /\ lowest_bin (tuned i) + bin_count (tuned i) <= lowest_bin (tuned (i + 1))
  /\ lowest_bin (tuned (i + 1)) <= lowest_bin (tuned i) + bin_count (tuned i) + 1.
Proof.
  intros Hts Hbw Hres Hi. cbv zeta.
  unfold lowest_bin, bin_count, lowest_frequency_retained, planned_frequency. fields.
  rewrite Hts.
  set (bw := tuning_bandwidth pc) in *. set (res := frequency_resolution pc) in *.
  replace (start_frequency pc + bw ÷ 2 + i * bw - bw ÷ 2 - start_frequency pc)
    with (i * bw) by lia.
  replace (start_frequency pc + bw ÷ 2 + (i + 1) * bw - bw ÷ 2 - start_frequency pc)
    with (i * bw + bw) by lia.
  assert (0 <= i * bw) by nia.
  rewrite !Z.quot_div_nonneg by lia.
  pose proof (Z.div_mod (i * bw) res ltac:(lia)).
  pose proof (Z.mod_pos_bound (i * bw) res Hres).
  pose proof (Z.div_mod bw res ltac:(lia)).
  pose proof (Z.mod_pos_bound bw res Hres).
  pose proof (Z.div_mod (i * bw + bw) res ltac:(lia)).
  pose proof (Z.mod_pos_bound (i * bw + bw) res Hres).
  assert (0 <= i * bw / res) by (apply Z.div_pos; lia).
  repeat split; [lia | lia | nia | nia].
Qed.

(** X11.  When the band is at least two bins narrower than a tuning, the
    range check refuses the frames of every tuning of the plan: the bins a
    tuning retains outnumber the buckets. *)
Theorem narrow_band_drops_every_frame (pc : Configuration) (i : Z) (out : list C) :
  tuning_start pc = start_frequency pc + tuning_bandwidth pc ÷ 2 ->
  0 < frequency_resolution pc -> 0 <= i ->
  0 <= end_frequency pc - start_frequency pc ->
  power_buckets pc
  = (end_frequency pc - start_frequency pc + frequency_resolution pc - 1)
    ÷ frequency_resolution pc ->
  end_frequency pc - start_frequency pc
  <= tuning_bandwidth pc - 2 * frequency_resolution pc ->
  frame_in_range pc (planned_frequency pc i, out) = false.
Proof.
  intros Hts Hres Hi Hwidth Hbuckets Hnarrow.
  unfold frame_in_range. cbn [fst]. apply in_range_false. right.
  unfold lowest_bin, bin_count, lowest_frequency_retained, planned_frequency. fields.
  rewrite Hbuckets, Hts.
  set (bw := tuning_bandwidth pc) in *. set (res := frequency_resolution pc) in *.
  set (width := end_frequency pc - start_frequency pc) in *.
  replace (start_frequency pc + bw ÷ 2 + i * bw - bw ÷ 2 - start_frequency pc)
    with (i * bw) by lia.
  assert (0 <= i * bw) by nia.
  rewrite !Z.quot_div_nonneg by lia.
  pose proof (Z.div_mod (width + res - 1) res ltac:(lia)).
  pose proof (Z.mod_pos_bound (width + res - 1) res Hres).
  pose proof (Z.div_mod bw res ltac:(lia)).
  pose proof (Z.mod_pos_bound bw res Hres).
  assert (0 <= i * bw / res) by (apply Z.div_pos; lia).
  nia.
Qed.
End FrameEffects.

Lemma handle_fft_out_effect_witness :
  handle_fft_out Z.add Z.abs (bench_frame 1) = Ok (bench_result 1 [0; 0; 0; 0; 0; 0; 1; 2; 3; 4; 5; 6])
  /\ accumulation_count (bench_result 1 [0; 0; 0; 0; 0; 0; 1; 2; 3; 4; 5; 6]) = 1
  /\ power_accumulation (bench_result 1 [0; 0; 0; 0; 0; 0; 1; 2; 3; 4; 5; 6]) !! 5%nat = Some 0
  /\ power_accumulation (bench_result 1 [0; 0; 0; 0; 0; 0; 1; 2; 3; 4; 5; 6]) !! 8%nat = Some 3.
Proof.
  assert (H : handle_fft_out Z.add Z.abs (bench_frame 1)
              = Ok (bench_result 1 [0; 0; 0; 0; 0; 0; 1; 2; 3; 4; 5; 6])) by (vm_compute; reflexivity).
  split; [exact H|].
  destruct (handle_fft_out_effect Z.add Z.abs _ _ H) as (Hcount & _ & _ & _ & Hout & Hin).
  split; [rewrite Hcount; reflexivity|]. split.
  - rewrite (Hout 5%nat); [reflexivity|]. vm_compute. intros [Hle _]. apply Hle. reflexivity.
  - destruct (Hin eq_refl 2) as (a & c & Ha & Hc & Hsum).
    + vm_compute. split; [discriminate | reflexivity].
    + vm_compute. reflexivity.
    + vm_compute in Ha, Hc. injection Ha as <-. injection Hc as <-. exact Hsum.
Defined.

Lemma deliver_all_counts_witness :
  deliver_all Z.add Z.abs (bench_frame 0)
    [(103000, bench_output); (115000, bench_output); (109000, bench_output)]
  = Ok (bench_result 2 [1; 2; 3; 4; 5; 6; 1; 2; 3; 4; 5; 6])
  /\ accumulation_count (bench_result 2 [1; 2; 3; 4; 5; 6; 1; 2; 3; 4; 5; 6])
     = accumulation_count (bench_frame 0) + 2.
Proof.
  assert (H : deliver_all Z.add Z.abs (bench_frame 0)
                [(103000, bench_output); (115000, bench_output); (109000, bench_output)]
              = Ok (bench_result 2 [1; 2; 3; 4; 5; 6; 1; 2; 3; 4; 5; 6]))
    by (vm_compute; reflexivity).
  split; [exact H|].
  destruct (deliver_all_counts Z.add Z.abs _ _ _ H) as (Hcount & _).
  exact Hcount.
Defined.

Lemma deliver_all_repeated_witness :
  deliver_all Z.add Z.abs (bench_frame 0) (replicate 3 (109000, bench_output))
  = Ok (bench_result 3 [0; 0; 0; 0; 0; 0; 3; 6; 9; 12; 15; 18])
  /\ accumulation_count (bench_result 3 [0; 0; 0; 0; 0; 0; 3; 6; 9; 12; 15; 18]) = 3
  /\ power_accumulation (bench_result 3 [0; 0; 0; 0; 0; 0; 3; 6; 9; 12; 15; 18]) !! 8%nat = Some 9.
Proof.
  assert (H : deliver_all Z.add Z.abs (bench_frame 0) (replicate 3 (109000, bench_output))
              = Ok (bench_result 3 [0; 0; 0; 0; 0; 0; 3; 6; 9; 12; 15; 18])) by (vm_compute; reflexivity).
  split; [exact H|].
  apply (deliver_all_repeated Z.add Z.abs 3 (109000, bench_output) (bench_frame 0)
           _ 2 0 3 H).
  - reflexivity.
  - vm_compute. split; [discriminate | reflexivity].
  - reflexivity.
  - reflexivity.
  - reflexivity.
Defined.

Lemma tuning_bucket_runs_witness :
  let tuned k := set_current_frequency (planned_frequency example_plan k) example_plan in
  lowest_frequency_retained (tuned 1) = 106144000
  /\ lowest_bin (tuned 0) + bin_count (tuned 0) <= lowest_bin (tuned 1)
     <= lowest_bin (tuned 0) + bin_count (tuned 0) + 1.
Proof.
  cbv zeta.
  destruct (tuning_bucket_runs example_plan 1) as (Hlow & _);
    [vm_compute; reflexivity | vm_compute; discriminate | vm_compute; reflexivity
    | vm_compute; discriminate |].
  destruct (tuning_bucket_runs example_plan 0) as (_ & _ & Hnext & Hgap);
    [vm_compute; reflexivity | vm_compute; discriminate | vm_compute; reflexivity
    | vm_compute; discriminate |].
  split; [rewrite Hlow; vm_compute; reflexivity|]. split; [exact Hnext | exact Hgap].
Defined.

Lemma narrow_band_drops_every_frame_witness :
  end_frequency narrow_plan - start_frequency narrow_plan
  <= tuning_bandwidth narrow_plan - 2 * frequency_resolution narrow_plan
  /\ tuning_count narrow_plan = 1
  /\ frame_in_range narrow_plan (planned_frequency narrow_plan 0, ramp) = false.
Proof.
  split; [vm_compute; discriminate|]. split; [vm_compute; reflexivity|].
  apply (narrow_band_drops_every_frame narrow_plan 0 ramp).
  - vm_compute; reflexivity.
  - vm_compute; reflexivity.
  - vm_compute; discriminate.
  - vm_compute; discriminate.
  - vm_compute; reflexivity.
  - vm_compute; discriminate.
Defined.

(** ** The sample path *)

Section SampleBlocks.
Context {F C : Type}.
Variables (fadd : F -> F -> F) (cabs : C -> F).
Variable windowed : Z -> Z -> F -> C.
Variable fftwf_execute : list C -> list C.
Hypothesis fftwf_execute_length : forall input, length (fftwf_execute input) = length input.

Abbreviation Path := (@Pipeline F C).

End SampleBlocks.

Lemma bench_execute_length (input : list Z) :
  length (bench_execute input) = length input.
Proof. apply length_map. Qed.


(** ** The scan loop as a whole *)

Section ScanPlan.

Context {F C : Type}.

Abbreviation Config := (@ProgramConfiguration F C).
Abbreviation State := (@machine F C).

Lemma flush_loop_outcome (n i : nat) (inp : input) (pc : Config) :
  (exists k, (k < n)%nat
     /\ 0 <= samples (blocks inp (i + k))
     /\ (forall j, (j < k)%nat -> samples (blocks inp (i + j)) < 0)
     /\ flush_loop n i inp pc
        = (stamped (block_time (blocks inp (i + k))) pc, true,
           replicate (S k) ReadStream))
  \/ ((forall j, (j < n)%nat -> samples (blocks inp (i + j)) < 0)
      /\ flush_loop n i inp pc = (pc, false, replicate n ReadStream)).
Proof.
  revert i. induction n as [|n IH]; intros i.
  - right. split; [lia | reflexivity].
  - cbn [flush_loop]. destruct (0 <=? samples (blocks inp i)) eqn:E.
    + left. exists 0%nat. rewrite Nat.add_0_r. apply Z.leb_le in E.
      split; [lia|]. split; [exact E|]. split; [lia|].
      unfold stamped. fields. destruct (first_time pc =? 0); reflexivity.
    + apply Z.leb_gt in E.
      destruct (IH (S i)) as [(k & Hk & Hok & Hbefore & ->)|[Hnone ->]].
      * left. exists (S k). rewrite <- Nat.add_succ_comm.
        split; [lia|]. split; [exact Hok|]. split; [|reflexivity].
        intros [|j] Hj; [rewrite Nat.add_0_r; exact E|].
        rewrite <- Nat.add_succ_comm. apply Hbefore. lia.
      * right. split; [|reflexivity].
        intros [|j] Hj; [rewrite Nat.add_0_r; exact E|].
        rewrite <- Nat.add_succ_comm. apply Hnone. lia.
Qed.

(** X13.  [retune] asks for the frequency once and then reads at most three
    blocks.  It fails, leaving the configuration as it was, when the driver
    refuses the frequency (no block is read) or when all three reads fail;
    it succeeds at the first read that does not fail, and only then commits
    the frequency and stamps the time of that block. *)
Theorem retune_outcome (inp : input) (pc : Config) (frequency : Frequency) :
  (set_frequency_ok inp = false
   /\ retune inp pc frequency = (pc, false, [SetFrequency frequency]))
  \/ (set_frequency_ok inp = true
      /\ (forall j, (j < 3)%nat -> samples (blocks inp j) < 0)
      /\ retune inp pc frequency
         = (pc, false, SetFrequency frequency :: replicate 3 ReadStream))
  \/ (set_frequency_ok inp = true
      /\ exists k, (k < 3)%nat
           /\ 0 <= samples (blocks inp k)
           /\ (forall j, (j < k)%nat -> samples (blocks inp j) < 0)
           /\ retune inp pc frequency
              = (set_current_frequency frequency
                   (stamped (block_time (blocks inp k)) pc), true,
                 SetFrequency frequency :: replicate (S k) ReadStream)).
Proof.
  unfold retune, flush_data_after_config_change.
  destruct (set_frequency_ok inp); cbn [negb]; [right | left; split; reflexivity].
  destruct (flush_loop_outcome 3 0 inp pc)
    as [(k & Hk & Hok & Hbefore & ->)|[Hnone ->]].
  - right. split; [reflexivity|]. exists k. cbn [Nat.add] in *.
    split; [exact Hk|]. split; [exact Hok|]. split; [exact Hbefore | reflexivity].
  - left. split; [reflexivity|]. split; [exact Hnone | reflexivity].
Qed.

(** What a step may do to the configuration. *)
Lemma retune_config (inp : input) (pc : Config) (frequency : Frequency) :
  let pc' := fst (fst (retune inp pc frequency)) in
  pc' = pc \/ exists t, pc' = set_current_frequency frequency (stamped t pc)
                        /\ snd (fst (retune inp pc frequency)) = true.
Proof.
  cbv zeta. unfold retune, flush_data_after_config_change.
  destruct (set_frequency_ok inp); cbn [negb]; [|left; reflexivity].
  destruct (flush_loop_outcome 3 0 inp pc) as [(k & _ & _ & _ & ->)|[_ ->]];
    cbn [fst snd]; eauto.
Qed.

Lemma receive_block_config (inp : input) (pc : Config) :
  receive_block inp pc = (pc, false)
  \/ exists t, receive_block inp pc = (stamped t pc, true).
Proof.
  unfold receive_block. destruct (samples (blocks inp 0%nat) <? 0); [left; reflexivity|].
  right. exists (block_time (blocks inp 0%nat)). unfold stamped.
  destruct (first_time pc =? 0); reflexivity.
Qed.

Lemma stamped_schedule (t : ClockTime) (pc : Config) :
  schedule (stamped t pc) = schedule pc.
Proof. reflexivity. Qed.

Lemma stamped_first_time (t : ClockTime) (pc : Config) :
  first_time pc <> 0 -> first_time (stamped t pc) = first_time pc.
Proof.
  intros H. unfold stamped. fields.
  destruct (first_time pc =? 0) eqn:E; [apply Z.eqb_eq in E; contradiction | reflexivity].
Qed.

(** The configuration after a step: as before, or stamped with a block time,
    and then possibly tuned. *)
Lemma step_config (inp : input) (m : State) :
  let pc' := config (fst (step inp m)) in
  pc' = config m
  \/ (exists t, pc' = stamped t (config m))
  \/ (exists t repetition i frequency,
        at_point m = ScanLoop repetition i frequency
        /\ i < tuning_count (config m)
        /\ pc' = set_current_frequency frequency (stamped t (config m))).
Proof.
  cbv zeta. unfold step. destruct (at_point m) as [rep|rep i f|rep i f e|rep r|] eqn:Hp.
  - destruct (_ || _); left; reflexivity.
  - destruct (i <? tuning_count (config m)) eqn:Hi; [|left; reflexivity].
    destruct (1 <? _); [left; reflexivity|].
    apply Z.ltb_lt in Hi.
    destruct (retune_config inp (config m) f) as [H|(t & H & _)];
      destruct (retune inp (config m) f) as [[pc ok] acts]; cbn [fst snd] in H; subst pc.
    + destruct ok; left; reflexivity.
    + right; right. exists t, rep, i, f. destruct ok; (split; [reflexivity|]);
        (split; [exact Hi | reflexivity]).
  - destruct (_ <? _); [|left; reflexivity].
    destruct (receive_block_config inp (config m)) as [->|[t ->]];
      [left; reflexivity | right; left; exists t; reflexivity].
  - destruct (_ || _); left; reflexivity.
  - left; reflexivity.
Qed.

Lemma step_keeps (inp : input) (m : State) :
  schedule (config (fst (step inp m))) = schedule (config m)
  /\ (first_time (config m) <> 0 ->
      first_time (config (fst (step inp m))) = first_time (config m)).
Proof.
  destruct (step_config inp m) as [->|[[t ->]|(t & rep & i & f & _ & _ & ->)]].
  - split; [reflexivity | intros _; reflexivity].
  - split; [reflexivity | apply stamped_first_time].
  - split; [reflexivity | apply (stamped_first_time t)].
Qed.

Lemma run_keeps (inputs : list input) (m : State) :
  schedule (config (fst (run inputs m))) = schedule (config m)
  /\ (first_time (config m) <> 0 ->
      first_time (config (fst (run inputs m))) = first_time (config m))
  /\ signals_caught m <= signals_caught (fst (run inputs m)).
Proof.
  revert m. induction inputs as [|inp inputs IH]; intros m; cbn [run].
  - split; [reflexivity|]. split; [intros _; reflexivity | cbn; lia].
  - destruct (step_keeps inp m) as [Hs Hf]. pose proof (step_signals inp m) as Hc.
    destruct (step inp m) as [m1 acts1]. cbn [fst] in *.
    destruct (IH m1) as (Hs' & Hf' & Hc').
    destruct (run inputs m1) as [m2 acts2]. cbn [fst] in *.
    split; [congruence|]. split; [|lia].
    intros H. rewrite Hf', Hf; [reflexivity | exact H | rewrite Hf; exact H].
Qed.


(** *** Only tunings of the plan *)

Lemma schedule_fields (pc pc' : Config) :
  schedule pc' = schedule pc ->
  repetition_limit pc' = repetition_limit pc
  /\ tuning_count pc' = tuning_count pc
  /\ dwell_time pc' = dwell_time pc
  /\ tuning_start pc' = tuning_start pc
  /\ tuning_bandwidth pc' = tuning_bandwidth pc.
Proof. unfold schedule. intros H. repeat split; congruence. Qed.

Lemma start_on_plan (pc : Config) : on_plan pc (start pc).
Proof. split; [reflexivity|]. split; [left; reflexivity | exact I]. Qed.

Lemma step_on_plan (pc : Config) (inp : input) (m : State) :
  on_plan pc m ->
  on_plan pc (fst (step inp m))
  /\ Forall (fun a => forall frequency, a = SetFrequency frequency ->
               exists i, 0 <= i < tuning_count pc
                         /\ frequency = planned_frequency pc i)
       (snd (step inp m)).
Proof.
  intros (Hs & Hcf & Hp).
  apply schedule_fields in Hs as Hfields. destruct Hfields as (_ & Htc & _ & Hts & Hbw).
  assert (Hs' : schedule (config (fst (step inp m))) = schedule pc)
    by (rewrite <- Hs; apply step_keeps).
  assert (Hcf' : current_frequency (config (fst (step inp m))) = current_frequency pc
                 \/ exists i, 0 <= i < tuning_count pc
                      /\ current_frequency (config (fst (step inp m)))
                         = planned_frequency pc i).
  { destruct (step_config inp m) as [->|[[t ->]|(t & rep & i & f & Hat & Hi & ->)]];
      [exact Hcf | exact Hcf |].
    rewrite Hat in Hp. destruct Hp as [Hi0 ->]. right. exists i.
    split; [lia | reflexivity]. }
  enough (Hrest : loop_on_plan pc (at_point (fst (step inp m)))
                   /\ Forall (fun a => forall frequency, a = SetFrequency frequency ->
                                exists i, 0 <= i < tuning_count pc
                                          /\ frequency = planned_frequency pc i)
                        (snd (step inp m))).
  { destruct Hrest as [H1 H2].
    split; [split; [exact Hs' | split; [exact Hcf' | exact H1]] | exact H2]. }
  clear Hs' Hcf'. unfold loop_on_plan in *. unfold step. destruct (at_point m) as [rep|rep i f|rep i f e|rep r|].
  - destruct (_ || _); cbn [fst snd at_point].
    + split; [|repeat constructor; intros ? [=]].
      split; [lia|]. unfold planned_frequency. rewrite <- Hts. lia.
    + split; [exact I | repeat constructor; intros ? [=]].
  - destruct Hp as [Hi0 Hf].
    destruct (i <? tuning_count (config m)) eqn:Hi; [|split; [exact I | constructor]].
    destruct (1 <? _); [split; [exact I | constructor]|].
    apply Z.ltb_lt in Hi.
    destruct (retune_actions inp (config m) f) as (reads & Hacts & Hreads).
    destruct (retune inp (config m) f) as [[pc1 ok] acts]. cbn [snd] in Hacts. subst acts.
    assert (Forall (fun a => forall frequency, a = SetFrequency frequency ->
               exists i, 0 <= i < tuning_count pc
                         /\ frequency = planned_frequency pc i)
              (SetFrequency f :: reads)).
    { constructor.
      - intros ? [= <-]. exists i. split; [lia | exact Hf].
      - eapply Forall_impl; [exact Hreads|]. intros a -> ? [=]. }
    destruct ok; cbn [fst snd at_point]; (split; [|assumption]); [|exact I].
    split; [lia | exact Hf].
  - destruct Hp as [Hi Hf].
    assert (Hnext : 0 <= i + 1 /\ f + tuning_bandwidth (config m)
                                  = planned_frequency pc (i + 1)).
    { split; [lia|]. rewrite Hf, Hbw. unfold planned_frequency. lia. }
    destruct (_ <? _); [|split; [exact Hnext | constructor]].
    destruct (receive_block_config inp (config m)) as [->|[t ->]]; cbn [fst snd at_point].
    + split; [exact Hnext | repeat constructor; intros ? [=]].
    + split; [split; assumption | repeat constructor; intros ? [=]].
  - destruct (_ || _); cbn [fst snd at_point]; (split; [exact I|]);
      repeat constructor; intros ? [=].
  - split; [exact I | constructor].
Qed.

Lemma run_on_plan (pc : Config) (inputs : list input) (m : State) :
  on_plan pc m ->
  on_plan pc (fst (run inputs m))
  /\ Forall (fun a => forall frequency, a = SetFrequency frequency ->
               exists i, 0 <= i < tuning_count pc
                         /\ frequency = planned_frequency pc i)
       (snd (run inputs m)).
Proof.
  revert m. induction inputs as [|inp inputs IH]; intros m H; cbn [run].
  - split; [exact H | constructor].
  - destruct (step_on_plan pc inp m H) as [H1 Hacts1].
    destruct (step inp m) as [m1 acts1]. cbn [fst snd] in *.
    destruct (IH m1 H1) as [H2 Hacts2].
    destruct (run inputs m1) as [m2 acts2]. cbn [fst snd] in *.
    split; [exact H2 | apply Forall_app; split; assumption].
Qed.

(** X15.  Whatever the driver answers and whenever signals arrive, every
    frequency the program asks the driver for is a tuning of the plan,
    [tuning_start + i * tuning_bandwidth] with [0 <= i < tuning_count], and
    the frequency the frames are tagged with is the initial one or such a
    tuning. *)
Theorem scan_tunes_planned_frequencies (inputs : list input) (pc : Config) :
  let planned frequency :=
    exists i, 0 <= i < tuning_count pc /\ frequency = planned_frequency pc i in
  Forall (fun a => forall frequency, a = SetFrequency frequency -> planned frequency)
    (snd (run inputs (start pc)))
  /\ (current_frequency (config (fst (run inputs (start pc)))) = current_frequency pc
      \/ planned (current_frequency (config (fst (run inputs (start pc)))))).
Proof.
  cbv zeta. destruct (run_on_plan pc inputs (start pc) (start_on_plan pc))
    as [(_ & Hcf & _) Hacts].
  split; [exact Hacts | exact Hcf].
Qed.

(** *** Counting sweeps and retunes *)

Lemma count_app (p : action -> bool) (l1 l2 : list action) :
  count p (l1 ++ l2) = count p l1 + count p l2.
Proof. unfold count. rewrite List.filter_app, length_app. lia. Qed.

Lemma count_nonneg (p : action -> bool) (l : list action) : 0 <= count p l.
Proof. unfold count. lia. Qed.

Lemma count_none (p : action -> bool) (l : list action) :
  Forall (fun a => p a = false) l -> count p l = 0.
Proof.
  unfold count. induction 1 as [|a l Ha _ IH]; [reflexivity|].
  cbn [List.filter]. rewrite Ha. exact IH.
Qed.

Lemma count_retune_actions (inp : input) (pc : Config) (frequency : Frequency) :
  count is_retune (snd (retune inp pc frequency)) = 1
  /\ count is_sweep_start (snd (retune inp pc frequency)) = 0
  /\ count is_finalise (snd (retune inp pc frequency)) = 0.
Proof.
  destruct (retune_actions inp pc frequency) as (reads & -> & Hreads).
  change (SetFrequency frequency :: reads) with ([SetFrequency frequency] ++ reads).
  rewrite !count_app.
  rewrite !(count_none _ reads)
    by (eapply Forall_impl; [exact Hreads|]; intros a ->; reflexivity).
  repeat split.
Qed.

Lemma step_tunings (inp : input) (m : State) :
  count is_retune (snd (step inp m)) + tunings_left (fst (step inp m))
  <= Z.max 0 (tuning_count (config m)) * count is_sweep_start (snd (step inp m))
     + tunings_left m.
Proof.
  destruct (step_keeps inp m) as [Hs _].
  apply schedule_fields in Hs as (_ & Htc & _). revert Htc.
  unfold tunings_left, step.
  destruct (at_point m) as [rep|rep i f|rep i f e|rep r|].
  - destruct (_ || _); cbn [fst snd at_point config]; intros _;
      change (count _ _) with 0 || change (count is_retune _) with 0;
      try change (count is_sweep_start [SetSampleRate]) with 1; lia.
  - destruct (i <? tuning_count (config m)) eqn:Hi;
      [|cbn [fst snd at_point config]; intros _; change (count _ []) with 0; lia].
    destruct (1 <? _);
      [cbn [fst snd at_point config]; intros _; change (count _ []) with 0; lia|].
    apply Z.ltb_lt in Hi.
    destruct (count_retune_actions inp (config m) f) as (Hr & Hw & _).
    destruct (retune inp (config m) f) as [[pc1 ok] acts]. cbn [snd] in Hr, Hw.
    destruct ok; cbn [fst snd at_point config]; intros Htc; rewrite Hr, Hw; lia.
  - destruct (_ <? _);
      [|cbn [fst snd at_point config]; intros _; change (count _ []) with 0; lia].
    destruct (receive_block inp (config m)) as [pc1 ok].
    destruct ok; cbn [fst snd at_point config]; intros Htc;
      change (count _ [ReadStream]) with 0; lia.
  - destruct (_ || _); cbn [fst snd at_point config]; intros _;
      change (count _ [Finalise]) with 0 || change (count _ []) with 0; lia.
  - cbn [fst snd at_point config]; intros _; change (count _ []) with 0; lia.
Qed.

Lemma run_tunings (inputs : list input) (m : State) :
  count is_retune (snd (run inputs m))
  <= Z.max 0 (tuning_count (config m)) * count is_sweep_start (snd (run inputs m))
     + tunings_left m.
Proof.
  revert m. induction inputs as [|inp inputs IH]; intros m; cbn [run].
  - cbn [snd]. change (count _ []) with 0.
    unfold tunings_left. destruct (at_point m); lia.
  - pose proof (step_tunings inp m) as H1.
    destruct (step_keeps inp m) as [Hs _].
    apply schedule_fields in Hs as (_ & Htc & _).
    destruct (step inp m) as [m1 acts1]. cbn [fst snd] in *.
    specialize (IH m1). destruct (run inputs m1) as [m2 acts2]. cbn [fst snd] in *.
    rewrite !count_app. rewrite Htc in IH.
    pose proof (count_nonneg is_sweep_start acts2). nia.
Qed.

(** X16.  A sweep retunes at most [tuning_count] times: however long the
    program runs, the calls that set the frequency are at most
    [tuning_count] times the calls that set the sample rate (none when
    [tuning_count] is not positive). *)
Theorem scan_retunes_per_sweep (inputs : list input) (pc : Config) :
  count is_retune (snd (run inputs (start pc)))
  <= Z.max 0 (tuning_count pc) * count is_sweep_start (snd (run inputs (start pc))).
Proof.
  pose proof (run_tunings inputs (start pc)) as H.
  change (tunings_left (start pc)) with 0 in H.
  change (config (start pc)) with pc in H. lia.
Qed.

Lemma step_sweeps (inp : input) (m : State) :
  0 < repetition_limit (config m) ->
  count is_sweep_start (snd (step inp m)) + sweeps_left (fst (step inp m))
  <= sweeps_left m.
Proof.
  intros Hlimit. destruct (step_keeps inp m) as [Hs _].
  apply schedule_fields in Hs as (Hrl & _). revert Hrl.
  unfold sweeps_left, step.
  destruct (at_point m) as [rep|rep i f|rep i f e|rep r|].
  - destruct (repetition_limit (config m) =? 0) eqn:E0; [apply Z.eqb_eq in E0; lia|].
    cbn [orb]. destruct (rep <? repetition_limit (config m)) eqn:E;
      cbn [fst snd at_point config]; intros _.
    + apply Z.ltb_lt in E. change (count _ _) with 1. lia.
    + change (count _ _) with 0. lia.
  - destruct (i <? tuning_count (config m));
      [|cbn [fst snd at_point config]; intros _; change (count _ []) with 0; lia].
    destruct (1 <? _);
      [cbn [fst snd at_point config]; intros _; change (count _ []) with 0; lia|].
    destruct (count_retune_actions inp (config m) f) as (_ & Hw & _).
    destruct (retune inp (config m) f) as [[pc1 ok] acts]. cbn [snd] in Hw.
    destruct ok; cbn [fst snd at_point config]; intros Hrl; rewrite Hw; lia.
  - destruct (_ <? _);
      [|cbn [fst snd at_point config]; intros _; change (count _ []) with 0; lia].
    destruct (receive_block inp (config m)) as [pc1 ok].
    destruct ok; cbn [fst snd at_point config]; intros Hrl;
      change (count _ [ReadStream]) with 0; lia.
  - destruct (_ || _); cbn [fst snd at_point config]; intros _;
      change (count _ [Finalise]) with 0 || change (count _ []) with 0; lia.
  - cbn [fst snd at_point config]; intros _; change (count _ []) with 0; lia.
Qed.

Lemma run_sweeps (inputs : list input) (m : State) :
  0 < repetition_limit (config m) ->
  count is_sweep_start (snd (run inputs m)) <= sweeps_left m.
Proof.
  revert m. induction inputs as [|inp inputs IH]; intros m Hlimit; cbn [run].
  - cbn [snd]. change (count _ []) with 0.
    unfold sweeps_left. destruct (at_point m); lia.
  - pose proof (step_sweeps inp m Hlimit) as H1.
    destruct (step_keeps inp m) as [Hs _].
    apply schedule_fields in Hs as (Hrl & _).
    destruct (step inp m) as [m1 acts1]. cbn [fst snd] in *.
    specialize (IH m1). destruct (run inputs m1) as [m2 acts2]. cbn [fst snd] in *.
    rewrite count_app. rewrite Hrl in IH. specialize (IH Hlimit). lia.
Qed.

(** X17.  With a repetition limit the program starts at most that many
    sweeps, and so retunes at most [repetition_limit * tuning_count] times,
    whatever the driver answers. *)
Theorem scan_repetition_limit (inputs : list input) (pc : Config) :
  0 < repetition_limit pc ->
  count is_sweep_start (snd (run inputs (start pc))) <= repetition_limit pc
  /\ count is_retune (snd (run inputs (start pc)))
     <= repetition_limit pc * Z.max 0 (tuning_count pc).
Proof.
  intros Hlimit.
  pose proof (run_sweeps inputs (start pc) Hlimit) as Hw.
  pose proof (run_tunings inputs (start pc)) as Ht.
  change (tunings_left (start pc)) with 0 in Ht.
  change (config (start pc)) with pc in Ht.
  unfold sweeps_left in Hw. cbn [start at_point config] in Hw.
  pose proof (count_nonneg is_sweep_start (snd (run inputs (start pc)))).
  split; [lia | nia].
Qed.

(** *** The exit *)

Lemma step_exit (inp : input) (m : State) :
  match at_point m with
  | Exited => at_point (fst (step inp m)) = Exited /\ snd (step inp m) = []
  | _ => (at_point (fst (step inp m)) = Exited /\ snd (step inp m) = [Finalise])
         \/ (at_point (fst (step inp m)) <> Exited
             /\ count is_finalise (snd (step inp m)) = 0)
  end.
Proof.
  unfold step. destruct (at_point m) as [rep|rep i f|rep i f e|rep r|].
  - destruct (_ || _); [right | left]; split; try reflexivity. discriminate.
  - right. destruct (_ <? _); [|split; [discriminate | reflexivity]].
    destruct (1 <? _); [split; [discriminate | reflexivity]|].
    destruct (count_retune_actions inp (config m) f) as (_ & _ & Hf).
    destruct (retune inp (config m) f) as [[pc1 ok] acts]. cbn [snd] in Hf.
    destruct ok; (split; [discriminate | exact Hf]).
  - right. destruct (_ <? _); [|split; [discriminate | reflexivity]].
    destruct (receive_block inp (config m)) as [pc1 ok].
    destruct ok; (split; [discriminate | reflexivity]).
  - destruct (_ || _); [left | right]; split; try reflexivity. discriminate.
  - split; reflexivity.
Qed.

Lemma run_exited (inputs : list input) (m : State) :
  at_point m = Exited ->
  at_point (fst (run inputs m)) = Exited /\ snd (run inputs m) = [].
Proof.
  revert m. induction inputs as [|inp inputs IH]; intros m H; cbn [run].
  - split; [exact H | reflexivity].
  - pose proof (step_exit inp m) as H1. rewrite H in H1. destruct H1 as [Hp Ha].
    destruct (step inp m) as [m1 acts1]. cbn [fst snd] in *. subst acts1.
    destruct (IH m1 Hp) as [Hp2 Ha2].
    destruct (run inputs m1) as [m2 acts2]. cbn [fst snd] in *. subst acts2.
    split; [exact Hp2 | reflexivity].
Qed.

Lemma run_exit (inputs : list input) (m : State) :
  at_point m <> Exited ->
  (at_point (fst (run inputs m)) = Exited
   /\ exists before, snd (run inputs m) = before ++ [Finalise]
                     /\ count is_finalise before = 0)
  \/ (at_point (fst (run inputs m)) <> Exited
      /\ count is_finalise (snd (run inputs m)) = 0).
Proof.
  revert m. induction inputs as [|inp inputs IH]; intros m H; cbn [run].
  - right. split; [exact H | reflexivity].
  - pose proof (step_exit inp m) as H1.
    destruct (at_point m) eqn:Hp; try contradiction;
      (destruct H1 as [[Hp1 Ha1]|[Hp1 Ha1]];
       [pose proof (run_exited inputs (fst (step inp m)) Hp1) as [Hp2 Ha2];
        destruct (step inp m) as [m1 acts1]; cbn [fst snd] in *; subst acts1;
        destruct (run inputs m1) as [m2 acts2]; cbn [fst snd] in *; subst acts2;
        left; split; [exact Hp2 | exists []; split; reflexivity]
       |specialize (IH (fst (step inp m)) Hp1);
        destruct (step inp m) as [m1 acts1]; cbn [fst snd] in *;
        destruct (run inputs m1) as [m2 acts2]; cbn [fst snd] in *;
        destruct IH as [[Hp2 (before & -> & Hb)]|[Hp2 Hb]];
        [left; split; [exact Hp2|]; exists (acts1 ++ before);
         split; [apply app_assoc | rewrite count_app; lia]
        |right; split; [exact Hp2 | rewrite count_app; lia]]]).
Qed.

(** X18.  [finalise_configuration] is called when [main] leaves its loop and
    at no other time: a run that has exited made the call once, as its last
    call to the driver, and a run that has not exited has not made it. *)
Theorem main_finalises_once (inputs : list input) (pc : Config) :
  let m := fst (run inputs (start pc)) in
  let calls := snd (run inputs (start pc)) in
  (at_point m = Exited
   /\ exists before, calls = before ++ [Finalise] /\ count is_finalise before = 0)
  \/ (at_point m <> Exited /\ count is_finalise calls = 0).
Proof.
  cbv zeta. apply run_exit. discriminate.
Qed.

End ScanPlan.


Lemma scan_repetition_limit_witness :
  let pc := set_repetition_limit 1 bench_plan in
  let calls := snd (run (replicate 40 (tick 0 200000)) (start pc)) in
  0 < repetition_limit pc
  /\ count is_sweep_start calls <= 1
  /\ count is_retune calls <= 2.
Proof.
  cbv zeta. split; [reflexivity|].
  apply (scan_repetition_limit (replicate 40 (tick 0 200000))
           (set_repetition_limit 1 bench_plan)).
  reflexivity.
Defined.
